(** * Feast data-quality connector: a shallow embedding of [main.py] and
    [models.py], and the properties of its serializer, timestamp
    normalizer and batch loop.

    Python values are a tagged union ([pyval]); dictionaries are
    association lists in insertion order; floats are IEEE binary64
    (Rocq's primitive floats); exceptions are the [Raise] branch of
    [result]; network calls and the wall clock are read from a [World]
    and recorded in a trace.  The log lines ([_log]) only write to
    standard output and are left out. *)

From Stdlib Require Import ZArith List String Ascii Bool Lia.
From Stdlib Require Import PrimFloat SpecFloat FloatOps FloatAxioms.
Import ListNotations.

Set Warnings "-register-all".
Local Open Scope string_scope.
Local Open Scope Z_scope.

(* ================================================================== *)
(** * Part I. Definitions *)
(* ================================================================== *)

(** ** Exceptions and results *)

(** The exception classes the connector can meet.  [RequestException]
    stands for the transport failures of [requests] (connection error,
    timeout); [HTTPError] is what [raise_for_status] raises. *)
Inductive exn : Type :=
| RuntimeError
| HTTPError (status : Z)
| RequestException
| JSONDecodeError
| AttributeError
| TypeError
| ValueError
| OverflowError
| OSError.

Inductive result (A : Type) : Type :=
| Ok (a : A)
| Raise (e : exn).

Arguments Ok {A} a.
Arguments Raise {A} e.

Definition rbind {A B} (r : result A) (k : A -> result B) : result B :=
  match r with
  | Ok a => k a
  | Raise e => Raise e
  end.

Notation "x <- r ;; k" := (rbind r (fun x => k))
  (at level 61, r at next level, right associativity).

(** ** Python values *)

Inductive pyval : Type :=
| VNone
| VBool (b : bool)
| VInt (z : Z)
| VFloat (f : float)
| VStr (s : string)
| VList (l : list pyval)
| VDict (d : list (string * pyval)).

(** A [dict] with string keys, in insertion order. *)
Definition dict : Type := list (string * pyval).

Fixpoint assoc {A : Type} (k : string) (d : list (string * A)) : option A :=
  match d with
  | [] => None
  | (k', v) :: d' => if String.eqb k k' then Some v else assoc k d'
  end.

(** [d.get(k)]: the value, or [None] when the key is missing. *)
Definition dict_get (d : dict) (k : string) : pyval :=
  match assoc k d with
  | Some v => v
  | None => VNone
  end.

(** [v.get(k)] on an arbitrary value: only a dict has the method. *)
Definition py_get (v : pyval) (k : string) : result pyval :=
  match v with
  | VDict d => Ok (dict_get d k)
  | _ => Raise AttributeError
  end.

(** [bool(v)]: Python truthiness. *)
Definition py_bool (v : pyval) : bool :=
  match v with
  | VNone => false
  | VBool b => b
  | VInt z => negb (Z.eqb z 0)
  | VFloat f => negb (PrimFloat.eqb f 0%float)
  | VStr s => negb (String.eqb s "")
  | VList l => match l with [] => false | _ => true end
  | VDict d => match d with [] => false | _ => true end
  end.

(** [a or b]. *)
Definition py_or (a b : pyval) : pyval := if py_bool a then a else b.

(** [v is not None]. *)
Definition is_not_None (v : pyval) : bool :=
  match v with
  | VNone => false
  | _ => true
  end.

Definition dict_truthy (d : dict) : bool :=
  match d with
  | [] => false
  | _ => true
  end.

(** [d or {}] for a dict [d]. *)
Definition dict_or_empty (d : dict) : dict := if dict_truthy d then d else [].

(** [{k: v for k, v in d.items() if v is not None}] *)
Definition drop_None (d : dict) : dict :=
  filter (fun kv => is_not_None (snd kv)) d.

(** ** models.py *)

Record MonitoringPlatformQualityCheck : Type := {
  event_type : string;
  dataset_id : pyval;
  dataset_name : pyval;
  name : pyval;
  category : dict;
  low : pyval;
  value : pyval;
  passed : bool;
  at_timestamp : string
}.

(** [MonitoringPlatformQualityCheck.__init__]; [category] is
    [dict | None] and is stored as [category or {}]. *)
Definition new_quality_check (dataset_id dataset_name name : pyval)
    (category : option dict) (low value : pyval) (passed : bool)
    (at_timestamp : string) : MonitoringPlatformQualityCheck :=
  {| event_type := "quality_check";
     dataset_id := dataset_id;
     dataset_name := dataset_name;
     name := name;
     category := match category with
                 | Some d => dict_or_empty d
                 | None => []
                 end;
     low := low;
     value := value;
     passed := passed;
     at_timestamp := at_timestamp |}.

(** The value [to_dict] computes for the "category" key before the
    final filter. *)
Definition category_payload (self : MonitoringPlatformQualityCheck) : pyval :=
  if dict_truthy (category self)
  then VDict (drop_None
                [ ("context", dict_get (dict_or_empty (category self)) "context");
                  ("category", dict_get (dict_or_empty (category self)) "category") ])
  else VNone.

Definition to_dict (self : MonitoringPlatformQualityCheck) : dict :=
  let payload :=
    [ ("event_type", VStr (event_type self));
      ("dataset_id", dataset_id self);
      ("dataset_name", dataset_name self);
      ("name", name self);
      ("category", category_payload self);
      ("low", low self);
      ("value", value self);
      ("passed", VBool (passed self));
      ("@timestamp", VStr (at_timestamp self)) ] in
  drop_None payload.

(** ** Python strings

    A [str] is a [string] whose characters are read as the code points
    U+0000..U+00FF. *)

Definition code (c : ascii) : Z := Z.of_N (N_of_ascii c).

(** [c.isspace()] on that range. *)
Definition is_space (c : ascii) : bool :=
  let n := code c in
  ((9 <=? n) && (n <=? 13)) || ((28 <=? n) && (n <=? 32))
  || (n =? 133) || (n =? 160).

Fixpoint lstrip_by (p : ascii -> bool) (s : string) : string :=
  match s with
  | EmptyString => EmptyString
  | String c s' => if p c then lstrip_by p s' else s
  end.

Fixpoint rstrip_by (p : ascii -> bool) (s : string) : string :=
  match s with
  | EmptyString => EmptyString
  | String c s' =>
      match rstrip_by p s' with
      | EmptyString => if p c then EmptyString else String c EmptyString
      | r => String c r
      end
  end.

(** [s.strip()] *)
Definition strip (s : string) : string :=
  lstrip_by is_space (rstrip_by is_space s).

(** [s.rstrip("/")] *)
Definition rstrip_slash (s : string) : string :=
  rstrip_by (fun c => Ascii.eqb c "/"%char) s.

Definition str_truthy (s : string) : bool := negb (String.eqb s "").

(** [s.replace(old, new)] for a non-empty [old]: left to right, without
    overlap.  [skip] counts the characters of a match still to pass. *)
Fixpoint replace_from (old new : string) (skip : nat) (s : string) : string :=
  match s with
  | EmptyString => EmptyString
  | String c s' =>
      match skip with
      | S k => replace_from old new k s'
      | O =>
          if String.prefix old s
          then new ++ replace_from old new (Nat.pred (String.length old)) s'
          else String c (replace_from old new O s')
      end
  end.

Definition replace (old new s : string) : string := replace_from old new O s.

Definition digit_char (d : Z) : ascii := ascii_of_N (Z.to_N (48 + d mod 10)).

(** ["%0wd" % n] for [0 <= n < 10^w]: the [w] low-order decimal digits. *)
Fixpoint zfill (w : nat) (n : Z) : string :=
  match w with
  | O => EmptyString
  | S w' => zfill w' (n / 10) ++ String (digit_char n) EmptyString
  end.

(** ** Python floats *)

(** [float(z)] for an int: the nearest binary64, ties to even;
    [OverflowError] when that is infinite. *)
Definition float_of_Z (z : Z) : float :=
  SF2Prim (binary_normalize prec emax z 0 false).

Definition py_float_of_int (z : Z) : result float :=
  let f := float_of_Z z in
  if is_infinity f then Raise OverflowError else Ok f.

(** The integer part of a finite float, towards zero (C's [modf]). *)
Definition float_trunc (f : float) : option Z :=
  match Prim2SF f with
  | S754_zero _ => Some 0
  | S754_finite s m e =>
      let a := if 0 <=? e then Zpos m * 2 ^ e else Zpos m / 2 ^ (- e) in
      Some (if s then - a else a)
  | _ => None
  end.

(** A finite float rounded to the nearest integer, ties to even. *)
Definition float_round_half_even (f : float) : option Z :=
  match Prim2SF f with
  | S754_zero _ => Some 0
  | S754_finite s m e =>
      let a :=
        if 0 <=? e then Zpos m * 2 ^ e
        else
          let q := Zpos m / 2 ^ (- e) in
          let r := Zpos m mod 2 ^ (- e) in
          let half := 2 ^ (- e - 1) in
          if r <? half then q
          else if half <? r then q + 1
          else if Z.even q then q else q + 1 in
      Some (if s then - a else a)
  | _ => None
  end.

(** The largest integer not above a finite float. *)
Definition float_floor (f : float) : option Z :=
  match Prim2SF f with
  | S754_zero _ => Some 0
  | S754_finite s m e =>
      Some (if 0 <=? e then (if s then - (Zpos m * 2 ^ e) else Zpos m * 2 ^ e)
            else (if s then - Zpos m else Zpos m) / 2 ^ (- e))
  | _ => None
  end.

(** ** datetime *)

Record datetime : Type := {
  year : Z;
  month : Z;
  day : Z;
  hour : Z;
  minute : Z;
  second : Z;
  microsecond : Z;
  tzinfo : option Z   (* the UTC offset in seconds; [None] for a naive value *)
}.

Definition MINYEAR : Z := 1.
Definition MAXYEAR : Z := 9999.

Definition is_leap (y : Z) : bool :=
  (y mod 4 =? 0) && (negb (y mod 100 =? 0) || (y mod 400 =? 0)).

Definition days_before_year (y : Z) : Z :=
  let p := y - 1 in p * 365 + p / 4 - p / 100 + p / 400.

Definition days_in_month (y m : Z) : Z :=
  if m =? 2 then (if is_leap y then 29 else 28)
  else if (m =? 4) || (m =? 6) || (m =? 9) || (m =? 11) then 30
  else 31.

(** [_days_before_month[m]], for a non-leap year. *)
Definition days_before_month_table (m : Z) : Z :=
  match m with
  | 1 => 0 | 2 => 31 | 3 => 59 | 4 => 90 | 5 => 120 | 6 => 151
  | 7 => 181 | 8 => 212 | 9 => 243 | 10 => 273 | 11 => 304 | 12 => 334
  | _ => 0
  end.

Definition days_before_month (y m : Z) : Z :=
  days_before_month_table m + (if (2 <? m) && is_leap y then 1 else 0).

(** Proleptic Gregorian ordinal: 0001-01-01 is day 1. *)
Definition ymd_to_ord (y m d : Z) : Z :=
  days_before_year y + days_before_month y m + d.

Definition DI400Y : Z := 146097.
Definition DI100Y : Z := 36524.
Definition DI4Y : Z := 1461.

Definition ord_to_ymd (ordinal : Z) : Z * Z * Z :=
  let o := ordinal - 1 in
  let n400 := o / DI400Y in
  let n := o mod DI400Y in
  let n100 := n / DI100Y in
  let n := n mod DI100Y in
  let n4 := n / DI4Y in
  let n := n mod DI4Y in
  let n1 := n / 365 in
  let n := n mod 365 in
  let y := n400 * 400 + 1 + n100 * 100 + n4 * 4 + n1 in
  if (n1 =? 4) || (n100 =? 4) then (y - 1, 12, 31)
  else
    let leapyear := (n1 =? 3) && (negb (n4 =? 24) || (n100 =? 3)) in
    let m := Z.shiftr (n + 50) 5 in
    let preceding :=
      days_before_month_table m + (if (2 <? m) && leapyear then 1 else 0) in
    if n <? preceding
    then (y, m - 1, n - (preceding - days_in_month y (m - 1)) + 1)
    else (y, m, n - preceding + 1).

(** The ordinal of 1970-01-01. *)
Definition EPOCH_ORD : Z := 719163.

(** Microseconds since the epoch at which year 1 starts and year 10000
    starts: the instants a [datetime] can hold are those in between. *)
Definition MIN_US : Z := (1 - EPOCH_ORD) * 86400 * 1000000.
Definition MAX_US : Z := (3652060 - EPOCH_ORD) * 86400 * 1000000.

Definition in_datetime_range (us : Z) : bool := (MIN_US <=? us) && (us <? MAX_US).

(** The UTC calendar fields of an instant given in microseconds since
    the epoch ([gmtime] and the sub-second part). *)
Definition utc_of_us (us : Z) : datetime :=
  let secs := us / 1000000 in
  let days := secs / 86400 in
  let rem := secs mod 86400 in
  let '(y, m, d) := ord_to_ymd (days + EPOCH_ORD) in
  {| year := y; month := m; day := d;
     hour := rem / 3600; minute := rem mod 3600 / 60; second := rem mod 60;
     microsecond := us mod 1000000;
     tzinfo := Some 0 |}.

(** The instant a [datetime] denotes, a naive one read as UTC. *)
Definition us_of_datetime (dt : datetime) : Z :=
  ((ymd_to_ord (year dt) (month dt) (day dt) - EPOCH_ORD) * 86400
   + hour dt * 3600 + minute dt * 60 + second dt
   - match tzinfo dt with Some off => off | None => 0 end) * 1000000
  + microsecond dt.

(** [datetime.now(timezone.utc)] when the clock reads [now] microseconds
    since the epoch. *)
Definition datetime_now_utc (now : Z) : datetime := utc_of_us now.

(** The microsecond count [fromtimestamp] derives from a float number of
    seconds: split by [modf], scale the fraction, round half to even,
    carry.  [None] for NaN and the infinities. *)
Definition timestamp_us (x : float) : option Z :=
  match float_trunc x with
  | None => None
  | Some ip =>
      let frac := (x - float_of_Z ip)%float in
      match float_round_half_even (frac * 1000000)%float with
      | None => None
      | Some us => Some (ip * 1000000 + us)
      end
  end.

(** The whole seconds that fit the platform's [time_t], 64 bits wide.
    CPython tests the double against the two bounds converted to double,
    so 2^63 itself passes; it then fails in [gmtime]. *)
Definition in_time_t (secs : Z) : bool :=
  (- 2 ^ 63 <=? secs) && (secs <=? 2 ^ 63).

(** [gmtime] keeps the year, less 1900, in an [int]. *)
Definition gmtime_ok (us : Z) : bool :=
  let y := year (utc_of_us us) in
  (- 2 ^ 31 <=? y - 1900) && (y - 1900 <=? 2 ^ 31 - 1).

(** [datetime.fromtimestamp(x, tz=timezone.utc)], as CPython runs it on
    Linux: NaN is a [ValueError]; seconds that do not fit [time_t] (the
    infinities among them) are an [OverflowError]; a year [gmtime] cannot
    store is an [OSError]; any other year outside 1..9999 is a
    [ValueError]. *)
Definition fromtimestamp_utc (x : float) : result datetime :=
  if is_nan x then Raise ValueError
  else
    match timestamp_us x with
    | None => Raise OverflowError
    | Some us =>
        if negb (in_time_t (us / 1000000)) then Raise OverflowError
        else if negb (gmtime_ok us) then Raise OSError
        else if in_datetime_range us then Ok (utc_of_us us)
        else Raise ValueError
    end.

(** The exception [fromtimestamp_utc] refuses an instant outside the
    years 1..9999 with. *)
Definition range_error (us : Z) : exn :=
  if negb (in_time_t (us / 1000000)) then OverflowError
  else if negb (gmtime_ok us) then OSError
  else ValueError.

(** [dt.replace(tzinfo=timezone.utc)] *)
Definition replace_tzinfo_utc (dt : datetime) : datetime :=
  {| year := year dt; month := month dt; day := day dt;
     hour := hour dt; minute := minute dt; second := second dt;
     microsecond := microsecond dt; tzinfo := Some 0 |}.

(** [dt.astimezone(timezone.utc)] for an aware [dt]. *)
Definition astimezone_utc (dt : datetime) : result datetime :=
  let us := us_of_datetime dt in
  if in_datetime_range us then Ok (utc_of_us us) else Raise OverflowError.

(** The offset suffix of [isoformat]. *)
Definition format_offset (tz : option Z) : string :=
  match tz with
  | None => EmptyString
  | Some off =>
      let a := Z.abs off in
      (if off <? 0 then "-" else "+")
      ++ zfill 2 (a / 3600) ++ ":" ++ zfill 2 (a mod 3600 / 60)
      ++ (if a mod 60 =? 0 then EmptyString else ":" ++ zfill 2 (a mod 60))
  end.

(** [dt.isoformat(timespec="milliseconds")] *)
Definition isoformat_ms (dt : datetime) : string :=
  zfill 4 (year dt) ++ "-" ++ zfill 2 (month dt) ++ "-" ++ zfill 2 (day dt)
  ++ "T" ++ zfill 2 (hour dt) ++ ":" ++ zfill 2 (minute dt)
  ++ ":" ++ zfill 2 (second dt) ++ "." ++ zfill 3 (microsecond dt / 1000)
  ++ format_offset (tzinfo dt).

(** [dt.isoformat(timespec="milliseconds").replace("+00:00", "Z")] *)
Definition iso_z (dt : datetime) : string :=
  replace "+00:00" "Z" (isoformat_ms dt).

(** [dt.strftime("%Y%m%d%H%M%S")], for a four-digit year *)
Definition strftime_compact (dt : datetime) : string :=
  zfill 4 (year dt) ++ zfill 2 (month dt) ++ zfill 2 (day dt)
  ++ zfill 2 (hour dt) ++ zfill 2 (minute dt) ++ zfill 2 (second dt).

(** ** What the connector reads from outside *)

(** The two parsers the connector calls and does not define: dateutil's
    [isoparse] and the built-in [float] on a string. *)
Record PyLib : Type := {
  isoparse : pyval -> result datetime;
  float_of_str : string -> result float
}.

Inductive http_method : Type := GET | POST.

Record request : Type := {
  meth : http_method;
  url : string;
  params : list (string * string);
  headers : list (string * string);
  json_body : option dict;
  timeout : Z
}.

(** A [requests.Response]: [json] is what [r.json()] yields, an
    exception when the body does not decode. *)
Record response : Type := {
  status_code : Z;
  text : string;
  json : result pyval
}.

(** The requests issued so far, oldest first, each with its outcome. *)
Definition trace : Type := list (request * result response).

(** The services and the wall clock: what a request is answered with
    (a response, or a transport exception) and the time read
    (microseconds since the epoch), both after a given history. *)
Record World : Type := {
  net : trace -> request -> result response;
  clock : trace -> Z
}.

(** Computations that issue requests and may raise; the trace survives
    an exception. *)
Definition M (A : Type) : Type := trace -> result A * trace.

Definition ret {A} (a : A) : M A := fun tr => (Ok a, tr).

Definition bind {A B} (c : M A) (k : A -> M B) : M B :=
  fun tr =>
    match c tr with
    | (Ok a, tr') => k a tr'
    | (Raise e, tr') => (Raise e, tr')
    end.

Definition lift {A} (r : result A) : M A := fun tr => (r, tr).

Notation "x <~ c ;; k" := (bind c (fun x => k))
  (at level 61, c at next level, right associativity).

(** [r.ok]: no 4xx or 5xx status. *)
Definition resp_ok (r : response) : bool :=
  negb ((400 <=? status_code r) && (status_code r <? 600)).

(** [r.raise_for_status()] *)
Definition raise_for_status (r : response) : result unit :=
  if resp_ok r then Ok tt else Raise (HTTPError (status_code r)).

(** ** main.py *)

(** [_opt(s)]: the string if non-empty after trimming, else [None]. *)
Definition _opt (s : option string) : option string :=
  match s with
  | Some x => if str_truthy x && str_truthy (strip x) then Some x else None
  | None => None
  end.

Record FeastDQOnlyConnector : Type := {
  base : string;
  criteria_ids : list string;
  dataset_ids : list string;
  logstash_url : string;
  logstash_basic_auth : option string
}.

(** [FeastDQOnlyConnector.__init__] *)
Definition new_connector (feast_server_url : string)
    (criteria_ids dataset_ids : list string) (logstash_url : string)
    (logstash_basic_auth : option string) : FeastDQOnlyConnector :=
  {| base := rstrip_slash feast_server_url;
     criteria_ids := criteria_ids;
     dataset_ids := dataset_ids;
     logstash_url := logstash_url;
     logstash_basic_auth := logstash_basic_auth |}.

Definition _feast_headers : list (string * string) :=
  [("Content-Type", "application/json")].

Definition _resolve_logstash_basic (self : FeastDQOnlyConnector) : result string :=
  match _opt (logstash_basic_auth self) with
  | Some token => if str_truthy token then Ok token else Raise RuntimeError
  | None => Raise RuntimeError
  end.

Definition _logstash_headers (self : FeastDQOnlyConnector)
  : result (list (string * string)) :=
  token <- _resolve_logstash_basic self ;;
  Ok [("Content-Type", "application/json");
      ("Authorization", "Basic " ++ token)].

Definition dataset_request (self : FeastDQOnlyConnector) (dataset_id : string)
  : request :=
  {| meth := GET;
     url := base self ++ "/Dataset/" ++ dataset_id;
     params := [];
     headers := _feast_headers;
     json_body := None;
     timeout := 30 |}.

(** The evaluation trigger issued when the clock reads [now]. *)
Definition quality_request (self : FeastDQOnlyConnector)
    (dataset_id criteria_id : string) (now : Z) : request :=
  let ts_str := strftime_compact (utc_of_us now) in
  let filename_only := dataset_id ++ "-" ++ criteria_id ++ "-" ++ ts_str ++ ".json" in
  {| meth := POST;
     url := base self ++ "/Dataset/" ++ dataset_id
            ++ "/DatasetQualityCriteria/" ++ criteria_id ++ "/$quality";
     params := [("outputPath", filename_only)];
     headers := _feast_headers;
     json_body := None;
     timeout := 180 |}.

Definition event_request (self : FeastDQOnlyConnector) (payload : dict)
    (hdrs : list (string * string)) : request :=
  {| meth := POST;
     url := logstash_url self;
     params := [];
     headers := hdrs;
     json_body := Some payload;
     timeout := 30 |}.

(** [float(v)] *)
Definition py_float (lib : PyLib) (v : pyval) : result float :=
  match v with
  | VBool b => Ok (if b then 1%float else 0%float)
  | VInt z => py_float_of_int z
  | VFloat f => Ok f
  | VStr s => float_of_str lib s
  | _ => Raise TypeError
  end.

(** The values a [for] loop draws from [v]. *)
Definition py_iter (v : pyval) : result (list pyval) :=
  match v with
  | VList l => Ok l
  | VStr s => Ok (map (fun c => VStr (String c EmptyString)) (list_ascii_of_string s))
  | VDict d => Ok (map (fun kv => VStr (fst kv)) d)
  | _ => Raise TypeError
  end.

Section Connector.

Variable lib : PyLib.
Variable w : World.

(** One request: ask the world, record the exchange. *)
Definition http (rq : request) : M response :=
  fun tr => let r := net w tr rq in (r, (tr ++ [(rq, r)])%list).

Definition read_clock : M Z := fun tr => (Ok (clock w tr), tr).

(** [to_iso_z(ts)] when the clock reads [now]. *)
Definition to_iso_z (now : Z) (ts : pyval) : result string :=
  match ts with
  | VNone => Ok (iso_z (datetime_now_utc now))
  | VBool _ | VInt _ | VFloat _ =>
      x <- py_float lib ts ;;
      dt <- fromtimestamp_utc (x / 1000)%float ;;
      Ok (iso_z dt)
  | _ =>
      match (dt <- isoparse lib ts ;;
             astimezone_utc
               (match tzinfo dt with
                | None => replace_tzinfo_utc dt
                | Some _ => dt
                end)) with
      | Ok dt => Ok (iso_z dt)
      | Raise _ => Ok (iso_z (datetime_now_utc now))
      end
  end.

Variable self : FeastDQOnlyConnector.

Definition fetch_dataset_name (dataset_id : string) : M pyval :=
  r <~ http (dataset_request self dataset_id) ;;
  if resp_ok r && str_truthy (text r)
  then
    j <~ lift (json r) ;;
    title <~ lift (py_get j "title") ;;
    if py_bool title then ret title
    else lift (py_get j "name")
  else ret VNone.

Definition evaluate_quality (dataset_id criteria_id : string) : M pyval :=
  now <~ read_clock ;;
  r <~ http (quality_request self dataset_id criteria_id now) ;;
  _ <~ lift (raise_for_status r) ;;
  lift (json r).

Definition send_event (evt : MonitoringPlatformQualityCheck) : M unit :=
  let payload := to_dict evt in
  hdrs <~ lift (_logstash_headers self) ;;
  r <~ http (event_request self payload hdrs) ;;
  lift (raise_for_status r).

(** The event [run_once] builds from one result row. *)
Definition build_event (report : pyval) (ds_id : string) (ds_name : pyval)
    (iso_ts : string) (res : pyval) : result MonitoringPlatformQualityCheck :=
  c <- py_get res "category" ;;
  let cat := py_or c (VDict []) in
  d <- py_get report "datasetId" ;;
  nm <- py_get res "name" ;;
  ctx <- py_get cat "context" ;;
  cc <- py_get cat "category" ;;
  lo <- py_get res "low" ;;
  v <- py_get res "value" ;;
  val <- (if is_not_None v then (f <- py_float lib v ;; Ok (VFloat f))
          else Ok VNone) ;;
  p <- py_get res "passed" ;;
  Ok (new_quality_check (py_or d (VStr ds_id)) ds_name nm
        (Some [("context", ctx); ("category", cc)]) lo val (py_bool p) iso_ts).

(** The innermost loop; [counters] is [(sent_for_pair, total_events)]. *)
Fixpoint send_results (report : pyval) (ds_id : string) (ds_name : pyval)
    (iso_ts : string) (results : list pyval) (counters : Z * Z) : M (Z * Z) :=
  match results with
  | [] => ret counters
  | res :: rest =>
      evt <~ lift (build_event report ds_id ds_name iso_ts res) ;;
      _ <~ send_event evt ;;
      send_results report ds_id ds_name iso_ts rest
        (fst counters + 1, snd counters + 1)
  end.

(** The body of the criteria loop; [counters] is
    [(total_pairs, total_events)].  The log line's [len(results)] raises
    [TypeError] for the very values [py_iter] rejects, with no request in
    between. *)
Definition run_pair (ds_id : string) (ds_name : pyval) (crit : string)
    (counters : Z * Z) : M (Z * Z) :=
  let total_pairs := fst counters + 1 in
  report <~ evaluate_quality ds_id crit ;;
  issued <~ lift (py_get report "issued") ;;
  now <~ read_clock ;;
  iso_ts <~ lift (to_iso_z now issued) ;;
  results <~ lift (py_get report "results") ;;
  rows <~ lift (py_iter (py_or results (VList []))) ;;
  sent <~ send_results report ds_id ds_name iso_ts rows (0, snd counters) ;;
  ret (total_pairs, snd sent).

Fixpoint run_criteria (ds_id : string) (ds_name : pyval)
    (crits : list string) (counters : Z * Z) : M (Z * Z) :=
  match crits with
  | [] => ret counters
  | crit :: rest =>
      counters' <~ run_pair ds_id ds_name crit counters ;;
      run_criteria ds_id ds_name rest counters'
  end.

(** The body of the dataset loop. *)
Definition run_dataset (ds_id : string) (counters : Z * Z) : M (Z * Z) :=
  ds_name <~ fetch_dataset_name ds_id ;;
  run_criteria ds_id ds_name (criteria_ids self) counters.

Fixpoint run_datasets (dss : list string) (counters : Z * Z) : M (Z * Z) :=
  match dss with
  | [] => ret counters
  | ds_id :: rest =>
      counters' <~ run_dataset ds_id counters ;;
      run_datasets rest counters'
  end.

(** [run_once()]: the pair and event counts it logs at the end. *)
Definition run_once : M (Z * Z) := run_datasets (dataset_ids self) (0, 0).

End Connector.

(** ** Vocabulary of the properties *)

(** A row [build_event] accepts: its category is an object or falsy, and
    its value is null or converts to a float. *)
Definition row_ok (lib : PyLib) (res : dict) : bool :=
  match py_or (dict_get res "category") (VDict []) with
  | VDict _ => true
  | _ => false
  end
  && match dict_get res "value" with
     | VNone => true
     | v => match py_float lib v with Ok _ => true | Raise _ => false end
     end.

(** No usable token: [None], or a string of whitespace only (the empty
    string included). *)
Definition all_space (s : string) : bool :=
  forallb is_space (list_ascii_of_string s).

Definition token_absent (tok : option string) : bool :=
  match tok with
  | None => true
  | Some s => all_space s
  end.

(** Reading a timestamp back: the instant, in milliseconds since the
    epoch, that a string of the form YYYY-MM-DDTHH:MM:SS.mmmZ denotes;
    [None] for any other string. *)

Definition digit_val (c : ascii) : option Z :=
  let n := code c in
  if (48 <=? n) && (n <=? 57) then Some (n - 48) else None.

Fixpoint parse_digits (w : nat) (s : string) : option (Z * string) :=
  match w with
  | O => Some (0, s)
  | S w' =>
      match parse_digits w' s with
      | Some (acc, String c s') =>
          match digit_val c with
          | Some d => Some (acc * 10 + d, s')
          | None => None
          end
      | _ => None
      end
  end.

(** [w] digits and the separator after them. *)
Definition field (w : nat) (sep : ascii) (s : string) : option (Z * string) :=
  match parse_digits w s with
  | Some (n, String c s') => if Ascii.eqb c sep then Some (n, s') else None
  | _ => None
  end.

Definition valid_fields (y mo d h mi sec : Z) : bool :=
  (MINYEAR <=? y) && (1 <=? mo) && (mo <=? 12)
  && (1 <=? d) && (d <=? days_in_month y mo)
  && (h <? 24) && (mi <? 60) && (sec <? 60).

Definition parse_iso_ms_z (s : string) : option Z :=
  match field 4 "-" s with
  | Some (y, s) =>
  match field 2 "-" s with
  | Some (mo, s) =>
  match field 2 "T" s with
  | Some (d, s) =>
  match field 2 ":" s with
  | Some (h, s) =>
  match field 2 ":" s with
  | Some (mi, s) =>
  match field 2 "." s with
  | Some (sec, s) =>
  match field 3 "Z" s with
  | Some (ms, EmptyString) =>
      if valid_fields y mo d h mi sec
      then Some (((ymd_to_ord y mo d - EPOCH_ORD) * 86400
                  + h * 3600 + mi * 60 + sec) * 1000 + ms)
      else None
  | _ => None
  end
  | None => None
  end
  | None => None
  end
  | None => None
  end
  | None => None
  end
  | None => None
  end
  | None => None
  end.

(** The inputs [to_iso_z] treats as numbers: [isinstance(ts, (int, float))],
    which holds for a bool too. *)
Definition numeric (ts : pyval) : bool :=
  match ts with
  | VBool _ | VInt _ | VFloat _ => true
  | _ => false
  end.

(** The whole milliseconds of a numeric input, rounding down. *)
Definition floor_ms (ts : pyval) : option Z :=
  match ts with
  | VBool b => Some (if b then 1 else 0)
  | VInt z => Some z
  | VFloat f => float_floor f
  | _ => None
  end.

(** The instant, in microseconds, that the numeric branch of [to_iso_z]
    hands to [datetime]: [float(ts) / 1000.0] seconds, rounded to the
    nearest microsecond; [None] when the conversion raises. *)
Definition numeric_instant_us (lib : PyLib) (ts : pyval) : option Z :=
  match py_float lib ts with
  | Ok x =>
      match timestamp_us (x / 1000)%float with
      | Some us => if in_datetime_range us then Some us else None
      | None => None
      end
  | Raise _ => None
  end.

(** The numeric input [t] holds the whole number [z]: an int, a bool, or
    a float whose value is integral. *)
Definition whole_ms (t : pyval) (z : Z) : Prop :=
  match t with
  | VInt z' => z' = z
  | VBool b => z = if b then 1 else 0
  | VFloat f => f = float_of_Z z
  | _ => False
  end.

(** The place of [r / d] in the unit interval, for [0 <= r < d]: what
    the rounding of a float operation keeps of the digits it drops. *)
Definition loc_of (r d : Z) : location :=
  if r =? 0 then loc_Exact else loc_Inexact (2 * r ?= d).

(** The record holds the quotient of [N] by [D] and the place of the
    remainder. *)
Definition holds (N D : Z) (mrs : shr_record) : Prop :=
  0 < D /\ 0 <= N /\ shr_m mrs = N / D
  /\ loc_of_shr_record mrs = loc_of (N mod D) D.

Definition no_plus (s : string) : bool :=
  forallb (fun c => negb (Ascii.eqb c "+")) (list_ascii_of_string s).

(** ** Traces *)

(** A POST that was answered with a 4xx or 5xx status. *)
Definition failed_post (x : request * result response) : bool :=
  match x with
  | (rq, Ok r) =>
      match meth rq with
      | POST => negb (resp_ok r)
      | GET => false
      end
  | (_, Raise _) => false
  end.

Definition clean (tr : trace) : Prop :=
  Forall (fun x => failed_post x = false) tr.

(** What every step of the run preserves: either no POST has failed, or
    the one that failed is the last exchange of the trace and its
    [HTTPError] is being raised. *)
Definition fail_fast {A} (res : result A * trace) : Prop :=
  match res with
  | (Ok _, tr) => clean tr
  | (Raise e, tr) =>
      clean tr \/
      exists tr0 rq r,
        tr = (tr0 ++ [(rq, Ok r)])%list /\ clean tr0
        /\ failed_post (rq, Ok r) = true /\ e = HTTPError (status_code r)
  end.

Definition safe {A} (c : M A) : Prop :=
  forall tr, clean tr -> fail_fast (c tr).

(** ** Sample data *)

Definition sample_report : dict :=
  [("datasetId", VStr "d1"); ("issued", VStr "2024-01-01T00:00:00");
   ("results", VList [])].

Definition sample_row (p : pyval) : dict :=
  [("name", VStr "completeness");
   ("category", VDict [("context", VStr "c1")]);
   ("low", VFloat 0.5%float); ("value", VFloat 0.75%float); ("passed", p)].

(** A library whose parsers reject everything. *)
Definition no_lib : PyLib :=
  {| isoparse := fun _ => Raise ValueError;
     float_of_str := fun _ => Raise ValueError |}.

Definition sample_connector (token : option string) : FeastDQOnlyConnector :=
  new_connector "http://feast/" ["c1"] ["d1"; "d2"] "http://logstash" token.

Definition json_response (v : pyval) : response :=
  {| status_code := 200; text := "{...}"; json := Ok v |}.

Definition status_response (status : Z) : response :=
  {| status_code := status; text := ""; json := Raise JSONDecodeError |}.

(** The quality service answers every metadata read with a title and
    every evaluation with [report]; the ingestion endpoint answers with
    [ingest_status]; the clock advances one second per exchange. *)
Definition sample_world (report : pyval) (ingest_status : Z) : World :=
  {| net := fun _ rq =>
       match meth rq with
       | GET => Ok (json_response (VDict [("title", VStr "Set"); ("name", VStr "set")]))
       | POST =>
           if String.eqb (url rq) "http://logstash"
           then Ok (status_response ingest_status)
           else Ok (json_response report)
       end;
     clock := fun tr => 1700000000000000 + 1000000 * Z.of_nat (List.length tr) |}.

Definition one_result_report : pyval :=
  VDict [("issued", VInt 1700000000123);
         ("results", VList [VDict (sample_row (VBool true))])].

Definition empty_results_report (issued : pyval) : pyval :=
  VDict [("issued", issued); ("results", VList [])].

(** The canonical rendering of a UTC value: 23 characters and a "Z". *)
Definition iso_body (dt : datetime) : string :=
  zfill 4 (year dt) ++ "-" ++ zfill 2 (month dt) ++ "-" ++ zfill 2 (day dt)
  ++ "T" ++ zfill 2 (hour dt) ++ ":" ++ zfill 2 (minute dt)
  ++ ":" ++ zfill 2 (second dt) ++ "." ++ zfill 3 (microsecond dt / 1000).

(** The exchanges of a run whose first forwarded event is answered 500:
    one metadata read, one evaluation, one event, and nothing for the
    second dataset. *)
Definition aborted_trace : trace :=
  snd (run_once no_lib (sample_world one_result_report 500)
         (sample_connector (Some "dG9r")) []).

(** ** The start-up block of main.py *)

(** The five environment variables the block reads; [None] for a
    variable that is not set. *)
Record Env : Type := {
  FEAST_SERVER_URL : option string;
  FEAST_CRITERIA_IDS : option string;
  FEAST_DATASET_IDS : option string;
  LOGSTASH_URL : option string;
  LOGSTASH_BASIC_AUTH : option string
}.

(** [os.getenv(name, default)] *)
Definition getenv_default (v : option string) (default : string) : string :=
  match v with
  | Some s => s
  | None => default
  end.

(** [s.split(",")]: the pieces between the commas, at least one. *)
Fixpoint split_comma (s : string) : list string :=
  match s with
  | EmptyString => [EmptyString]
  | String c s' =>
      if Ascii.eqb c ","%char then EmptyString :: split_comma s'
      else
        match split_comma s' with
        | x :: xs => String c x :: xs
        | [] => [String c EmptyString]
        end
  end.

(** [[c.strip() for c in s.split(",") if c.strip()]] *)
Definition parse_id_list (s : string) : list string :=
  map strip (filter (fun c => str_truthy (strip c)) (split_comma s)).

Definition list_truthy {A} (l : list A) : bool :=
  match l with
  | [] => false
  | _ => true
  end.

(** The checks of the block and the connector it builds. *)
Definition startup (env : Env) : result FeastDQOnlyConnector :=
  let feast_server_url := FEAST_SERVER_URL env in
  let criteria_ids := parse_id_list (getenv_default (FEAST_CRITERIA_IDS env) "") in
  let dataset_ids := parse_id_list (getenv_default (FEAST_DATASET_IDS env) "") in
  let logstash_url := LOGSTASH_URL env in
  let logstash_basic_auth :=
    _opt (Some (getenv_default (LOGSTASH_BASIC_AUTH env) "")) in
  match feast_server_url, logstash_url, logstash_basic_auth with
  | Some f, Some l, Some a =>
      if str_truthy f && list_truthy criteria_ids && list_truthy dataset_ids
         && str_truthy l && str_truthy a
      then Ok (new_connector f criteria_ids dataset_ids l logstash_basic_auth)
      else Raise RuntimeError
  | _, _, _ => Raise RuntimeError
  end.

(** The block as a whole: check, build, run once. *)
Definition main (lib : PyLib) (w : World) (env : Env) : M (Z * Z) :=
  connector <~ lift (startup env) ;;
  run_once lib w connector.

(** ** More vocabulary *)

Definition keys (d : dict) : list string := map fst d.

(** The keys of the payload, in the order [to_dict] writes them. *)
Definition payload_keys : list string :=
  ["event_type"; "dataset_id"; "dataset_name"; "name"; "category";
   "low"; "value"; "passed"; "@timestamp"].

(** [l1] is [l2] with some elements left out, order kept. *)
Fixpoint subseq (l1 l2 : list string) : bool :=
  match l1, l2 with
  | [], _ => true
  | _ :: _, [] => false
  | x :: l1', y :: l2' =>
      if String.eqb x y then subseq l1' l2' else subseq l1 l2'
  end.

Definition has_char (c : ascii) (s : string) : bool :=
  existsb (Ascii.eqb c) (list_ascii_of_string s).

Fixpoint last_char (s : string) : option ascii :=
  match s with
  | EmptyString => None
  | String c EmptyString => Some c
  | String _ s' => last_char s'
  end.

Definition first_char (s : string) : option ascii :=
  match s with
  | EmptyString => None
  | String c _ => Some c
  end.

(** A string of [n] slashes. *)
Fixpoint slashes (n : nat) : string :=
  match n with
  | O => EmptyString
  | S n' => String "/"%char (slashes n')
  end.

(** The three kinds of request, told apart by method and body. *)
Definition is_get (x : request * result response) : bool :=
  match meth (fst x) with GET => true | POST => false end.

Definition is_quality (x : request * result response) : bool :=
  match meth (fst x), json_body (fst x) with
  | POST, None => true
  | _, _ => false
  end.

Definition is_event (x : request * result response) : bool :=
  match meth (fst x), json_body (fst x) with
  | POST, Some _ => true
  | _, _ => false
  end.

Definition count (p : request * result response -> bool) (tr : trace) : Z :=
  Z.of_nat (List.length (filter p tr)).

(** The exception an exchange ends the run with, if it does: the
    transport's own, or the [HTTPError] of a POST answered 4xx or 5xx. *)
Definition fatal (x : request * result response) : option exn :=
  match x with
  | (_, Raise e) => Some e
  | (rq, Ok r) =>
      match meth rq with
      | POST => if resp_ok r then None else Some (HTTPError (status_code r))
      | GET => None
      end
  end.

Definition all_fine (tr : trace) : Prop := Forall (fun x => fatal x = None) tr.

(** Either every exchange went through, or the last one is the fatal one
    whose exception is being raised.  An exception raised with every
    exchange fine comes from the connector's own code. *)
Definition stops_at_fatal {A} (res : result A * trace) : Prop :=
  match res with
  | (Ok _, tr) => all_fine tr
  | (Raise e, tr) =>
      all_fine tr \/
      exists tr0 x, tr = (tr0 ++ [x])%list /\ all_fine tr0 /\ fatal x = Some e
  end.

Definition halting {A} (c : M A) : Prop :=
  forall tr, all_fine tr -> stops_at_fatal (c tr).

(** The requests a connector may issue: the two to the quality service
    carry the plain headers; the one to the ingestion URL carries the
    configured token. *)
Definition allowed_request (self : FeastDQOnlyConnector) (rq : request) : Prop :=
  (meth rq = GET /\ headers rq = _feast_headers /\ json_body rq = None
   /\ exists ds, url rq = base self ++ "/Dataset/" ++ ds)
  \/ (meth rq = POST /\ headers rq = _feast_headers /\ json_body rq = None
      /\ exists ds crit,
           url rq = base self ++ "/Dataset/" ++ ds
                    ++ "/DatasetQualityCriteria/" ++ crit ++ "/$quality")
  \/ (meth rq = POST /\ url rq = logstash_url self
      /\ exists tok evt,
           logstash_basic_auth self = Some tok
           /\ headers rq = [("Content-Type", "application/json");
                            ("Authorization", "Basic " ++ tok)]
           /\ json_body rq = Some (to_dict evt)).

(** Every computation step only appends exchanges, each with a request
    satisfying [Q]. *)
Definition appends_only (Q : request -> Prop) {A} (c : M A) : Prop :=
  forall tr, exists ext,
    snd (c tr) = (tr ++ ext)%list /\ Forall (fun x => Q (fst x)) ext.

(** A [datetime] as [datetime] itself accepts it. *)
Definition valid_datetime (dt : datetime) : bool :=
  (MINYEAR <=? year dt) && (year dt <=? MAXYEAR)
  && (1 <=? month dt) && (month dt <=? 12)
  && (1 <=? day dt) && (day dt <=? days_in_month (year dt) (month dt))
  && (0 <=? hour dt) && (hour dt <? 24)
  && (0 <=? minute dt) && (minute dt <? 60)
  && (0 <=? second dt) && (second dt <? 60)
  && (0 <=? microsecond dt) && (microsecond dt <? 1000000).

(** The exchange [x] forwards the event built from [row]. *)
Definition forwards (lib : PyLib) (self : FeastDQOnlyConnector)
    (report : pyval) (ds_id : string) (ds_name : pyval) (iso_ts : string)
    (row : pyval) (x : request * result response) : Prop :=
  exists evt,
    build_event lib report ds_id ds_name iso_ts row = Ok evt /\
    meth (fst x) = POST /\ url (fst x) = logstash_url self /\
    json_body (fst x) = Some (to_dict evt).

(** A world in which every request fails in transport. *)
Definition refusing_world : World :=
  {| net := fun _ _ => Raise RequestException; clock := fun _ => 0 |}.

(** The three counts of a trace, and what a step adds to them. *)
Definition adds (tr tr' : trace) (g q e : Z) : Prop :=
  count is_get tr' = count is_get tr + g /\
  count is_quality tr' = count is_quality tr + q /\
  count is_event tr' = count is_event tr + e.

(** An identifier as the start-up block leaves it: not empty, no
    whitespace at either end, no comma. *)
Definition clean_id (x : string) : Prop :=
  x <> EmptyString /\ strip x = x /\ has_char ","%char x = false.

(** Some required setting is unset or blank. *)
Definition config_missing (env : Env) : bool :=
  negb (str_truthy (getenv_default (FEAST_SERVER_URL env) ""))
  || negb (list_truthy (parse_id_list (getenv_default (FEAST_CRITERIA_IDS env) "")))
  || negb (list_truthy (parse_id_list (getenv_default (FEAST_DATASET_IDS env) "")))
  || negb (str_truthy (getenv_default (LOGSTASH_URL env) ""))
  || token_absent (LOGSTASH_BASIC_AUTH env).

(** The connector the start-up block builds from a complete
    configuration. *)
Definition configured (env : Env) : FeastDQOnlyConnector :=
  new_connector (getenv_default (FEAST_SERVER_URL env) "")
    (parse_id_list (getenv_default (FEAST_CRITERIA_IDS env) ""))
    (parse_id_list (getenv_default (FEAST_DATASET_IDS env) ""))
    (getenv_default (LOGSTASH_URL env) "")
    (LOGSTASH_BASIC_AUTH env).

(** A library whose [isoparse] reads one string as a given value. *)
Definition lib_parsing (s : string) (dt : datetime) : PyLib :=
  {| isoparse := fun v =>
       match v with
       | VStr x => if String.eqb x s then Ok dt else Raise ValueError
       | _ => Raise TypeError
       end;
     float_of_str := fun _ => Raise ValueError |}.

Definition sample_env : Env :=
  {| FEAST_SERVER_URL := Some "http://feast//";
     FEAST_CRITERIA_IDS := Some " c1 ,, c2";
     FEAST_DATASET_IDS := Some "d1,";
     LOGSTASH_URL := Some "http://logstash";
     LOGSTASH_BASIC_AUTH := Some "dG9r" |}.

(* ================================================================== *)
(** * Part II. Properties *)
(* ================================================================== *)

Example py_bool_nan : py_bool (VFloat nan) = true.
Proof. reflexivity. Qed.


(** ** Dictionaries *)

Lemma assoc_drop_None_cons (k k' : string) (v : pyval) (d : dict) :
  assoc k (drop_None ((k', v) :: d)) =
  if String.eqb k k' && is_not_None v then Some v else assoc k (drop_None d).
Proof.
  unfold drop_None; simpl.
  destruct (is_not_None v); simpl.
  - destruct (String.eqb k k'); reflexivity.
  - rewrite andb_false_r. reflexivity.
Qed.

Lemma drop_None_values (d : dict) (k : string) (v : pyval) :
  In (k, v) (drop_None d) -> v <> VNone.
Proof.
  unfold drop_None. rewrite filter_In. simpl.
  intros [_ H] ->. discriminate H.
Qed.

Lemma is_not_None_true (v : pyval) : v <> VNone -> is_not_None v = true.
Proof. destruct v; intros H; try reflexivity. now elim H. Qed.

Lemma py_or_not_None (a : pyval) (s : string) : py_or a (VStr s) <> VNone.
Proof.
  unfold py_or. destruct (py_bool a) eqn:E; [| discriminate].
  intros ->. discriminate E.
Qed.

(** ** The serializer *)

Ltac to_dict_keys :=
  unfold to_dict; cbv zeta;
  repeat (rewrite assoc_drop_None_cons; simpl String.eqb; cbv iota; simpl andb).

Lemma to_dict_category_key (e : MonitoringPlatformQualityCheck) :
  assoc "category" (to_dict e) =
  if is_not_None (category_payload e) then Some (category_payload e) else None.
Proof.
  to_dict_keys. destruct (is_not_None (category_payload e)); reflexivity.
Qed.

(** The spec's first example, on the code: a category object whose two
    sub-fields are null is serialized as an empty object. *)
Example to_dict_null_subfields :
  to_dict (new_quality_check (VStr "d1") VNone (VStr "rule")
             (Some [("context", VNone); ("category", VNone)])
             VNone VNone true "2024-01-01T00:00:00.000Z")
  = [ ("event_type", VStr "quality_check"); ("dataset_id", VStr "d1");
      ("name", VStr "rule"); ("category", VDict []);
      ("passed", VBool true); ("@timestamp", VStr "2024-01-01T00:00:00.000Z") ].
Proof. reflexivity. Qed.

(** The spec's second example: one sub-field set. *)
Example to_dict_context_only :
  assoc "category"
    (to_dict (new_quality_check (VStr "d1") VNone (VStr "rule")
                (Some [("context", VStr "c1"); ("category", VNone)])
                VNone VNone true "2024-01-01T00:00:00.000Z"))
  = Some (VDict [("context", VStr "c1")]).
Proof. reflexivity. Qed.



(** The constructor stores an absent or empty category as the empty
    object, so [to_dict] omits the key for both. *)
Lemma new_quality_check_no_category (i n m l v : pyval) (p : bool) (t : string) :
  assoc "category" (to_dict (new_quality_check i n m None l v p t)) = None /\
  assoc "category" (to_dict (new_quality_check i n m (Some []) l v p t)) = None.
Proof.
  split; rewrite to_dict_category_key; reflexivity.
Qed.

(** ** Building an event from a result row *)

Lemma build_event_inv (lib : PyLib) (report res : dict) (ds_id : string)
    (ds_name : pyval) (iso_ts : string) (e : MonitoringPlatformQualityCheck) :
  build_event lib (VDict report) ds_id ds_name iso_ts (VDict res) = Ok e ->
  exists cat val,
    py_or (dict_get res "category") (VDict []) = VDict cat /\
    e = new_quality_check
          (py_or (dict_get report "datasetId") (VStr ds_id)) ds_name
          (dict_get res "name")
          (Some [("context", dict_get cat "context");
                 ("category", dict_get cat "category")])
          (dict_get res "low") val (py_bool (dict_get res "passed")) iso_ts.
Proof.
  unfold build_event. cbn [py_get rbind].
  destruct (py_or (dict_get res "category") (VDict [])) as [| | | | | |cat];
    cbn [py_get rbind]; try discriminate.
  destruct (is_not_None (dict_get res "value")).
  - destruct (py_float lib (dict_get res "value")); cbn [rbind]; [| discriminate].
    intros [= <-]. eauto.
  - cbn [rbind]. intros [= <-]. eauto.
Qed.

Lemma build_event_returns (lib : PyLib) (report res : dict) (ds_id : string)
    (ds_name : pyval) (iso_ts : string) :
  row_ok lib res = true ->
  exists e, build_event lib (VDict report) ds_id ds_name iso_ts (VDict res) = Ok e.
Proof.
  unfold row_ok, build_event. cbn [py_get rbind].
  destruct (py_or (dict_get res "category") (VDict [])) as [| | | | | |cat];
    cbn [py_get rbind andb]; try discriminate.
  destruct (dict_get res "value") eqn:Ev; cbn [is_not_None rbind];
    try (destruct (py_float lib _); [| discriminate]); cbn [rbind]; eauto.
Qed.

(** C3: no top-level key of the serialized event maps to null; with [low]
    and [value] null neither key appears; "event_type" and "passed" (a
    boolean) are always present, and so is "dataset_id" for a non-null
    identifier, which is what every event built by [run_once] carries. *)
Theorem to_dict_no_null (e : MonitoringPlatformQualityCheck) :
  (forall k v, In (k, v) (to_dict e) -> v <> VNone) /\
  (low e = VNone -> value e = VNone ->
     assoc "low" (to_dict e) = None /\ assoc "value" (to_dict e) = None) /\
  assoc "event_type" (to_dict e) = Some (VStr (event_type e)) /\
  assoc "passed" (to_dict e) = Some (VBool (passed e)) /\
  (dataset_id e <> VNone -> assoc "dataset_id" (to_dict e) = Some (dataset_id e)) /\
  (forall i n m c l v p t,
     event_type (new_quality_check i n m c l v p t) = "quality_check") /\
  (forall lib report res ds_id ds_name iso_ts e',
     build_event lib (VDict report) ds_id ds_name iso_ts (VDict res) = Ok e' ->
     dataset_id e' <> VNone).
Proof.
  split; [| split; [| split; [| split; [| split; [| split]]]]].
  - intros k v. apply drop_None_values.
  - intros Hl Hv. unfold to_dict; cbv zeta.
    split;
      repeat (rewrite assoc_drop_None_cons; simpl String.eqb; cbv iota; simpl andb);
      rewrite ?Hl, ?Hv; simpl;
      destruct (is_not_None (category_payload e)); reflexivity.
  - to_dict_keys. reflexivity.
  - to_dict_keys.
    destruct (is_not_None (dataset_id e)), (is_not_None (dataset_name e)),
      (is_not_None (name e)), (is_not_None (category_payload e)),
      (is_not_None (low e)), (is_not_None (value e)); reflexivity.
  - intros H. to_dict_keys. rewrite (is_not_None_true _ H). reflexivity.
  - reflexivity.
  - intros lib report res ds_id ds_name iso_ts e' H.
    apply build_event_inv in H. destruct H as (cat & val & _ & ->).
    apply py_or_not_None.
Qed.

(** The spec's example for C3: [low] and [value] null. *)
Example to_dict_low_value_null :
  to_dict (new_quality_check (VStr "d1") (VStr "Set 1") (VStr "rule") None
             VNone VNone false "2024-01-01T00:00:00.000Z")
  = [ ("event_type", VStr "quality_check"); ("dataset_id", VStr "d1");
      ("dataset_name", VStr "Set 1"); ("name", VStr "rule");
      ("passed", VBool false); ("@timestamp", VStr "2024-01-01T00:00:00.000Z") ].
Proof. reflexivity. Qed.

(** C10: for every result row that [run_once] turns into an event (its
    category is an object or falsy and its value is null or a number),
    whatever the row's "passed" value is, the event is built, its
    [passed] is the truthiness of that value (null when the key is
    missing), and it is serialized under "passed" as that boolean: a row
    whose "passed" is 1, "yes" or True serializes to true; one whose
    "passed" is None, 0, False or "", or that has no "passed" key,
    serializes to false. *)
Theorem build_event_passed (lib : PyLib) (report res : dict) (ds_id : string)
    (ds_name : pyval) (iso_ts : string) :
  row_ok lib res = true ->
  exists e,
    build_event lib (VDict report) ds_id ds_name iso_ts (VDict res) = Ok e /\
    passed e = py_bool (dict_get res "passed") /\
    assoc "passed" (to_dict e) = Some (VBool (py_bool (dict_get res "passed"))) /\
    (In (dict_get res "passed") [VInt 1; VStr "yes"; VBool true] ->
     assoc "passed" (to_dict e) = Some (VBool true)) /\
    (In (dict_get res "passed") [VNone; VInt 0; VBool false; VStr ""] ->
     assoc "passed" (to_dict e) = Some (VBool false)) /\
    (assoc "passed" res = None ->
     assoc "passed" (to_dict e) = Some (VBool false)).
Proof.
  intros Hok.
  destruct (build_event_returns lib report res ds_id ds_name iso_ts Hok)
    as [e He].
  exists e. split; [exact He |].
  apply build_event_inv in He. destruct He as (cat & val & _ & ->).
  assert (Hp : forall b, py_bool (dict_get res "passed") = b ->
               assoc "passed"
                 (to_dict
                    (new_quality_check
                       (py_or (dict_get report "datasetId") (VStr ds_id))
                       ds_name (dict_get res "name")
                       (Some [("context", dict_get cat "context");
                              ("category", dict_get cat "category")])
                       (dict_get res "low") val
                       (py_bool (dict_get res "passed")) iso_ts))
               = Some (VBool b)).
  { intros b <-. to_dict_keys.
    repeat match goal with
           | |- context [is_not_None ?v] => destruct (is_not_None v)
           end; reflexivity. }
  split; [reflexivity |].
  split; [apply Hp; reflexivity |].
  split; [| split].
  - intros Hin. apply Hp. cbn [In] in Hin.
    destruct Hin as [<- | [<- | [<- | []]]]; reflexivity.
  - intros Hin. apply Hp. cbn [In] in Hin.
    destruct Hin as [<- | [<- | [<- | [<- | []]]]]; reflexivity.
  - intros Hm. apply Hp. unfold dict_get. rewrite Hm. reflexivity.
Qed.

Lemma build_event_passed_witness :
  Forall
    (fun pb : pyval * bool =>
       exists e,
         build_event no_lib (VDict sample_report) "d1" VNone
           "2024-01-01T00:00:00.000Z" (VDict (sample_row (fst pb))) = Ok e /\
         assoc "passed" (to_dict e) = Some (VBool (snd pb)))
    [(VInt 1, true); (VStr "yes", true); (VBool true, true);
     (VNone, false); (VInt 0, false); (VBool false, false); (VStr "", false)]
  /\ exists e,
       build_event no_lib (VDict sample_report) "d1" VNone
         "2024-01-01T00:00:00.000Z" (VDict [("name", VStr "completeness")])
       = Ok e /\
       assoc "passed" (to_dict e) = Some (VBool false).
Proof.
  split.
  - repeat constructor; cbn [fst snd];
      match goal with
      | |- exists e, build_event _ _ _ _ _ (VDict (sample_row ?p)) = _ /\ _ =>
          destruct (build_event_passed no_lib sample_report (sample_row p)
                      "d1" VNone "2024-01-01T00:00:00.000Z" eq_refl)
            as (e & H1 & _ & _ & Ht & Hf & _);
          exists e; split;
          [exact H1 | first [apply Ht | apply Hf]; cbn; tauto]
      end.
  - destruct (build_event_passed no_lib sample_report
                [("name", VStr "completeness")]
                "d1" VNone "2024-01-01T00:00:00.000Z" eq_refl)
      as (e & H1 & _ & _ & _ & _ & Hm).
    exists e. split; [exact H1 | exact (Hm eq_refl)].
Defined.

(** C4, as stated, fails: a "datasetId" that is present but empty is not
    the event's dataset_id. *)
Lemma build_event_dataset_id_present_not_used :
  ~ (forall lib report res ds_id ds_name iso_ts e v,
       build_event lib (VDict report) ds_id ds_name iso_ts (VDict res) = Ok e ->
       assoc "datasetId" report = Some v ->
       dataset_id e = v).
Proof.
  intros H.
  specialize (H no_lib [("datasetId", VStr "")] (sample_row (VBool true))
                "d1" VNone "2024-01-01T00:00:00.000Z" _ (VStr "")
                eq_refl eq_refl).
  discriminate H.
Qed.

(** C4, amended: the event's dataset_id is the report's "datasetId" when
    that field is present and truthy (not null, false, zero or empty), and
    the requested dataset identifier otherwise. *)
Theorem build_event_dataset_id (lib : PyLib) (report res : dict)
    (ds_id : string) (ds_name : pyval) (iso_ts : string)
    (e : MonitoringPlatformQualityCheck) :
  build_event lib (VDict report) ds_id ds_name iso_ts (VDict res) = Ok e ->
  dataset_id e =
  match assoc "datasetId" report with
  | Some v => if py_bool v then v else VStr ds_id
  | None => VStr ds_id
  end.
Proof.
  intros H. apply build_event_inv in H. destruct H as (cat & val & _ & ->).
  cbn [dataset_id new_quality_check]. unfold py_or, dict_get.
  destruct (assoc "datasetId" report); reflexivity.
Qed.

Lemma build_event_dataset_id_witness :
  exists e,
    build_event no_lib (VDict sample_report) "requested" VNone
      "2024-01-01T00:00:00.000Z" (VDict (sample_row (VBool true))) = Ok e /\
    dataset_id e = VStr "d1".
Proof.
  eexists. split; [reflexivity |].
  exact (build_event_dataset_id no_lib sample_report (sample_row (VBool true))
           "requested" VNone "2024-01-01T00:00:00.000Z" _ eq_refl).
Defined.

(** ** The auth token *)

Lemma rstrip_by_all (p : ascii -> bool) (s : string) :
  forallb p (list_ascii_of_string s) = true -> rstrip_by p s = EmptyString.
Proof.
  induction s as [| c s IH]; simpl; [reflexivity |].
  intros H. apply andb_prop in H. destruct H as [Hc Hs].
  rewrite (IH Hs), Hc. reflexivity.
Qed.

Lemma _opt_absent (tok : option string) :
  token_absent tok = true -> _opt tok = None.
Proof.
  destruct tok as [s |]; simpl; [| reflexivity].
  intros H. unfold strip. rewrite (rstrip_by_all _ _ H). simpl.
  rewrite andb_false_r. reflexivity.
Qed.

Lemma rstrip_by_some (p : ascii -> bool) (s : string) :
  forallb p (list_ascii_of_string s) = false -> rstrip_by p s <> EmptyString.
Proof.
  induction s as [| c s IH]; simpl; [discriminate |].
  destruct (p c) eqn:Hc; simpl.
  - intros H. specialize (IH H). destruct (rstrip_by p s); [now elim IH | discriminate].
  - intros _. destruct (rstrip_by p s); discriminate.
Qed.

Lemma lstrip_by_some (p : ascii -> bool) (s : string) :
  forallb p (list_ascii_of_string s) = false -> lstrip_by p s <> EmptyString.
Proof.
  induction s as [| c s IH]; simpl; [discriminate |].
  destruct (p c) eqn:Hc; simpl; [exact IH | discriminate].
Qed.

Lemma rstrip_by_forallb (p : ascii -> bool) (s : string) :
  forallb p (list_ascii_of_string s) = false ->
  forallb p (list_ascii_of_string (rstrip_by p s)) = false.
Proof.
  induction s as [| c s IH]; simpl; [discriminate |].
  destruct (p c) eqn:Hc; simpl.
  - intros H. specialize (IH H).
    destruct (rstrip_by p s) eqn:E; [discriminate IH |].
    simpl. rewrite Hc. exact IH.
  - intros _. destruct (rstrip_by p s); simpl; rewrite Hc; reflexivity.
Qed.

Lemma _opt_present (s : string) :
  token_absent (Some s) = false -> _opt (Some s) = Some s.
Proof.
  simpl. unfold all_space. intros H.
  assert (Hs : str_truthy s = true).
  { destruct s; [discriminate H | reflexivity]. }
  assert (Ht : str_truthy (strip s) = true).
  { unfold strip.
    pose proof (lstrip_by_some _ _ (rstrip_by_forallb _ _ H)) as Hn.
    destruct (lstrip_by is_space (rstrip_by is_space s)); [now elim Hn | reflexivity]. }
  rewrite Hs, Ht. reflexivity.
Qed.

(** C6: without a token (null, empty or whitespace only) [send_event]
    raises the configuration error and the trace is unchanged: no request
    was issued. *)
Theorem send_event_no_token (w : World) (self : FeastDQOnlyConnector)
    (evt : MonitoringPlatformQualityCheck) (tr : trace) :
  token_absent (logstash_basic_auth self) = true ->
  send_event w self evt tr = (Raise RuntimeError, tr).
Proof.
  intros H. unfold send_event, bind, lift, _logstash_headers,
    _resolve_logstash_basic.
  rewrite (_opt_absent _ H). reflexivity.
Qed.

Lemma send_event_no_token_witness :
  token_absent (logstash_basic_auth (sample_connector (Some "   "))) = true /\
  send_event (sample_world one_result_report 200) (sample_connector (Some "   "))
    (new_quality_check (VStr "d1") VNone (VStr "rule") None VNone VNone true
       "2024-01-01T00:00:00.000Z") []
  = (Raise RuntimeError, []).
Proof.
  split; [reflexivity |].
  apply (send_event_no_token (sample_world one_result_report 200)
           (sample_connector (Some "   "))).
  reflexivity.
Defined.

(** The three ways of having no token. *)
Example token_absent_cases :
  token_absent None = true /\ token_absent (Some "") = true
  /\ token_absent (Some "  ") = true /\ token_absent (Some "dG9r") = false.
Proof. repeat split. Qed.

(** With a token, [send_event] issues exactly one request, the POST to
    the ingestion URL carrying the token. *)
Lemma send_event_with_token (w : World) (self : FeastDQOnlyConnector)
    (evt : MonitoringPlatformQualityCheck) (tr : trace) (s : string) :
  logstash_basic_auth self = Some s ->
  token_absent (Some s) = false ->
  let rq := event_request self (to_dict evt)
              [("Content-Type", "application/json");
               ("Authorization", "Basic " ++ s)] in
  snd (send_event w self evt tr) = (tr ++ [(rq, net w tr rq)])%list.
Proof.
  intros Hs H. cbv zeta. unfold send_event, bind, lift, _logstash_headers,
    _resolve_logstash_basic.
  rewrite Hs, (_opt_present _ H).
  assert (Ht : str_truthy s = true).
  { destruct s; [discriminate H | reflexivity]. }
  rewrite Ht. cbn [rbind]. unfold http.
  destruct (net w tr _) as [r | e]; [| reflexivity].
  destruct (raise_for_status r); reflexivity.
Qed.

(** ** The dataset-name lookup *)

Lemma fetch_dataset_name_eq (w : World) (self : FeastDQOnlyConnector)
    (ds_id : string) (tr : trace) (r : response) :
  net w tr (dataset_request self ds_id) = Ok r ->
  fetch_dataset_name w self ds_id tr =
  ((if resp_ok r && str_truthy (text r)
    then j <- json r ;;
         title <- py_get j "title" ;;
         if py_bool title then Ok title else py_get j "name"
    else Ok VNone),
   (tr ++ [(dataset_request self ds_id, Ok r)])%list).
Proof.
  intros H. unfold fetch_dataset_name, bind, http, lift, ret. rewrite H.
  destruct (resp_ok r && str_truthy (text r)); [| reflexivity].
  destruct (json r) as [j | e]; [| reflexivity]. cbn [rbind].
  destruct (py_get j "title") as [t | e]; [| reflexivity]. cbn [rbind].
  destruct (py_bool t); reflexivity.
Qed.

(** C2, as stated, fails: a successful response whose body does not decode
    makes [fetch_dataset_name] raise instead of returning null. *)
Lemma fetch_dataset_name_unusable_body_raises :
  ~ (forall (w : World) (self : FeastDQOnlyConnector) (ds_id : string)
            (tr : trace) (r : response),
       net w tr (dataset_request self ds_id) = Ok r ->
       resp_ok r = false \/ text r = "" \/ (forall d, json r <> Ok (VDict d)) ->
       fst (fetch_dataset_name w self ds_id tr) = Ok VNone).
Proof.
  intros H.
  pose (r := {| status_code := 200; text := "<html>oops</html>";
                json := Raise JSONDecodeError |}).
  specialize (H {| net := fun _ _ => Ok r; clock := fun _ => 0 |}
                (new_connector "http://feast/" ["c1"] ["d1"] "http://logstash"
                   (Some "dXNlcjpwYXNz"))
                "d1" [] r eq_refl).
  assert (Hu : resp_ok r = false \/ text r = ""
               \/ (forall d, json r <> Ok (VDict d))).
  { right; right. intros d. discriminate. }
  specialize (H Hu). discriminate H.
Qed.

(** C2, amended: after one metadata read answered by [r],
    [fetch_dataset_name] returns null when the response is a non-success
    one or its body is empty, and the dataset's criteria are then run with
    a null dataset_name; on a success with a body that decodes to an
    object it returns "title" when that is truthy and otherwise "name"
    (null if missing); when the body does not decode, or decodes to
    something other than an object, it raises. *)
Theorem fetch_dataset_name_spec (lib : PyLib) (w : World)
    (self : FeastDQOnlyConnector) (ds_id : string) (tr : trace) (r : response) :
  net w tr (dataset_request self ds_id) = Ok r ->
  let tr' := (tr ++ [(dataset_request self ds_id, Ok r)])%list in
  (resp_ok r = false \/ text r = "" ->
     fetch_dataset_name w self ds_id tr = (Ok VNone, tr') /\
     forall counters,
       run_dataset lib w self ds_id counters tr =
       run_criteria lib w self ds_id VNone (criteria_ids self) counters tr') /\
  (resp_ok r = true -> text r <> "" ->
     (forall d, json r = Ok (VDict d) ->
        fetch_dataset_name w self ds_id tr =
        (Ok (py_or (dict_get d "title") (dict_get d "name")), tr')) /\
     (forall e, json r = Raise e ->
        fetch_dataset_name w self ds_id tr = (Raise e, tr')) /\
     (forall j, json r = Ok j -> (forall d, j <> VDict d) ->
        fetch_dataset_name w self ds_id tr = (Raise AttributeError, tr'))).
Proof.
  intros H. cbv zeta. split.
  - intros Hr.
    assert (Hf : fetch_dataset_name w self ds_id tr =
                 (Ok VNone, (tr ++ [(dataset_request self ds_id, Ok r)])%list)).
    { rewrite (fetch_dataset_name_eq _ _ _ _ _ H).
      destruct Hr as [-> | ->]; [reflexivity |].
      rewrite andb_false_r. reflexivity. }
    split; [exact Hf |].
    intros counters. unfold run_dataset, bind. rewrite Hf. reflexivity.
  - intros Hok Htext. rewrite (fetch_dataset_name_eq _ _ _ _ _ H), Hok.
    assert (Ht : str_truthy (text r) = true).
    { destruct (text r); [now elim Htext | reflexivity]. }
    rewrite Ht. cbn [andb]. repeat split.
    + intros d ->. cbn [rbind py_get]. unfold py_or.
      destruct (py_bool (dict_get d "title")); reflexivity.
    + intros e ->. reflexivity.
    + intros j -> Hj. destruct j; try reflexivity. now elim (Hj d).
Qed.

Lemma fetch_dataset_name_spec_witness :
  fetch_dataset_name (sample_world one_result_report 200)
    (sample_connector (Some "dG9r")) "d1" []
  = (Ok (VStr "Set"),
     [(dataset_request (sample_connector (Some "dG9r")) "d1",
       Ok (json_response (VDict [("title", VStr "Set"); ("name", VStr "set")])))]).
Proof.
  exact (proj1 (proj2
           (fetch_dataset_name_spec no_lib (sample_world one_result_report 200)
              (sample_connector (Some "dG9r")) "d1" []
              (json_response (VDict [("title", VStr "Set"); ("name", VStr "set")]))
              eq_refl)
           eq_refl ltac:(discriminate))
           [("title", VStr "Set"); ("name", VStr "set")] eq_refl).
Defined.

(** ** The calendar *)

Ltac dlia := Z.div_mod_to_equations; lia.

Lemma is_leap_true (y : Z) :
  is_leap y = true <-> y mod 4 = 0 /\ (y mod 100 <> 0 \/ y mod 400 = 0).
Proof.
  unfold is_leap.
  rewrite andb_true_iff, orb_true_iff, negb_true_iff, !Z.eqb_eq, Z.eqb_neq.
  reflexivity.
Qed.

Lemma is_leap_false (y : Z) :
  is_leap y = false <-> y mod 4 <> 0 \/ (y mod 100 = 0 /\ y mod 400 <> 0).
Proof.
  unfold is_leap.
  rewrite andb_false_iff, orb_false_iff, negb_false_iff, !Z.eqb_eq, !Z.eqb_neq.
  reflexivity.
Qed.

Lemma month_cases (m : Z) :
  1 <= m <= 12 ->
  m = 1 \/ m = 2 \/ m = 3 \/ m = 4 \/ m = 5 \/ m = 6 \/ m = 7 \/ m = 8
  \/ m = 9 \/ m = 10 \/ m = 11 \/ m = 12.
Proof. lia. Qed.

Ltac each_month H :=
  apply month_cases in H;
  repeat (destruct H as [H | H]; [subst |]); [.. | subst].

Ltac closed_Z t :=
  match t with
  | Z0 => idtac
  | Zpos ?p => closed_pos p
  | Zneg ?p => closed_pos p
  end
with closed_pos p :=
  match p with
  | xH => idtac
  | xO ?q => closed_pos q
  | xI ?q => closed_pos q
  end.

(** Evaluate the tests and differences whose operands are literals, then
    split on the tests that are left. *)
Ltac eval_literals :=
  repeat match goal with
         | |- context [Z.sub ?a ?b] =>
             closed_Z a; closed_Z b;
             let v := eval cbv in (Z.sub a b) in change (Z.sub a b) with v
         | |- context [Z.ltb ?a ?b] =>
             closed_Z a; closed_Z b;
             let v := eval cbv in (Z.ltb a b) in change (Z.ltb a b) with v
         | |- context [Z.eqb ?a ?b] =>
             closed_Z a; closed_Z b;
             let v := eval cbv in (Z.eqb a b) in change (Z.eqb a b) with v
         end;
  cbn [andb orb negb].

Ltac split_tests :=
  repeat match goal with
         | |- context [Z.ltb ?a ?b] =>
             destruct (Z.ltb_spec a b); try (exfalso; lia)
         | |- context [Z.eqb ?a ?b] =>
             destruct (Z.eqb_spec a b); try (exfalso; lia)
         end.

(** Within a year: day [n] (counted from 0) of a year that is leap or
    not, as [ord_to_ymd] splits it into month and day. *)
Lemma month_day_spec (y n : Z) :
  0 <= n < 365 ->
  let m := Z.shiftr (n + 50) 5 in
  let preceding :=
    days_before_month_table m + (if (2 <? m) && is_leap y then 1 else 0) in
  let '(m', d') :=
    if n <? preceding
    then (m - 1, n - (preceding - days_in_month y (m - 1)) + 1)
    else (m, n - preceding + 1) in
  1 <= m' <= 12 /\ 1 <= d' <= days_in_month y m'
  /\ days_before_month y m' + d' = n + 1.
Proof.
  intros Hn. cbv zeta.
  rewrite Z.shiftr_div_pow2 by lia. change (2 ^ 5) with 32.
  assert (Hm : 1 <= (n + 50) / 32 <= 12) by dlia.
  assert (Hb : 32 * ((n + 50) / 32) <= n + 50 < 32 * ((n + 50) / 32) + 32) by dlia.
  set (m := (n + 50) / 32) in *. clearbody m.
  unfold days_before_month, days_in_month.
  destruct (is_leap y);
    each_month Hm; eval_literals;
    cbv beta iota delta [days_before_month_table];
    split_tests; cbn [andb orb negb]; lia.
Qed.

Lemma ord_to_ymd_spec (ordinal : Z) :
  let '(y, m, d) := ord_to_ymd ordinal in
  1 <= m <= 12 /\ 1 <= d <= days_in_month y m /\ ymd_to_ord y m d = ordinal.
Proof.
  unfold ord_to_ymd. cbv zeta. unfold DI400Y, DI100Y, DI4Y.
  set (o := ordinal - 1).
  pose proof (Z.div_mod o 146097 ltac:(lia)) as E0.
  pose proof (Z.mod_pos_bound o 146097 ltac:(lia)) as B0.
  set (n400 := o / 146097) in *. set (r := o mod 146097) in *.
  pose proof (Z.div_mod r 36524 ltac:(lia)) as E1.
  pose proof (Z.mod_pos_bound r 36524 ltac:(lia)) as B1.
  set (n100 := r / 36524) in *. set (r1 := r mod 36524) in *.
  pose proof (Z.div_mod r1 1461 ltac:(lia)) as E2.
  pose proof (Z.mod_pos_bound r1 1461 ltac:(lia)) as B2.
  set (n4 := r1 / 1461) in *. set (r2 := r1 mod 1461) in *.
  pose proof (Z.div_mod r2 365 ltac:(lia)) as E3.
  pose proof (Z.mod_pos_bound r2 365 ltac:(lia)) as B3.
  set (n1 := r2 / 365) in *. set (n := r2 mod 365) in *.
  assert (Ho : ordinal = o + 1) by (unfold o; lia).
  clearbody n1 n n4 r2 n100 r1 n400 r o. subst ordinal o r r1 r2.
  set (y := n400 * 400 + 1 + n100 * 100 + n4 * 4 + n1).
  assert (Hy : y = n400 * 400 + 1 + n100 * 100 + n4 * 4 + n1) by reflexivity.
  clearbody y.
  destruct ((n1 =? 4) || (n100 =? 4)) eqn:Esp.
  - (* the last day of a leap year *)
    apply orb_true_iff in Esp. rewrite !Z.eqb_eq in Esp.
    assert (Hl : is_leap (y - 1) = true).
    { apply is_leap_true. dlia. }
    unfold ymd_to_ord, days_before_month, days_in_month, days_before_year.
    rewrite Hl. eval_literals. cbv beta iota delta [days_before_month_table].
    cbv zeta. dlia.
  - apply orb_false_iff in Esp. rewrite !Z.eqb_neq in Esp.
    assert (Hl : (n1 =? 3) && (negb (n4 =? 24) || (n100 =? 3)) = is_leap y).
    { destruct (Z.eqb_spec n1 3), (Z.eqb_spec n4 24), (Z.eqb_spec n100 3);
        cbn [andb orb negb]; symmetry;
        first [ apply is_leap_true | apply is_leap_false ]; dlia. }
    rewrite Hl.
    pose proof (month_day_spec y n B3) as M. cbv zeta in M.
    destruct (n <? _); destruct M as (Hm & Hd & Hs);
      (split; [exact Hm | split; [exact Hd |]]);
      unfold ymd_to_ord, days_before_year; cbv zeta; dlia.
Qed.

Lemma days_before_month_bound (y m d : Z) :
  1 <= m <= 12 -> 1 <= d <= days_in_month y m ->
  1 <= days_before_month y m + d <= 365 + (if is_leap y then 1 else 0).
Proof.
  intros Hm. unfold days_before_month, days_in_month.
  destruct (is_leap y); each_month Hm; eval_literals;
    cbv beta iota delta [days_before_month_table]; lia.
Qed.

Lemma ord_to_ymd_year (ordinal : Z) :
  1 <= ordinal <= 3652059 ->
  MINYEAR <= fst (fst (ord_to_ymd ordinal)) <= MAXYEAR.
Proof.
  intros H. pose proof (ord_to_ymd_spec ordinal) as S.
  destruct (ord_to_ymd ordinal) as [[y m] d]. cbn [fst].
  destruct S as (Hm & Hd & Ho).
  pose proof (days_before_month_bound y m d Hm Hd) as B.
  unfold ymd_to_ord, days_before_year in Ho. cbv zeta in Ho.
  unfold MINYEAR, MAXYEAR.
  assert (Hl : 0 <= (if is_leap y then 1 else 0) <= 1)
    by (destruct (is_leap y); lia).
  destruct (is_leap y) eqn:El.
  - apply is_leap_true in El. dlia.
  - dlia.
Qed.

(** ** Formatting and reading back *)

Lemma digit_char_cases (d : Z) :
  In (digit_char d) ["0"; "1"; "2"; "3"; "4"; "5"; "6"; "7"; "8"; "9"]%char.
Proof.
  unfold digit_char.
  pose proof (Z.mod_pos_bound d 10 ltac:(lia)) as B.
  assert (H : d mod 10 = 0 \/ d mod 10 = 1 \/ d mod 10 = 2 \/ d mod 10 = 3
              \/ d mod 10 = 4 \/ d mod 10 = 5 \/ d mod 10 = 6 \/ d mod 10 = 7
              \/ d mod 10 = 8 \/ d mod 10 = 9) by lia.
  repeat (destruct H as [H | H]; [rewrite H; simpl; tauto |]).
  rewrite H; simpl; tauto.
Qed.

Lemma digit_val_char (d : Z) : digit_val (digit_char d) = Some (d mod 10).
Proof.
  unfold digit_char.
  pose proof (Z.mod_pos_bound d 10 ltac:(lia)) as B.
  assert (H : d mod 10 = 0 \/ d mod 10 = 1 \/ d mod 10 = 2 \/ d mod 10 = 3
              \/ d mod 10 = 4 \/ d mod 10 = 5 \/ d mod 10 = 6 \/ d mod 10 = 7
              \/ d mod 10 = 8 \/ d mod 10 = 9) by lia.
  repeat (destruct H as [H | H]; [rewrite H; reflexivity |]).
  rewrite H; reflexivity.
Qed.

Lemma string_app_assoc (a b c : string) : ((a ++ b) ++ c = a ++ (b ++ c))%string.
Proof. induction a as [| x a IH]; simpl; [reflexivity | now rewrite IH]. Qed.

Lemma parse_digits_zfill (w : nat) (n : Z) (rest : string) :
  0 <= n < 10 ^ Z.of_nat w ->
  parse_digits w (zfill w n ++ rest)%string = Some (n, rest).
Proof.
  revert n rest. induction w as [| w IH]; intros n rest H.
  - simpl in *. f_equal. f_equal. lia.
  - cbn [zfill parse_digits]. rewrite string_app_assoc.
    rewrite Nat2Z.inj_succ, Z.pow_succ_r in H by lia.
    rewrite IH by dlia. cbn [String.append].
    rewrite digit_val_char. f_equal. f_equal. dlia.
Qed.

Lemma field_zfill (w : nat) (sep : ascii) (n : Z) (rest : string) :
  0 <= n < 10 ^ Z.of_nat w ->
  field w sep (zfill w n ++ String sep rest)%string = Some (n, rest).
Proof.
  intros H. unfold field. rewrite parse_digits_zfill by exact H.
  rewrite Ascii.eqb_refl. reflexivity.
Qed.

Lemma length_app (a b : string) :
  String.length (a ++ b) = (String.length a + String.length b)%nat.
Proof. induction a as [| c a IH]; simpl; [reflexivity | now rewrite IH]. Qed.

Lemma length_zfill (w : nat) (n : Z) : String.length (zfill w n) = w.
Proof.
  revert n. induction w as [| w IH]; intros n; [reflexivity |].
  cbn [zfill]. rewrite length_app, IH. simpl. apply Nat.add_1_r.
Qed.

Lemma no_plus_app (a b : string) :
  no_plus (a ++ b) = no_plus a && no_plus b.
Proof.
  unfold no_plus. induction a as [| c a IH]; simpl; [reflexivity |].
  rewrite IH. apply andb_assoc.
Qed.

Lemma no_plus_zfill (w : nat) (n : Z) : no_plus (zfill w n) = true.
Proof.
  revert n. induction w as [| w IH]; intros n; [reflexivity |].
  cbn [zfill]. rewrite no_plus_app, IH. unfold no_plus. simpl.
  pose proof (digit_char_cases n) as H. simpl in H.
  repeat (destruct H as [<- | H]; [reflexivity |]). contradiction.
Qed.

Lemma replace_plus_app (new a s : string) :
  no_plus a = true ->
  replace_from "+00:00" new 0 (a ++ s) = (a ++ replace_from "+00:00" new 0 s)%string.
Proof.
  unfold no_plus. induction a as [| c a IH]; intros H; [reflexivity |].
  simpl in H. apply andb_prop in H. destruct H as [Hc Ha].
  cbn [String.append replace_from String.prefix].
  destruct (ascii_dec "+" c) as [<- | _]; [discriminate Hc |].
  rewrite (IH Ha). reflexivity.
Qed.

Lemma iso_z_utc (dt : datetime) :
  tzinfo dt = Some 0 -> iso_z dt = (iso_body dt ++ "Z")%string.
Proof.
  intros H. unfold iso_z, isoformat_ms, iso_body, replace. rewrite H.
  change (format_offset (Some 0)) with "+00:00".
  repeat (rewrite replace_plus_app by (first [apply no_plus_zfill | reflexivity])).
  rewrite !string_app_assoc. reflexivity.
Qed.

Lemma length_iso_body (dt : datetime) : String.length (iso_body dt) = 23%nat.
Proof.
  unfold iso_body. rewrite !length_app, !length_zfill. reflexivity.
Qed.

Lemma utc_of_us_tzinfo (us : Z) : tzinfo (utc_of_us us) = Some 0.
Proof. unfold utc_of_us. destruct (ord_to_ymd _) as [[y m] d]. reflexivity. Qed.

(** An instant inside the range of [datetime] is rendered as a string
    that reads back as that instant's whole milliseconds. *)
Lemma parse_iso_z_utc_of_us (us : Z) :
  in_datetime_range us = true ->
  parse_iso_ms_z (iso_z (utc_of_us us)) = Some (us / 1000).
Proof.
  intros H. rewrite iso_z_utc by apply utc_of_us_tzinfo.
  unfold in_datetime_range, MIN_US, MAX_US, EPOCH_ORD in H.
  apply andb_prop in H. destruct H as [Hlo Hhi].
  apply Z.leb_le in Hlo. apply Z.ltb_lt in Hhi.
  unfold utc_of_us, EPOCH_ORD.
  set (secs := us / 1000000).
  set (days := secs / 86400). set (rem := secs mod 86400).
  assert (Hord : 1 <= days + 719163 <= 3652059) by (unfold days, secs; dlia).
  pose proof (ord_to_ymd_spec (days + 719163)) as S.
  pose proof (ord_to_ymd_year _ Hord) as Y.
  destruct (ord_to_ymd (days + 719163)) as [[y m] d].
  cbn [fst] in Y. unfold MINYEAR, MAXYEAR in Y.
  destruct S as (Hm & Hd & Ho).
  assert (Hd31 : days_in_month y m <= 31).
  { unfold days_in_month.
    destruct (m =? 2), (is_leap y),
      ((m =? 4) || (m =? 6) || (m =? 9) || (m =? 11)); lia. }
  assert (Hrem : 0 <= rem < 86400) by (unfold rem; dlia).
  unfold iso_body. cbn [year month day hour minute second microsecond].
  rewrite !string_app_assoc. cbn [String.append].
  unfold parse_iso_ms_z.
  rewrite field_zfill by (change (10 ^ Z.of_nat 4) with 10000; lia).
  rewrite field_zfill by (change (10 ^ Z.of_nat 2) with 100; lia).
  rewrite field_zfill by (change (10 ^ Z.of_nat 2) with 100; lia).
  rewrite field_zfill by (change (10 ^ Z.of_nat 2) with 100; dlia).
  rewrite field_zfill by (change (10 ^ Z.of_nat 2) with 100; dlia).
  rewrite field_zfill by (change (10 ^ Z.of_nat 2) with 100; dlia).
  rewrite field_zfill by (change (10 ^ Z.of_nat 3) with 1000; dlia).
  assert (Hv : valid_fields y m d (rem / 3600) (rem mod 3600 / 60) (rem mod 60)
               = true).
  { unfold valid_fields, MINYEAR.
    repeat (apply andb_true_intro; split);
      first [apply Z.leb_le | apply Z.ltb_lt]; dlia. }
  rewrite Hv, Ho. f_equal. unfold EPOCH_ORD, rem, days, secs. dlia.
Qed.

Lemma iso_z_utc_of_us_shape (us : Z) :
  exists body,
    iso_z (utc_of_us us) = (body ++ "Z")%string /\ String.length body = 23%nat.
Proof.
  exists (iso_body (utc_of_us us)). split.
  - apply iso_z_utc, utc_of_us_tzinfo.
  - apply length_iso_body.
Qed.

(** ** Binary64 arithmetic

    [float(ts) / 1000.0] and the microsecond count [fromtimestamp] takes
    from it, followed through the specification of the float operations
    ([SpecFloat]): each rounding is within half a unit in the last
    place. *)

Lemma pow2_pos (k : Z) : 0 <= k -> 0 < 2 ^ k.
Proof. intros H. apply Z.pow_pos_nonneg; lia. Qed.

Lemma pow2_add (a b : Z) : 0 <= a -> 0 <= b -> 2 ^ (a + b) = 2 ^ a * 2 ^ b.
Proof. intros. apply Z.pow_add_r; assumption. Qed.

Lemma pow2_succ (a : Z) : 0 <= a -> 2 ^ (a + 1) = 2 * 2 ^ a.
Proof. intros. rewrite Z.pow_add_r by lia. change (2 ^ 1) with 2. lia. Qed.

Lemma pow2_le (a b : Z) : 0 <= a <= b -> 2 ^ a <= 2 ^ b.
Proof. intros. apply Z.pow_le_mono_r; lia. Qed.

Lemma pow2_lt (a b : Z) : 0 <= a < b -> 2 ^ a < 2 ^ b.
Proof. intros. apply Z.pow_lt_mono_r; lia. Qed.

Lemma pow2_lt_inv (a b : Z) : 0 <= b -> 2 ^ a < 2 ^ b -> a < b.
Proof. intros Hb H. apply (Z.pow_lt_mono_r_iff 2); [lia | exact Hb | exact H]. Qed.

Lemma digits2_pos_bounds (p : positive) :
  2 ^ (Zpos (digits2_pos p) - 1) <= Zpos p < 2 ^ Zpos (digits2_pos p).
Proof.
  induction p as [p IH | p IH |]; cbn [digits2_pos].
  - rewrite Pos2Z.inj_succ, Pos2Z.inj_xI.
    replace (Z.succ (Zpos (digits2_pos p)) - 1)
      with (Zpos (digits2_pos p) - 1 + 1) by lia.
    unfold Z.succ. rewrite !pow2_succ by lia. lia.
  - rewrite Pos2Z.inj_succ, Pos2Z.inj_xO.
    replace (Z.succ (Zpos (digits2_pos p)) - 1)
      with (Zpos (digits2_pos p) - 1 + 1) by lia.
    unfold Z.succ. rewrite !pow2_succ by lia. lia.
  - cbn. lia.
Qed.

(** The number of binary digits of a positive number is the [k] with
    [2^(k-1) <= m < 2^k]. *)
Lemma Zdigits2_bounds (m : Z) :
  0 < m -> 0 < Zdigits2 m /\ 2 ^ (Zdigits2 m - 1) <= m < 2 ^ Zdigits2 m.
Proof.
  destruct m as [| p | p]; try lia. intros _. cbn [Zdigits2].
  split; [lia | apply digits2_pos_bounds].
Qed.

Lemma Zdigits2_unique (m k : Z) :
  0 < k -> 2 ^ (k - 1) <= m < 2 ^ k -> Zdigits2 m = k.
Proof.
  intros Hk H.
  assert (Hm : 0 < m) by (pose proof (pow2_pos (k - 1)); lia).
  destruct (Zdigits2_bounds m Hm) as [Hd B].
  assert (Zdigits2 m - 1 < k) by (apply pow2_lt_inv; lia).
  assert (k - 1 < Zdigits2 m) by (apply pow2_lt_inv; lia).
  lia.
Qed.

Lemma iter_xO (m d : positive) :
  Zpos (Pos.iter xO m d) = Zpos m * 2 ^ Zpos d.
Proof.
  induction d as [| d IH] using Pos.peano_ind.
  - cbn. lia.
  - rewrite Pos.iter_succ, Pos2Z.inj_xO, IH, Pos2Z.inj_succ.
    unfold Z.succ. rewrite pow2_succ by lia. lia.
Qed.

(** [shl_align]: the mantissa moved to a lower exponent. *)
Lemma shl_align_spec (mx : positive) (ex ex' : Z) :
  ex' <= ex ->
  Zpos (fst (shl_align mx ex ex')) = Zpos mx * 2 ^ (ex - ex') /\
  snd (shl_align mx ex ex') = ex'.
Proof.
  intros H. unfold shl_align.
  destruct (ex' - ex) as [| d | d] eqn:E; try lia.
  - assert (ex' = ex) by lia. subst. rewrite Z.sub_diag. cbn. lia.
  - cbn [fst snd]. rewrite iter_xO.
    replace (ex - ex') with (Zpos d) by lia. tauto.
Qed.

Lemma shr_1_nonneg (m : Z) (r s : bool) :
  0 <= m ->
  shr_1 {| shr_m := m; shr_r := r; shr_s := s |}
  = {| shr_m := m / 2; shr_r := Z.odd m; shr_s := r || s |}.
Proof.
  intros H. destruct m as [| p | p]; try lia.
  - reflexivity.
  - destruct p as [p | p |]; cbn [shr_1 Z.odd]; f_equal.
    + rewrite Pos2Z.inj_xI. dlia.
    + rewrite Pos2Z.inj_xO. dlia.
Qed.

Lemma loc_of_cases (r d : Z) (b1 b2 : bool) (m : Z) :
  0 <= r < d ->
  loc_of_shr_record {| shr_m := m; shr_r := b1; shr_s := b2 |} = loc_of r d ->
  (b1 || b2 = negb (r =? 0)).
Proof.
  intros Hr. unfold loc_of.
  destruct (Z.eqb_spec r 0); destruct b1, b2; cbn; try discriminate; reflexivity.
Qed.

Lemma holds_shr_1 (N D : Z) (mrs : shr_record) :
  holds N D mrs -> holds N (2 * D) (shr_1 mrs).
Proof.
  destruct mrs as [m r s]. intros (HD & HN & Hm & Hl). cbn [shr_m] in Hm.
  assert (Hr : 0 <= N mod D < D) by (apply Z.mod_pos_bound; lia).
  assert (Hm0 : 0 <= m) by (subst m; apply Z.div_pos; lia).
  pose proof (loc_of_cases _ _ _ _ _ Hr Hl) as Hs.
  rewrite (shr_1_nonneg m r s Hm0), Hs.
  assert (Hq : N / (2 * D) = m / 2).
  { subst m. rewrite (Z.mul_comm 2 D), <- Z.div_div by lia. reflexivity. }
  assert (Hrem : N mod (2 * D) = N mod D + D * (m mod 2)).
  { pose proof (Z.div_mod N (2 * D) ltac:(lia)) as E1.
    pose proof (Z.div_mod N D ltac:(lia)) as E2.
    pose proof (Z.div_mod m 2 ltac:(lia)) as E3.
    rewrite Hq in E1. rewrite <- Hm in E2. nia. }
  repeat split; try lia; [symmetry; exact Hq |].
  cbn [loc_of_shr_record]. unfold loc_of. rewrite Hrem.
  rewrite (Zmod_odd m).
  destruct (Z.odd m); destruct (Z.eqb_spec (N mod D) 0) as [E | E]; cbn [negb].
  - rewrite E. replace (0 + D * 1) with D by lia.
    destruct (Z.eqb_spec D 0); [lia |]. rewrite Z.compare_refl. reflexivity.
  - destruct (Z.eqb_spec (N mod D + D * 1) 0); [lia |].
    replace (2 * (N mod D + D * 1) ?= 2 * D) with Gt; [reflexivity |].
    symmetry. apply Z.compare_gt_iff. lia.
  - rewrite E. replace (0 + D * 0) with 0 by lia. reflexivity.
  - replace (N mod D + D * 0) with (N mod D) by lia.
    destruct (Z.eqb_spec (N mod D) 0); [lia |].
    replace (2 * (N mod D) ?= 2 * D) with Lt; [reflexivity |].
    symmetry. apply Z.compare_lt_iff. lia.
Qed.

Lemma holds_iter_shr_1 (p : positive) :
  forall N D mrs,
    holds N D mrs -> holds N (D * 2 ^ Zpos p) (iter_pos shr_1 p mrs).
Proof.
  induction p as [p IH | p IH |]; intros N D mrs H; cbn [iter_pos].
  - apply holds_shr_1 in H. apply IH in H. apply IH in H.
    assert (E : 2 ^ Zpos p~1 = 2 * (2 ^ Zpos p * 2 ^ Zpos p)).
    { rewrite <- pow2_add, <- pow2_succ by lia. f_equal. lia. }
    replace (D * 2 ^ Zpos p~1) with (2 * D * 2 ^ Zpos p * 2 ^ Zpos p);
      [exact H | rewrite E; lia].
  - apply IH in H. apply IH in H.
    assert (E : 2 ^ Zpos p~0 = 2 ^ Zpos p * 2 ^ Zpos p).
    { rewrite <- pow2_add by lia. f_equal. lia. }
    replace (D * 2 ^ Zpos p~0) with (D * 2 ^ Zpos p * 2 ^ Zpos p);
      [exact H | rewrite E; lia].
  - apply holds_shr_1 in H. replace (D * 2 ^ 1) with (2 * D) by lia. exact H.
Qed.

Lemma holds_of_loc (N D : Z) :
  0 < D -> 0 <= N ->
  holds N D (shr_record_of_loc (N / D) (loc_of (N mod D) D)).
Proof.
  intros HD HN. repeat split; try assumption.
  - destruct (loc_of (N mod D) D) as [| []]; reflexivity.
  - destruct (loc_of (N mod D) D) as [| []]; reflexivity.
Qed.

(** [shr_fexp] on a mantissa of at least 53 digits, above the subnormal
    range: the digits beyond the 53rd are shifted out. *)
Lemma holds_shr_fexp (N D e : Z) :
  0 < D -> 0 <= N ->
  53 <= Zdigits2 (N / D) ->
  emin <= Zdigits2 (N / D) + e - 53 ->
  let sh := Zdigits2 (N / D) - 53 in
  exists mrs,
    shr_fexp prec emax (N / D) e (loc_of (N mod D) D) = (mrs, e + sh) /\
    holds N (D * 2 ^ sh) mrs.
Proof.
  intros HD HN Hd He sh. unfold shr_fexp, fexp.
  replace (Z.max (Zdigits2 (N / D) + e - prec) (SpecFloat.emin prec emax) - e)
    with sh.
  2:{ change (SpecFloat.emin prec emax) with (-1074) in *.
      change prec with 53. unfold sh. lia. }
  pose proof (holds_of_loc N D HD HN) as H0.
  unfold shr. destruct sh as [| p | p] eqn:E; try lia.
  - eexists. split; [rewrite Z.add_0_r; reflexivity |].
    replace (D * 2 ^ 0) with D by lia. exact H0.
  - eexists. split; [reflexivity |]. apply holds_iter_shr_1. exact H0.
Qed.

Lemma round_nearest_even_spec (N D : Z) (mrs : shr_record) :
  holds N D mrs ->
  let m2 := round_nearest_even (shr_m mrs) (loc_of_shr_record mrs) in
  N / D <= m2 <= N / D + 1 /\
  Z.abs (2 * m2 * D - 2 * N) <= D /\
  (N mod D = 0 -> m2 = N / D).
Proof.
  intros (HD & HN & -> & ->). cbv zeta.
  pose proof (Z.div_mod N D ltac:(lia)) as E.
  pose proof (Z.mod_pos_bound N D HD) as B.
  set (q := N / D) in *. set (r := N mod D) in *. clearbody q r.
  unfold loc_of, round_nearest_even.
  destruct (Z.eqb_spec r 0) as [Hr | Hr].
  - subst r. repeat split; try lia. 
  - destruct (Z.compare_spec (2 * r) D) as [Hc | Hc | Hc].
    + destruct (Z.even q); repeat split; try lia; nia.
    + repeat split; try lia; nia.
    + repeat split; try lia; nia.
Qed.

(** Rounding to nearest, ties to even, of the quotient [N / D] scaled by
    [2^e], when the quotient has at least 53 digits and the result is a
    normal number: the mantissa [m2] is within half a unit of the exact
    value, and a mantissa that reaches [2^53] moves to the next
    exponent. *)
Lemma binary_round_aux_spec (sx : bool) (N D e : Z) :
  0 < D -> 0 <= N ->
  53 <= Zdigits2 (N / D) ->
  -1074 <= Zdigits2 (N / D) + e - 53 ->
  Zdigits2 (N / D) + e - 53 + 1 <= 971 ->
  let sh := Zdigits2 (N / D) - 53 in
  let D' := D * 2 ^ sh in
  exists m2,
    N / D' <= m2 <= N / D' + 1 /\
    2 ^ 52 <= m2 <= 2 ^ 53 /\
    Z.abs (2 * m2 * D' - 2 * N) <= D' /\
    (N mod D' = 0 -> m2 = N / D') /\
    binary_round_aux prec emax sx (N / D) e (loc_of (N mod D) D) =
    if m2 <? 2 ^ 53 then S754_finite sx (Z.to_pos m2) (e + sh)
    else S754_finite sx (Z.to_pos (2 ^ 52)) (e + sh + 1).
Proof.
  intros HD HN Hd Hlo Hhi sh D'.
  destruct (holds_shr_fexp N D e HD HN Hd Hlo) as (mrs & E1 & H1).
  fold sh in E1, H1. fold D' in H1.
  pose proof (round_nearest_even_spec N D' mrs H1) as R. cbv zeta in R.
  set (m2 := round_nearest_even (shr_m mrs) (loc_of_shr_record mrs)) in *.
  destruct R as (R1 & R2 & R3).
  assert (Hsh : 0 <= sh) by (unfold sh; lia).
  assert (HD' : 0 < D') by (unfold D'; pose proof (pow2_pos sh Hsh); nia).
  assert (Hq : 2 ^ 52 <= N / D' < 2 ^ 53).
  { assert (Hpos : 0 < N / D).
    { destruct (Z.eq_dec (N / D) 0) as [E0 | E0];
        [rewrite E0 in Hd; cbn in Hd; lia
        | pose proof (Z.div_pos N D HN HD); lia]. }
    destruct (Zdigits2_bounds (N / D) Hpos) as [_ B].
    replace (Zdigits2 (N / D)) with (sh + 53) in B by (unfold sh; lia).
    replace (sh + 53 - 1) with (sh + 52) in B by lia.
    rewrite !pow2_add in B by lia.
    unfold D'. rewrite <- Z.div_div by (try apply pow2_pos; lia).
    pose proof (pow2_pos sh Hsh) as P.
    set (X := N / D) in *. set (W := 2 ^ sh) in *. clearbody X W.
    split.
    - apply Z.div_le_lower_bound; lia.
    - apply Z.div_lt_upper_bound; lia. }
  exists m2. split; [exact R1 |]. split; [lia |]. split; [exact R2 |].
  split; [exact R3 |].
  unfold binary_round_aux. rewrite E1.
  fold m2.
  assert (Hm2 : 2 ^ 52 <= m2 <= 2 ^ 53) by lia.
  destruct (Z.ltb_spec m2 (2 ^ 53)) as [Hlt | Hge].
  - assert (Hdg : Zdigits2 m2 = 53) by (apply Zdigits2_unique; [lia | exact (conj (proj1 Hm2) Hlt)]).
    assert (P0 : 0 <= m2) by lia.
    assert (P1 : 53 <= Zdigits2 (m2 / 1)) by (rewrite Z.div_1_r, Hdg; lia).
    assert (P2 : -1074 <= Zdigits2 (m2 / 1) + (e + sh) - 53)
      by (rewrite Z.div_1_r, Hdg; unfold sh; lia).
    destruct (holds_shr_fexp m2 1 (e + sh) Z.lt_0_1 P0 P1 P2) as (mrs2 & E2 & H2).
    rewrite Z.div_1_r, Z.mod_1_r, Hdg in E2.
    change (loc_of 0 1) with loc_Exact in E2. rewrite E2.
    destruct H2 as (_ & _ & Hm & _).
    rewrite Z.div_1_r, Hdg in Hm. change (1 * 2 ^ (53 - 53)) with 1 in Hm.
    rewrite Z.div_1_r in Hm. rewrite Hm.
    destruct m2 as [| p | p]; try (cbn in Hm2; lia).
    replace (e + sh + (53 - 53) <=? emax - prec) with true.
    + rewrite Z.add_0_r. reflexivity.
    + symmetry. apply Z.leb_le. change (emax - prec) with 971. unfold sh. lia.
  - assert (Em : m2 = 2 ^ 53) by lia.
    assert (Hdg : Zdigits2 m2 = 54) by (rewrite Em; reflexivity).
    assert (P0 : 0 <= m2) by lia.
    assert (P1 : 53 <= Zdigits2 (m2 / 1)) by (rewrite Z.div_1_r, Hdg; lia).
    assert (P2 : -1074 <= Zdigits2 (m2 / 1) + (e + sh) - 53)
      by (rewrite Z.div_1_r, Hdg; unfold sh; lia).
    destruct (holds_shr_fexp m2 1 (e + sh) Z.lt_0_1 P0 P1 P2) as (mrs2 & E2 & H2).
    rewrite Z.div_1_r, Z.mod_1_r, Hdg in E2.
    change (loc_of 0 1) with loc_Exact in E2. rewrite E2.
    destruct H2 as (_ & _ & Hm & _).
    rewrite Z.div_1_r, Hdg, Em in Hm.
    change (2 ^ 53 / (1 * 2 ^ (54 - 53))) with (2 ^ 52) in Hm. rewrite Hm.
    change (2 ^ 52) with (Zpos (Z.to_pos (2 ^ 52))) at 1.
    cbv iota.
    replace (e + sh + (54 - 53) <=? emax - prec) with true.
    + reflexivity.
    + symmetry. apply Z.leb_le. change (emax - prec) with 971. unfold sh. lia.
Qed.

(** The same for a mantissa given exactly. *)
Lemma binary_round_aux_exact (sx : bool) (m e : Z) :
  53 <= Zdigits2 m -> 0 < m ->
  -1074 <= Zdigits2 m + e - 53 ->
  Zdigits2 m + e - 53 + 1 <= 971 ->
  let sh := Zdigits2 m - 53 in
  exists m2,
    m / 2 ^ sh <= m2 <= m / 2 ^ sh + 1 /\
    2 ^ 52 <= m2 <= 2 ^ 53 /\
    Z.abs (2 * m2 * 2 ^ sh - 2 * m) <= 2 ^ sh /\
    (m mod 2 ^ sh = 0 -> m2 = m / 2 ^ sh) /\
    binary_round_aux prec emax sx m e loc_Exact =
    if m2 <? 2 ^ 53 then S754_finite sx (Z.to_pos m2) (e + sh)
    else S754_finite sx (Z.to_pos (2 ^ 52)) (e + sh + 1).
Proof.
  intros Hd Hm Hlo Hhi sh.
  pose proof (binary_round_aux_spec sx m 1 e Z.lt_0_1) as H.
  rewrite Z.div_1_r, Z.mod_1_r in H. change (loc_of 0 1) with loc_Exact in H.
  specialize (H ltac:(lia) Hd Hlo Hhi). cbv zeta in H. fold sh in H.
  rewrite Z.mul_1_l in H. exact H.
Qed.

Lemma valid_normal (s : bool) (m : positive) (e : Z) :
  2 ^ 52 <= Zpos m < 2 ^ 53 -> -1074 <= e <= 971 ->
  valid_binary (S754_finite s m e) = true.
Proof.
  intros Hm He. cbn [SpecFloat.valid_binary]. unfold bounded, canonical_mantissa.
  change (Zpos (digits2_pos m)) with (Zdigits2 (Zpos m)).
  rewrite (Zdigits2_unique (Zpos m) 53) by (try exact Hm; lia).
  unfold fexp. change (SpecFloat.emin prec emax) with (-1074).
  change prec with 53. change emax with 1024.
  apply andb_true_intro. split; [apply Z.eqb_eq | apply Z.leb_le]; lia.
Qed.

(** A number of at most 53 digits is a float as it stands: the mantissa
    is the number moved up to 53 digits. *)
Lemma binary_normalize_exact (s : bool) (F e : Z) :
  0 < F < 2 ^ 53 -> -1022 <= e <= 970 ->
  let k := 53 - Zdigits2 F in
  binary_normalize prec emax (if s then - F else F) e false
  = S754_finite s (Z.to_pos (F * 2 ^ k)) (e - k)
  /\ 2 ^ 52 <= F * 2 ^ k < 2 ^ 53 /\ 0 <= k <= 52.
Proof.
  intros HF He k.
  destruct (Zdigits2_bounds F ltac:(lia)) as [Hd B].
  assert (Hd53 : Zdigits2 F <= 53).
  { assert (Zdigits2 F - 1 < 53) by (apply pow2_lt_inv; lia). lia. }
  assert (Hk : 0 <= k <= 52) by (unfold k; lia).
  assert (HM : 2 ^ 52 <= F * 2 ^ k < 2 ^ 53).
  { assert (E1 : 2 ^ 52 = 2 ^ (Zdigits2 F - 1) * 2 ^ k)
      by (rewrite <- pow2_add by lia; f_equal; unfold k; lia).
    assert (E2 : 2 ^ 53 = 2 ^ Zdigits2 F * 2 ^ k)
      by (rewrite <- pow2_add by lia; f_equal; unfold k; lia).
    rewrite E1, E2. pose proof (pow2_pos k ltac:(lia)). nia. }
  split; [| split; assumption].
  destruct F as [| p | p]; try lia.
  assert (E : binary_normalize prec emax (if s then - Zpos p else Zpos p) e false
              = binary_round prec emax s p e) by (destruct s; reflexivity).
  rewrite E. unfold binary_round.
  change (Zpos (digits2_pos p)) with (Zdigits2 (Zpos p)).
  assert (Ef : fexp prec emax (Zdigits2 (Zpos p) + e) = e - k).
  { unfold fexp. change (SpecFloat.emin prec emax) with (-1074).
    change prec with 53. unfold k. lia. }
  rewrite Ef.
  destruct (shl_align_spec p e (e - k) ltac:(lia)) as [S1 S2].
  destruct (shl_align p e (e - k)) as [mz ez]. cbn [fst snd] in S1, S2. subst ez.
  replace (e - (e - k)) with k in S1 by lia.
  assert (Hdz : Zdigits2 (Zpos mz) = 53)
    by (apply Zdigits2_unique; [lia | rewrite S1; exact HM]).
  destruct (binary_round_aux_exact s (Zpos mz) (e - k))
    as (m2 & R1 & R2 & R3 & R4 & R5);
    [rewrite Hdz; lia | lia | rewrite Hdz; lia | rewrite Hdz; lia |].
  rewrite Hdz in R1, R3, R4, R5. change (2 ^ (53 - 53)) with 1 in *.
  rewrite Z.mod_1_r, Z.div_1_r in R4. specialize (R4 eq_refl). subst m2.
  rewrite R5.
  destruct (Z.ltb_spec (Zpos mz) (2 ^ 53)); [| lia].
  rewrite <- S1. rewrite Z.add_0_r. reflexivity.
Qed.

Lemma Prim2SF_float_of_Z (s : bool) (n : Z) :
  0 < n < 2 ^ 53 ->
  let k := 53 - Zdigits2 n in
  Prim2SF (float_of_Z (if s then - n else n))
  = S754_finite s (Z.to_pos (n * 2 ^ k)) (- k)
  /\ 2 ^ 52 <= n * 2 ^ k < 2 ^ 53 /\ 0 <= k <= 52.
Proof.
  intros Hn k.
  destruct (binary_normalize_exact s n 0 Hn ltac:(lia)) as (E & HM & Hk).
  fold k in E, HM, Hk. split; [| split; assumption].
  unfold float_of_Z. rewrite E. apply Prim2SF_SF2Prim.
  apply valid_normal; [| lia].
  rewrite Z2Pos.id by lia. exact HM.
Qed.

Lemma Prim2SF_float_of_Z_0 : Prim2SF (float_of_Z 0) = S754_zero false.
Proof. reflexivity. Qed.

Lemma Prim2SF_1000 :
  Prim2SF 1000 = S754_finite false 8796093022208000 (-43).
Proof. reflexivity. Qed.

Lemma Prim2SF_1000000 :
  Prim2SF 1000000 = S754_finite false 8589934592000000 (-33).
Proof. reflexivity. Qed.

Lemma SFdiv_core_1000 (m1 : positive) (e1 : Z) :
  2 ^ 52 <= Zpos m1 < 2 ^ 53 -> -1000 <= e1 ->
  let N := Zpos m1 * 2 ^ 53 in
  let D := 8796093022208000 in
  SFdiv_core_binary prec emax (Zpos m1) e1 8796093022208000 (-43)
  = (N / D, e1 - 10, loc_of (N mod D) D).
Proof.
  intros Hm He N D. unfold SFdiv_core_binary.
  rewrite (Zdigits2_unique (Zpos m1) 53) by (try exact Hm; lia).
  change (Zdigits2 8796093022208000) with 53.
  assert (Ef : Z.min (fexp prec emax (53 + e1 - (53 + -43))) (e1 - -43) = e1 - 10).
  { unfold fexp. change (SpecFloat.emin prec emax) with (-1074).
    change prec with 53. lia. }
  rewrite Ef. replace (e1 - -43 - (e1 - 10)) with 53 by lia.
  rewrite Z.shiftl_mul_pow2 by lia. fold N.
  destruct (Z.div_eucl N 8796093022208000) as [q r] eqn:E.
  assert (Eq : q = N / D) by (unfold Z.div, D; rewrite E; reflexivity).
  assert (Er : r = N mod D) by (unfold Z.modulo, D; rewrite E; reflexivity).
  subst q r. reflexivity.
Qed.

(** Division of a normal number by 1000.0: the quotient is a normal
    number within half a unit in the last place of the exact quotient.
    [P] is the weight of that unit against [2^(e1 - 10)]. *)
Lemma div_1000_spec (s : bool) (m1 : positive) (e1 : Z) :
  2 ^ 52 <= Zpos m1 < 2 ^ 53 -> -1000 <= e1 <= 900 ->
  exists my ey P,
    SF64div (S754_finite s m1 e1) (Prim2SF 1000)
    = S754_finite s (Z.to_pos my) ey /\
    2 ^ 52 <= my < 2 ^ 53 /\
    P = 2 ^ (ey - (e1 - 10)) /\ e1 - 10 <= ey <= e1 - 8 /\
    Z.abs (2 * my * P * 1000 - 2 * Zpos m1 * 1024) <= 1000 * P.
Proof.
  intros Hm He. rewrite Prim2SF_1000. unfold SF64div. cbn [SFdiv].
  rewrite (SFdiv_core_1000 m1 e1 Hm ltac:(lia)). cbv zeta.
  set (N := Zpos m1 * 2 ^ 53). set (D := 8796093022208000).
  assert (HN : 0 <= N) by (unfold N; lia).
  assert (Hq : 2 ^ 52 <= N / D < 2 ^ 54).
  { unfold N, D. change (2 ^ 52) with 4503599627370496 in *.
    change (2 ^ 53) with 9007199254740992 in *.
    change (2 ^ 54) with 18014398509481984. dlia. }
  destruct (Zdigits2_bounds (N / D) ltac:(lia)) as [Hd0 Hd].
  assert (Hd1 : 52 < Zdigits2 (N / D)) by (apply pow2_lt_inv; lia).
  assert (Hd2 : Zdigits2 (N / D) - 1 < 54) by (apply pow2_lt_inv; lia).
  destruct (binary_round_aux_spec (xorb s false) N D (e1 - 10)
              eq_refl HN ltac:(lia) ltac:(lia) ltac:(lia))
    as (m2 & R1 & R2 & R3 & _ & R5).
  rewrite R5. rewrite xorb_false_r.
  assert (Hsh : Zdigits2 (N / D) - 53 = 0 \/ Zdigits2 (N / D) - 53 = 1) by lia.
  clear R1 R5.
  clear Hd Hq.
  destruct Hsh as [Hsh | Hsh]; rewrite Hsh in *;
    [change (2 ^ 0) with 1 in R3 | change (2 ^ 1) with 2 in R3];
    unfold N, D in R3;
    change (2 ^ 53) with 9007199254740992 in *;
    change (2 ^ 52) with 4503599627370496 in *;
    destruct (Z.ltb_spec m2 9007199254740992).
  - exists m2, (e1 - 10 + 0), 1.
    replace (e1 - 10 + 0 - (e1 - 10)) with 0 by lia.
    repeat split; first [reflexivity | lia].
  - exists 4503599627370496, (e1 - 10 + 0 + 1), 2.
    replace (e1 - 10 + 0 + 1 - (e1 - 10)) with 1 by lia.
    repeat split; first [reflexivity | lia].
  - exists m2, (e1 - 10 + 1), 2.
    replace (e1 - 10 + 1 - (e1 - 10)) with 1 by lia.
    repeat split; first [reflexivity | lia].
  - exists 4503599627370496, (e1 - 10 + 1 + 1), 4.
    replace (e1 - 10 + 1 + 1 - (e1 - 10)) with 2 by lia.
    repeat split; first [reflexivity | lia].
Qed.

(** Multiplication of a normal number by 1000000.0, likewise; [P] is the
    weight of the last place against [2^(ef + 19)]. *)
Lemma mul_1000000_spec (s : bool) (mf : positive) (ef : Z) :
  2 ^ 52 <= Zpos mf < 2 ^ 53 -> -1000 <= ef <= 900 ->
  exists mp ep P,
    SF64mul (S754_finite s mf ef) (Prim2SF 1000000)
    = S754_finite s (Z.to_pos mp) ep /\
    2 ^ 52 <= mp < 2 ^ 53 /\
    P = 2 ^ (ep - (ef + 19)) /\ ef + 19 <= ep <= ef + 21 /\
    Z.abs (2 * mp * P * 524288 - 2 * Zpos mf * 1000000) <= 524288 * P.
Proof.
  intros Hm He. rewrite Prim2SF_1000000. unfold SF64mul. cbn [SFmul].
  rewrite xorb_false_r, Pos2Z.inj_mul.
  set (N := Zpos mf * 8589934592000000).
  assert (Hq : 2 ^ 104 <= N < 2 ^ 106).
  { unfold N. change (2 ^ 52) with 4503599627370496 in *.
    change (2 ^ 53) with 9007199254740992 in *.
    change (2 ^ 104) with 20282409603651670423947251286016.
    change (2 ^ 106) with 81129638414606681695789005144064. lia. }
  destruct (Zdigits2_bounds N ltac:(lia)) as [Hd0 Hd].
  assert (Hd1 : 104 < Zdigits2 N) by (apply pow2_lt_inv; lia).
  assert (Hd2 : Zdigits2 N - 1 < 106) by (apply pow2_lt_inv; lia).
  destruct (binary_round_aux_exact s N (ef + -33)
              ltac:(lia) ltac:(lia) ltac:(lia) ltac:(lia))
    as (m2 & _ & R2 & R3 & _ & R5).
  rewrite R5.
  assert (Hsh : Zdigits2 N - 53 = 52 \/ Zdigits2 N - 53 = 53) by lia.
  clear Hd Hq R5.
  destruct Hsh as [Hsh | Hsh]; rewrite Hsh in *;
    [change (2 ^ 52) with 4503599627370496 in *
    | change (2 ^ 53) with 9007199254740992 in R3];
    unfold N in R3;
    change (2 ^ 53) with 9007199254740992 in *;
    change (2 ^ 52) with 4503599627370496 in *;
    destruct (Z.ltb_spec m2 9007199254740992).
  - exists m2, (ef + -33 + 52), 1.
    replace (ef + -33 + 52 - (ef + 19)) with 0 by lia.
    repeat split; first [reflexivity | lia].
  - exists 4503599627370496, (ef + -33 + 52 + 1), 2.
    replace (ef + -33 + 52 + 1 - (ef + 19)) with 1 by lia.
    repeat split; first [reflexivity | lia].
  - exists m2, (ef + -33 + 53), 2.
    replace (ef + -33 + 53 - (ef + 19)) with 1 by lia.
    repeat split; first [reflexivity | lia].
  - exists 4503599627370496, (ef + -33 + 53 + 1), 4.
    replace (ef + -33 + 53 + 1 - (ef + 19)) with 2 by lia.
    repeat split; first [reflexivity | lia].
Qed.

(** [float(z) / 1000.0] for an int of at most 53 bits: a normal number
    [my * 2^(-t)] within half a unit in the last place of [n / 1000]. *)
Lemma div_int_spec (s : bool) (n : Z) :
  0 < n < 2 ^ 53 ->
  exists my t,
    Prim2SF (float_of_Z (if s then - n else n) / 1000)
    = S754_finite s (Z.to_pos my) (- t) /\
    8 <= t <= 62 /\ 2 ^ 52 <= my < 2 ^ 53 /\
    Z.abs (2000 * my - 2 * n * 2 ^ t) <= 1000.
Proof.
  intros Hn. rewrite div_spec.
  destruct (Prim2SF_float_of_Z s n Hn) as (E & HM & Hk).
  set (k := 53 - Zdigits2 n) in *. rewrite E.
  assert (HM' : 2 ^ 52 <= Zpos (Z.to_pos (n * 2 ^ k)) < 2 ^ 53)
    by (rewrite Z2Pos.id by lia; exact HM).
  destruct (div_1000_spec s (Z.to_pos (n * 2 ^ k)) (- k) HM' ltac:(lia))
    as (my & ey & P & E1 & Hmy & HP & Hey & Hv).
  rewrite Z2Pos.id in Hv by lia.
  exists my, (- ey). rewrite Z.opp_involutive.
  split; [exact E1 |]. split; [lia |]. split; [exact Hmy |].
  assert (HPK : P * 2 ^ (- ey) = 1024 * 2 ^ k).
  { rewrite HP, <- pow2_add by lia.
    change 1024 with (2 ^ 10). rewrite <- pow2_add by lia. f_equal. lia. }
  assert (HP0 : 0 < P) by (rewrite HP; apply pow2_pos; lia).
  set (K := 2 ^ (- ey)) in *. set (J := 2 ^ k) in *. clearbody K J.
  assert (Hv' : Z.abs (P * (2000 * my - 2 * n * K)) <= P * 1000).
  { replace (P * (2000 * my - 2 * n * K))
      with (2 * my * P * 1000 - 2 * n * (P * K)) by ring.
    rewrite HPK.
    replace (2 * n * (1024 * J)) with (2 * (n * J) * 1024) by ring. lia. }
  rewrite Z.abs_mul, (Z.abs_eq P) in Hv' by lia.
  apply Z.mul_le_mono_pos_l in Hv'; assumption.
Qed.

(** The integer part and the fraction of that quotient, in units of
    [2^(-t)]. *)
Lemma trunc_frac_spec (my t n : Z) :
  0 < n -> 9 <= t ->
  Z.abs (2000 * my - 2 * n * 2 ^ t) <= 1000 ->
  let a := n / 1000 in
  let b := n mod 1000 in
  let F := my - a * 2 ^ t in
  my / 2 ^ t = a /\ 0 <= F < 2 ^ t /\
  Z.abs (2000 * F - 2 * b * 2 ^ t) <= 1000 /\
  (b = 0 -> F = 0) /\ (0 < b -> 0 < F).
Proof.
  intros Hn Ht Hv a b F.
  assert (HK : 2 ^ 9 <= 2 ^ t) by (apply pow2_le; lia).
  change (2 ^ 9) with 512 in HK.
  pose proof (Z.div_mod n 1000 ltac:(lia)) as E.
  pose proof (Z.mod_pos_bound n 1000 ltac:(lia)) as B.
  fold a b in E, B. unfold F. set (K := 2 ^ t) in *. clearbody K a b.
  assert (Hv' : Z.abs (2000 * (my - a * K) - 2 * b * K) <= 1000).
  { replace (2000 * (my - a * K) - 2 * b * K)
      with (2000 * my - 2 * (1000 * a + b) * K) by ring.
    rewrite <- E. exact Hv. }
  assert (HbK : 0 <= b * K <= 999 * K) by nia.
  assert (Hb1 : 0 < b -> K <= b * K) by nia.
  assert (Hb0 : b = 0 -> b * K = 0) by (intros ->; lia).
  replace (2 * b * K) with (2 * (b * K)) in * by ring.
  set (bK := b * K) in *. clearbody bK.
  assert (HF : 0 <= my - a * K < K).
  { destruct (Z.eq_dec b 0) as [Hz | Hz]; [specialize (Hb0 Hz) | specialize (Hb1 ltac:(lia))]; lia. }
  split.
  - symmetry. apply (Z.div_unique my K a (my - a * K)); [lia | ring].
  - repeat split; lia.
Qed.

Lemma float_trunc_normal (x : float) (s : bool) (m : positive) (t : Z) :
  Prim2SF x = S754_finite s m (- t) -> 0 < t ->
  float_trunc x = Some (if s then - (Zpos m / 2 ^ t) else Zpos m / 2 ^ t).
Proof.
  intros E Ht. unfold float_trunc. rewrite E.
  replace (0 <=? - t) with false by (symmetry; apply Z.leb_gt; lia).
  rewrite Z.opp_involutive. reflexivity.
Qed.

(** The difference of two numbers of one sign, when it costs no digit. *)
Lemma SFsub_same_sign (s : bool) (mx ma : positive) (ex ea : Z) :
  let ez := Z.min ex ea in
  let G := Zpos mx * 2 ^ (ex - ez) - Zpos ma * 2 ^ (ea - ez) in
  let k := 53 - Zdigits2 G in
  0 <= G < 2 ^ 53 -> -1022 <= ez <= 970 ->
  SF64sub (S754_finite s mx ex) (S754_finite s ma ea)
  = (if G =? 0 then S754_zero false
     else S754_finite s (Z.to_pos (G * 2 ^ k)) (ez - k))
  /\ (G <> 0 -> 2 ^ 52 <= G * 2 ^ k < 2 ^ 53 /\ 0 <= k <= 52).
Proof.
  intros ez G k HG He. unfold SF64sub. cbn [SFsub]. fold ez.
  destruct (shl_align_spec mx ex ez ltac:(unfold ez; lia)) as [-> _].
  destruct (shl_align_spec ma ea ez ltac:(unfold ez; lia)) as [-> _].
  fold G.
  assert (E : cond_Zopp s (Zpos mx * 2 ^ (ex - ez))
              - cond_Zopp s (Zpos ma * 2 ^ (ea - ez))
              = if s then - G else G).
  { unfold G, cond_Zopp. destruct s; ring. }
  rewrite E. unfold k. clearbody G.
  destruct (Z.eqb_spec G 0) as [-> | Hz].
  - split; [destruct s; reflexivity | intros H; now elim H].
  - destruct (binary_normalize_exact s G ez ltac:(lia) He) as (R & B1 & B2).
    split; [exact R | intros _; split; assumption].
Qed.

(** The fraction [y - float(ip)] that [fromtimestamp] scales: zero, or a
    normal number holding [F * 2^(-t)] exactly. *)
Lemma frac_float_spec (s : bool) (y : float) (my t n : Z) :
  Prim2SF y = S754_finite s (Z.to_pos my) (- t) ->
  2 ^ 52 <= my < 2 ^ 53 -> 9 <= t <= 62 -> 0 < n ->
  Z.abs (2000 * my - 2 * n * 2 ^ t) <= 1000 ->
  let a := n / 1000 in
  let F := my - a * 2 ^ t in
  let frac := (y - float_of_Z (if s then - a else a))%float in
  (F = 0 /\ Prim2SF frac = S754_zero false) \/
  (0 < F /\ exists mf tf,
     Prim2SF frac = S754_finite s (Z.to_pos mf) (- tf) /\
     2 ^ 52 <= mf < 2 ^ 53 /\ 53 <= tf <= 104 /\
     mf * 2 ^ t = F * 2 ^ tf).
Proof.
  intros Hy Hmy Ht Hn Hv a F frac.
  destruct (trunc_frac_spec my t n Hn ltac:(lia) Hv) as (Ha & HF & _ & _ & _).
  fold a in Ha. fold a F in HF.
  assert (HK : 0 < 2 ^ t) by (apply pow2_pos; lia).
  assert (Ha0 : 0 <= a) by (apply Z.div_pos; lia).
  unfold frac. rewrite sub_spec, Hy.
  destruct (Z.eq_dec a 0) as [Ea | Ea].
  - (* below one second: the integer part is zero *)
    assert (Ez : (if s then - a else a) = 0) by (rewrite Ea; destruct s; reflexivity).
    rewrite Ez, Prim2SF_float_of_Z_0. cbn [SF64sub SFsub].
    assert (EF : F = my) by (unfold F; rewrite Ea; lia).
    right. split; [lia |]. exists my, t.
    split; [reflexivity |]. split; [exact Hmy |].
    assert (52 < t) by (apply pow2_lt_inv; lia).
    split; [lia |]. rewrite EF. reflexivity.
  - assert (Ha53 : 0 < a < 2 ^ 53) by nia.
    destruct (Prim2SF_float_of_Z s a Ha53) as (E & HM & Hk).
    set (ka := 53 - Zdigits2 a) in *. rewrite E.
    assert (Ht53 : t < 53) by (apply pow2_lt_inv; [lia | nia]).
    pose proof (SFsub_same_sign s (Z.to_pos my) (Z.to_pos (a * 2 ^ ka))
                  (- t) (- ka)) as S.
    cbv zeta in S. rewrite !Z2Pos.id in S by lia.
    set (tz := Z.max t ka).
    replace (Z.min (- t) (- ka)) with (- tz) in S by (unfold tz; lia).
    replace (- t - - tz) with (tz - t) in S by lia.
    replace (- ka - - tz) with (tz - ka) in S by lia.
    assert (EG : my * 2 ^ (tz - t) - a * 2 ^ ka * 2 ^ (tz - ka)
                 = F * 2 ^ (tz - t)).
    { unfold F.
      replace (a * 2 ^ ka * 2 ^ (tz - ka)) with (a * 2 ^ t * 2 ^ (tz - t)).
      - ring.
      - rewrite <- !Z.mul_assoc, <- !pow2_add by (unfold tz; lia).
        f_equal. f_equal. lia. }
    rewrite EG in S.
    assert (HW : 0 < 2 ^ (tz - t)) by (apply pow2_pos; unfold tz; lia).
    assert (HG : 0 <= F * 2 ^ (tz - t) < 2 ^ 53).
    { split; [nia |].
      apply Z.lt_le_trans with (2 ^ t * 2 ^ (tz - t)); [nia |].
      rewrite <- pow2_add by (unfold tz; lia).
      apply pow2_le. unfold tz. lia. }
    destruct (S HG ltac:(unfold tz; lia)) as [S1 S2]. rewrite S1.
    destruct (Z.eqb_spec (F * 2 ^ (tz - t)) 0) as [Hz | Hz].
    + left. split; [nia | reflexivity].
    + right. split; [nia |]. specialize (S2 Hz).
      set (kg := 53 - Zdigits2 (F * 2 ^ (tz - t))) in *.
      destruct S2 as [B1 B2].
      exists (F * 2 ^ (tz - t) * 2 ^ kg), (tz + kg).
      replace (- tz - kg) with (- (tz + kg)) by lia.
      split; [reflexivity |]. split; [exact B1 |].
      assert (EV : F * 2 ^ (tz - t) * 2 ^ kg * 2 ^ t = F * 2 ^ (tz + kg)).
      { rewrite <- !Z.mul_assoc, <- !pow2_add by (unfold tz; lia).
        f_equal. f_equal. lia. }
      assert (HL : 52 < tz + kg).
      { apply pow2_lt_inv; [unfold tz; lia |].
        assert (0 < 2 ^ (tz + kg)) by (apply pow2_pos; unfold tz; lia).
        nia. }
      split; [unfold tz in *; lia | exact EV].
Qed.

Lemma float_round_half_even_normal (x : float) (s : bool) (m : positive) (tl : Z) :
  Prim2SF x = S754_finite s m (- tl) -> 0 < tl ->
  exists a',
    float_round_half_even x = Some (if s then - a' else a') /\
    0 <= a' /\ Z.abs (2 * a' * 2 ^ tl - 2 * Zpos m) <= 2 ^ tl.
Proof.
  intros E Ht. unfold float_round_half_even. rewrite E.
  replace (0 <=? - tl) with false by (symmetry; apply Z.leb_gt; lia).
  rewrite Z.opp_involutive.
  assert (EL : 2 ^ tl = 2 * 2 ^ (tl - 1)).
  { rewrite <- pow2_succ by lia. f_equal. lia. }
  assert (HH : 0 < 2 ^ (tl - 1)) by (apply pow2_pos; lia).
  pose proof (Z.div_mod (Zpos m) (2 ^ tl) ltac:(lia)) as D.
  pose proof (Z.mod_pos_bound (Zpos m) (2 ^ tl) ltac:(lia)) as B.
  assert (Hq : 0 <= Zpos m / 2 ^ tl) by (apply Z.div_pos; lia).
  set (q := Zpos m / 2 ^ tl) in *. set (r := Zpos m mod 2 ^ tl) in *.
  set (L := 2 ^ tl) in *. set (h := 2 ^ (tl - 1)) in *.
  clearbody q r L h.
  eexists. split; [reflexivity |].
  destruct (Z.ltb_spec r h); [split; nia |].
  destruct (Z.ltb_spec h r); [split; nia |].
  destruct (Z.even q); split; nia.
Qed.

(** The arithmetic at the heart of the conversion: the three rounding
    errors (quotient, product, microseconds) add up to less than 16
    microseconds when the quotient carries 15 fractional bits, and to
    less than one when it carries 20. *)
Lemma micro_core (a' b mp F K L : Z) :
  0 < K -> 4294967296 <= L ->
  Z.abs (2 * a' * L - 2 * mp) <= L ->
  Z.abs (2 * mp * K - 2 * 1000000 * F * L) <= K ->
  Z.abs (2000 * F - 2 * b * K) <= 1000 ->
  (32768 <= K -> Z.abs (a' - 1000 * b) <= 15) /\
  (1048576 <= K -> a' = 1000 * b).
Proof.
  intros HK HL H1 H2 H3.
  apply Z.abs_le in H1. apply Z.abs_le in H2. apply Z.abs_le in H3.
  remember (a' - 1000 * b) as c eqn:Hc0.
  assert (E1 : - (K * L) <= 2 * a' * (K * L) - 2 * (mp * K) <= K * L) by nia.
  assert (E3 : - (1000000 * L)
               <= 2 * 1000000 * (F * L) - 2000 * b * (K * L)
               <= 1000000 * L) by nia.
  assert (E2 : - K <= 2 * (mp * K) - 2 * 1000000 * (F * L) <= K) by lia.
  assert (Ec : - (K * L + K + 1000000 * L)
               <= 2 * (c * (K * L)) <= K * L + K + 1000000 * L).
  { rewrite Hc0.
    replace (2 * ((a' - 1000 * b) * (K * L)))
      with (2 * a' * (K * L) - 2000 * b * (K * L)) by ring.
    lia. }
  assert (HT : 4294967296 * K <= K * L) by nia.
  clear E1 E2 E3 H1 H2 H3.
  set (T := K * L) in *.
  split; intros HK2.
  - assert (HT2 : 32768 * L <= T) by (unfold T; nia).
    clearbody T.
    destruct (Z_le_gt_dec 16 c) as [Hc | Hc].
    { assert (16 * T <= c * T) by nia. lia. }
    destruct (Z_le_gt_dec c (-16)) as [Hc' | Hc'].
    { assert (c * T <= -16 * T) by nia. lia. }
    lia.
  - assert (HT2 : 1048576 * L <= T) by (unfold T; nia).
    clearbody T.
    destruct (Z_le_gt_dec 1 c) as [Hc | Hc].
    { assert (T <= c * T) by nia. lia. }
    destruct (Z_le_gt_dec c (-1)) as [Hc' | Hc'].
    { assert (c * T <= - T) by nia. lia. }
    lia.
Qed.

(** [fromtimestamp]'s microsecond count for [float(z) / 1000.0], [z] an
    int of [n] milliseconds in magnitude: the whole seconds are exact and
    the microseconds [u] are within 15 of the exact ones; they are exact
    when [n] is a whole number of seconds or is below [2^33] seconds. *)
Lemma timestamp_us_int (s : bool) (n : Z) :
  0 < n < 274877906944000 ->
  exists u,
    timestamp_us (float_of_Z (if s then - n else n) / 1000)
    = Some (if s then - (n / 1000 * 1000000 + u)
            else n / 1000 * 1000000 + u) /\
    Z.abs (u - 1000 * (n mod 1000)) <= 15 /\
    (n mod 1000 = 0 -> u = 0) /\
    (n < 8589934592000 -> u = 1000 * (n mod 1000)).
Proof.
  intros Hn.
  destruct (div_int_spec s n) as (my & t & Ey & Ht & Hmy & Hv).
  { change (2 ^ 53) with 9007199254740992. lia. }
  change (2 ^ 52) with 4503599627370496 in Hmy.
  change (2 ^ 53) with 9007199254740992 in Hmy.
  (* the quotient carries at least 15 fractional bits, 20 below 2^33 s *)
  assert (Ht15 : 15 <= t).
  { destruct (Z_le_gt_dec 15 t) as [H | H]; [exact H | exfalso].
    assert (HK : 2 ^ t <= 2 ^ 14) by (apply pow2_le; lia).
    change (2 ^ 14) with 16384 in HK.
    assert (0 < 2 ^ t) by (apply pow2_pos; lia).
    assert (n * 2 ^ t <= 274877906943999 * 16384) by nia.
    apply Z.abs_le in Hv. lia. }
  assert (Ht20 : n < 8589934592000 -> 20 <= t).
  { intros Hn2. destruct (Z_le_gt_dec 20 t) as [H | H]; [exact H | exfalso].
    assert (HK : 2 ^ t <= 2 ^ 19) by (apply pow2_le; lia).
    change (2 ^ 19) with 524288 in HK.
    assert (0 < 2 ^ t) by (apply pow2_pos; lia).
    assert (n * 2 ^ t <= 8589934591999 * 524288) by nia.
    apply Z.abs_le in Hv. lia. }
  destruct (trunc_frac_spec my t n ltac:(lia) ltac:(lia) Hv)
    as (Ha & HF & HvF & Hb0 & Hb1).
  pose proof (frac_float_spec s _ my t n Ey
                ltac:(change (2 ^ 52) with 4503599627370496;
                      change (2 ^ 53) with 9007199254740992; lia)
                ltac:(lia) ltac:(lia) Hv) as Hfrac.
  cbv zeta in Hfrac.
  set (y := (float_of_Z (if s then - n else n) / 1000)%float) in *.
  set (a := n / 1000) in *. set (b := n mod 1000) in *.
  set (F := my - a * 2 ^ t) in *.
  unfold timestamp_us.
  rewrite (float_trunc_normal y s (Z.to_pos my) t Ey ltac:(lia)).
  rewrite Z2Pos.id by lia. rewrite Ha.
  assert (Eip : (if s then - a else a) * 1000000
                = if s then - (a * 1000000) else a * 1000000)
    by (destruct s; ring).
  destruct Hfrac as [[HF0 Efrac] | [HFpos (mf & tf & Efrac & Hmf & Htf & Hval)]].
  - (* a whole number of seconds *)
    exists 0.
    assert (Hb : b = 0).
    { destruct (Z.eq_dec b 0) as [Hz | Hz]; [exact Hz |].
      pose proof (Z.mod_pos_bound n 1000 ltac:(lia)). fold b in H.
      specialize (Hb1 ltac:(lia)). lia. }
    unfold float_round_half_even. rewrite mul_spec, Efrac, Prim2SF_1000000.
    cbn [SF64mul SFmul xorb].
    split; [| split; [rewrite Hb; cbn; lia
                     | split; [reflexivity | intros _; rewrite Hb; reflexivity]]].
    rewrite Eip. destruct s; f_equal; ring.
  - pose proof (mul_1000000_spec s (Z.to_pos mf) (- tf)) as Hmul.
    rewrite Z2Pos.id in Hmul by lia.
    destruct (Hmul Hmf ltac:(lia)) as (mp & ep & P & Emul & Hmp & HP & Hep & Hvp).
    clear Hmul.
    assert (Eprod' :
      Prim2SF ((y - float_of_Z (if s then - a else a)) * 1000000)
      = S754_finite s (Z.to_pos mp) (- (- ep))).
    { rewrite mul_spec, Efrac, Z.opp_involutive. exact Emul. }
    destruct (float_round_half_even_normal _ s (Z.to_pos mp) (- ep) Eprod'
                ltac:(lia)) as (a' & Er & Ha' & Hva).
    rewrite Z2Pos.id in Hva by lia.
    rewrite Er. exists a'.
    split; [rewrite Eip; destruct s; f_equal; ring |].
    (* the three errors *)
    set (K := 2 ^ t) in *. set (L := 2 ^ (- ep)) in *. set (Tf := 2 ^ tf) in *.
    assert (HK0 : 0 < K) by (apply pow2_pos; lia).
    assert (HL0 : 0 < L) by (apply pow2_pos; lia).
    assert (HTf0 : 0 < Tf) by (apply pow2_pos; lia).
    assert (HL32 : 4294967296 <= L).
    { change 4294967296 with (2 ^ 32). apply pow2_le. lia. }
    assert (HQ : P * 524288 * L = Tf).
    { rewrite HP. change 524288 with (2 ^ 19). unfold L, Tf.
      rewrite <- !pow2_add by lia. f_equal. lia. }
    assert (H2 : Z.abs (2 * mp * K - 2 * 1000000 * F * L) <= K).
    { assert (E : Tf * (2 * mp * K - 2 * 1000000 * F * L)
                  = (L * K) * (2 * mp * P * 524288 - 2 * mf * 1000000)).
      { replace ((L * K) * (2 * mp * P * 524288 - 2 * mf * 1000000))
          with (2 * mp * K * (P * 524288 * L) - 2 * 1000000 * L * (mf * K))
          by ring.
        rewrite HQ, Hval. ring. }
      assert (Hb : Z.abs (Tf * (2 * mp * K - 2 * 1000000 * F * L)) <= Tf * K).
      { rewrite E, Z.abs_mul, (Z.abs_eq (L * K)) by nia.
        rewrite <- HQ.
        replace (P * 524288 * L * K) with (L * K * (524288 * P)) by ring.
        apply Z.mul_le_mono_nonneg_l; [nia | exact Hvp]. }
      rewrite Z.abs_mul, (Z.abs_eq Tf) in Hb by lia.
      apply Z.mul_le_mono_pos_l in Hb; assumption. }
    destruct (micro_core a' b mp F K L HK0 HL32 Hva H2 HvF) as [C1 C2].
    split; [apply C1; change 32768 with (2 ^ 15); apply pow2_le; lia |].
    split.
    + intros Hb. specialize (Hb0 Hb). lia.
    + intros Hn2. apply C2. change 1048576 with (2 ^ 20).
      apply pow2_le. specialize (Ht20 Hn2). lia.
Qed.

(** ** The timestamp normalizer *)

Lemma timestamp_us_nan (x : float) : is_nan x = true -> timestamp_us x = None.
Proof.
  intros H. unfold timestamp_us, float_trunc, Prim2SF. rewrite H. reflexivity.
Qed.

(** An instant in the years 1..9999 passes the platform's two checks. *)
Lemma in_datetime_range_platform (us : Z) :
  in_datetime_range us = true ->
  in_time_t (us / 1000000) = true /\ gmtime_ok us = true.
Proof.
  intros H. unfold in_datetime_range, MIN_US, MAX_US, EPOCH_ORD in H.
  apply andb_prop in H. destruct H as [Hlo Hhi].
  apply Z.leb_le in Hlo. apply Z.ltb_lt in Hhi.
  split.
  - unfold in_time_t. apply andb_true_intro.
    split; apply Z.leb_le; change (2 ^ 63) with 9223372036854775808; dlia.
  - unfold gmtime_ok, utc_of_us, EPOCH_ORD. cbv zeta.
    assert (Hord : 1 <= us / 1000000 / 86400 + 719163 <= 3652059) by dlia.
    pose proof (ord_to_ymd_year _ Hord) as Y.
    destruct (ord_to_ymd (us / 1000000 / 86400 + 719163)) as [[y m] d].
    cbn [fst] in Y. unfold MINYEAR, MAXYEAR in Y. cbn [year].
    apply andb_true_intro.
    split; apply Z.leb_le; change (2 ^ 31) with 2147483648; lia.
Qed.

Lemma fromtimestamp_utc_eq (x : float) :
  fromtimestamp_utc x =
  match timestamp_us x with
  | Some us =>
      if in_datetime_range us then Ok (utc_of_us us)
      else Raise (range_error us)
  | None => if is_nan x then Raise ValueError else Raise OverflowError
  end.
Proof.
  unfold fromtimestamp_utc. destruct (is_nan x) eqn:E.
  - rewrite (timestamp_us_nan _ E). reflexivity.
  - destruct (timestamp_us x) as [us |]; [| reflexivity].
    unfold range_error.
    destruct (in_datetime_range us) eqn:Er.
    + destruct (in_datetime_range_platform us Er) as [-> ->]. reflexivity.
    + destruct (in_time_t (us / 1000000)); cbn [negb]; [| reflexivity].
      destruct (gmtime_ok us); reflexivity.
Qed.

Lemma to_iso_z_numeric_eq (lib : PyLib) (now : Z) (ts : pyval) :
  numeric ts = true ->
  to_iso_z lib now ts =
  (x <- py_float lib ts ;;
   dt <- fromtimestamp_utc (x / 1000)%float ;;
   Ok (iso_z dt)).
Proof. destruct ts; try discriminate; reflexivity. Qed.

Lemma to_iso_z_other_eq (lib : PyLib) (now : Z) (ts : pyval) :
  numeric ts = false ->
  to_iso_z lib now ts =
  match ts with
  | VNone => Ok (iso_z (datetime_now_utc now))
  | _ =>
      match (dt <- isoparse lib ts ;;
             astimezone_utc (match tzinfo dt with
                             | None => replace_tzinfo_utc dt
                             | Some _ => dt
                             end)) with
      | Ok dt => Ok (iso_z dt)
      | Raise _ => Ok (iso_z (datetime_now_utc now))
      end
  end.
Proof. destruct ts; try discriminate; reflexivity. Qed.

(** Out of range: an epoch value whose year is past 9999 raises. *)
Example to_iso_z_out_of_range :
  to_iso_z no_lib 0 (VInt (10 ^ 18)) = Raise ValueError.
Proof. vm_compute. reflexivity. Qed.

(** The other ways out of range: a year [gmtime] cannot store, seconds
    beyond [time_t], an infinity, NaN, and an int no float can hold. *)
Example to_iso_z_raises :
  to_iso_z no_lib 0 (VInt (10 ^ 20)) = Raise OSError /\
  to_iso_z no_lib 0 (VInt (10 ^ 22)) = Raise OverflowError /\
  to_iso_z no_lib 0 (VFloat infinity) = Raise OverflowError /\
  to_iso_z no_lib 0 (VFloat nan) = Raise ValueError /\
  to_iso_z no_lib 0 (VInt (2 ^ 1024)) = Raise OverflowError.
Proof. repeat split; vm_compute; reflexivity. Qed.

(** Rounding: the last millisecond of year 9999, an integer, comes out one
    millisecond early; a float just under one millisecond comes out as
    one. *)
Example to_iso_z_last_ms :
  to_iso_z no_lib 0 (VInt 253402300799999) = Ok "9999-12-31T23:59:59.998Z".
Proof. vm_compute. reflexivity. Qed.

Example to_iso_z_rounds_up :
  floor_ms (VFloat 0x1.ffffep-1%float) = Some 0 /\
  to_iso_z no_lib 0 (VFloat 0x1.ffffep-1%float) = Ok "1970-01-01T00:00:00.001Z".
Proof. split; vm_compute; reflexivity. Qed.

Example to_iso_z_epoch_ms :
  to_iso_z no_lib 0 (VInt 1700000000123) = Ok "2023-11-14T22:13:20.123Z".
Proof. vm_compute. reflexivity. Qed.

(** An input that is not a number never makes [to_iso_z] raise. *)
Lemma to_iso_z_other_returns (lib : PyLib) (now : Z) (ts : pyval) :
  numeric ts = false ->
  (exists s, to_iso_z lib now ts = Ok s) /\
  (in_datetime_range now = true ->
   exists body ms,
     to_iso_z lib now ts = Ok (body ++ "Z")%string /\
     String.length body = 23%nat /\
     parse_iso_ms_z (body ++ "Z") = Some ms /\
     (ts = VNone \/ (exists e, isoparse lib ts = Raise e) -> ms = now / 1000)).
Proof.
  intros Hn. rewrite (to_iso_z_other_eq _ _ _ Hn).
  assert (Hnow : in_datetime_range now = true ->
                 exists body ms,
                   Ok (iso_z (datetime_now_utc now)) = Ok (body ++ "Z")%string /\
                   String.length body = 23%nat /\
                   parse_iso_ms_z (body ++ "Z") = Some ms /\ ms = now / 1000).
  { intros Hr. unfold datetime_now_utc.
    destruct (iso_z_utc_of_us_shape now) as (body & Hb & Hl).
    exists body, (now / 1000). rewrite <- Hb.
    repeat split; auto using parse_iso_z_utc_of_us. }
  assert (Hcase :
    forall r : result datetime,
      (exists us, in_datetime_range us = true /\ r = Ok (utc_of_us us))
      \/ (exists e, r = Raise e) ->
      (exists s, match r with
                 | Ok dt => Ok (iso_z dt)
                 | Raise _ => Ok (iso_z (datetime_now_utc now))
                 end = Ok s) /\
      (in_datetime_range now = true ->
       exists body ms,
         match r with
         | Ok dt => Ok (iso_z dt)
         | Raise _ => Ok (iso_z (datetime_now_utc now))
         end = Ok (body ++ "Z")%string /\
         String.length body = 23%nat /\
         parse_iso_ms_z (body ++ "Z") = Some ms /\
         ((exists e, r = Raise e) -> ms = now / 1000))).
  { intros r [(us & Hus & ->) | (e & ->)].
    - split; [eauto |]. intros _.
      destruct (iso_z_utc_of_us_shape us) as (body & Hb & Hl).
      exists body, (us / 1000). rewrite <- Hb.
      repeat split; auto using parse_iso_z_utc_of_us.
      intros [e He]. discriminate He.
    - split; [eauto |]. intros Hr.
      destruct (Hnow Hr) as (body & ms & H1 & H2 & H3 & H4).
      exists body, ms. auto. }
  assert (Hparse :
    forall r : result datetime,
      let r' := (dt <- r ;;
                 astimezone_utc (match tzinfo dt with
                                 | None => replace_tzinfo_utc dt
                                 | Some _ => dt
                                 end)) in
      ((exists us, in_datetime_range us = true /\ r' = Ok (utc_of_us us))
       \/ (exists e, r' = Raise e))
      /\ ((exists e, r = Raise e) -> exists e, r' = Raise e)).
  { intros [dt | e]; cbn [rbind].
    - split; [| intros [e He]; discriminate He].
      unfold astimezone_utc.
      destruct (in_datetime_range (us_of_datetime _)) eqn:E; eauto. 
    - split; eauto. }
  destruct ts; try discriminate Hn.
  - split; [eauto |]. intros Hr.
    destruct (Hnow Hr) as (body & ms & H1 & H2 & H3 & H4).
    exists body, ms. auto.
  - destruct (Hparse (isoparse lib (VStr s))) as [Hc Hf]. cbv zeta in Hc, Hf.
    destruct (Hcase _ Hc) as [H1 H2]. split; [exact H1 |].
    intros Hr. destruct (H2 Hr) as (body & ms & A & B & C & D).
    exists body, ms. repeat split; auto.
    intros [Hx | Hx]; [discriminate Hx | auto].
  - destruct (Hparse (isoparse lib (VList l))) as [Hc Hf]. cbv zeta in Hc, Hf.
    destruct (Hcase _ Hc) as [H1 H2]. split; [exact H1 |].
    intros Hr. destruct (H2 Hr) as (body & ms & A & B & C & D).
    exists body, ms. repeat split; auto.
    intros [Hx | Hx]; [discriminate Hx | auto].
  - destruct (Hparse (isoparse lib (VDict d))) as [Hc Hf]. cbv zeta in Hc, Hf.
    destruct (Hcase _ Hc) as [H1 H2]. split; [exact H1 |].
    intros Hr. destruct (H2 Hr) as (body & ms & A & B & C & D).
    exists body, ms. repeat split; auto.
    intros [Hx | Hx]; [discriminate Hx | auto].
Qed.


(** A numeric input: the outcome is decided by the instant that
    [float(t) / 1000.0] rounds to. *)
Lemma to_iso_z_numeric_cases (lib : PyLib) (now : Z) (t : pyval) :
  numeric t = true ->
  match numeric_instant_us lib t with
  | Some us =>
      exists body,
        to_iso_z lib now t = Ok (body ++ "Z")%string /\
        String.length body = 23%nat /\
        parse_iso_ms_z (body ++ "Z") = Some (us / 1000)
  | None => exists e, to_iso_z lib now t = Raise e
  end.
Proof.
  intros Hn. rewrite (to_iso_z_numeric_eq _ _ _ Hn). unfold numeric_instant_us.
  destruct (py_float lib t) as [x | e]; cbn [rbind]; [| eauto].
  rewrite fromtimestamp_utc_eq.
  destruct (timestamp_us (x / 1000)) as [us |].
  - destruct (in_datetime_range us) eqn:Er; cbn [rbind]; [| eauto].
    destruct (iso_z_utc_of_us_shape us) as (body & Hb & Hl).
    exists body. rewrite <- Hb. auto using parse_iso_z_utc_of_us.
  - destruct (is_nan (x / 1000)); cbn [rbind]; eauto.
Qed.


Lemma finite_not_infinity (f : float) (s : bool) (m : positive) (e : Z) :
  Prim2SF f = S754_finite s m e -> is_infinity f = false.
Proof.
  unfold Prim2SF. destruct (is_nan f); [discriminate |].
  destruct (is_zero f); [discriminate |].
  destruct (is_infinity f); [discriminate | reflexivity].
Qed.

Lemma py_float_of_int_small (z : Z) :
  Z.abs z < 2 ^ 53 -> py_float_of_int z = Ok (float_of_Z z).
Proof.
  intros Hz. unfold py_float_of_int. cbv zeta.
  destruct (Z.eq_dec z 0) as [-> | Hnz]; [reflexivity |].
  assert (Hf : exists s m e, Prim2SF (float_of_Z z) = S754_finite s m e).
  { destruct (Z_lt_le_dec z 0) as [Hneg | Hpos].
    - destruct (Prim2SF_float_of_Z true (- z) ltac:(lia)) as (E & _ & _).
      cbv iota in E. rewrite Z.opp_involutive in E. eauto.
    - destruct (Prim2SF_float_of_Z false z ltac:(lia)) as (E & _ & _).
      cbv iota in E. eauto. }
  destruct Hf as (s & m & e & E).
  rewrite (finite_not_infinity _ _ _ _ E). reflexivity.
Qed.

Lemma py_float_whole (lib : PyLib) (t : pyval) (z : Z) :
  whole_ms t z -> Z.abs z < 2 ^ 53 -> py_float lib t = Ok (float_of_Z z).
Proof.
  destruct t; cbn [whole_ms py_float]; try contradiction.
  - intros -> _. destruct b; reflexivity.
  - intros -> H. apply py_float_of_int_small. exact H.
  - intros -> _. reflexivity.
Qed.

(** The microsecond count for a whole number of milliseconds inside the
    range of [datetime]. *)
Lemma timestamp_us_whole (z : Z) :
  in_datetime_range (1000 * z) = true ->
  exists us,
    timestamp_us (float_of_Z z / 1000) = Some us /\
    in_datetime_range us = true /\
    z - 1 <= us / 1000 <= z /\
    (Z.abs z < 8589934592000 -> us = 1000 * z) /\
    (z mod 1000 = 0 -> us = 1000 * z).
Proof.
  unfold in_datetime_range, MIN_US, MAX_US, EPOCH_ORD. intros H.
  apply andb_prop in H. destruct H as [Hlo Hhi].
  apply Z.leb_le in Hlo. apply Z.ltb_lt in Hhi.
  destruct (Z.eq_dec z 0) as [-> | Hnz].
  { exists 0. repeat split; try reflexivity; cbn; lia. }
  destruct (Z_lt_le_dec z 0) as [Hneg | Hpos].
  - destruct (timestamp_us_int true (- z) ltac:(lia)) as (u & E & Hu & H0 & Hx).
    cbv iota in E. rewrite Z.opp_involutive in E.
    eexists. split; [exact E |].
    pose proof (Z.div_mod (- z) 1000 ltac:(lia)) as D.
    pose proof (Z.mod_pos_bound (- z) 1000 ltac:(lia)) as B.
    set (a := - z / 1000) in *. set (b := - z mod 1000) in *.
    clearbody a b. apply Z.abs_le in Hu.
    assert (Hb0 : z mod 1000 = 0 -> b = 0) by dlia.
    split.
    { apply andb_true_intro. split; [apply Z.leb_le | apply Z.ltb_lt].
      - destruct (Z.eq_dec b 0) as [Hb | Hb]; [specialize (H0 Hb) |]; lia.
      - destruct (Z.eq_dec b 0) as [Hb | Hb]; [specialize (H0 Hb) |]; lia. }
    split; [dlia |]. split.
    + intros Hz. rewrite Hx by lia. lia.
    + intros Hz. rewrite (H0 (Hb0 Hz)). specialize (Hb0 Hz). lia.
  - destruct (timestamp_us_int false z ltac:(lia)) as (u & E & Hu & H0 & Hx).
    cbv iota in E.
    eexists. split; [exact E |].
    pose proof (Z.div_mod z 1000 ltac:(lia)) as D.
    pose proof (Z.mod_pos_bound z 1000 ltac:(lia)) as B.
    set (a := z / 1000) in *. set (b := z mod 1000) in *.
    clearbody a b. apply Z.abs_le in Hu.
    split.
    { apply andb_true_intro. split; [apply Z.leb_le | apply Z.ltb_lt].
      - destruct (Z.eq_dec b 0) as [Hb | Hb]; [specialize (H0 Hb) |]; lia.
      - lia. }
    split; [dlia |]. split.
    + intros Hz. rewrite Hx by lia. lia.
    + intros Hz. rewrite (H0 Hz). lia.
Qed.

(** A whole number of milliseconds between the first instant of year 1
    and the last millisecond of year 9999 is rendered, as itself or as
    the millisecond before; from 1697 to 2242, and on every whole
    second, as itself. *)
Lemma to_iso_z_whole (lib : PyLib) (now : Z) (t : pyval) (z : Z) :
  whole_ms t z ->
  in_datetime_range (1000 * z) = true ->
  exists body ms,
    to_iso_z lib now t = Ok (body ++ "Z")%string /\
    String.length body = 23%nat /\
    parse_iso_ms_z (body ++ "Z") = Some ms /\
    z - 1 <= ms <= z /\
    (Z.abs z < 8589934592000 -> ms = z) /\
    (z mod 1000 = 0 -> ms = z).
Proof.
  intros Hw Hr.
  assert (Hn : numeric t = true) by (destruct t; try contradiction; reflexivity).
  assert (Hz : Z.abs z < 2 ^ 53).
  { unfold in_datetime_range, MIN_US, MAX_US, EPOCH_ORD in Hr.
    apply andb_prop in Hr. destruct Hr as [Hlo Hhi].
    apply Z.leb_le in Hlo. apply Z.ltb_lt in Hhi.
    change (2 ^ 53) with 9007199254740992. lia. }
  rewrite (to_iso_z_numeric_eq _ _ _ Hn), (py_float_whole lib t z Hw Hz).
  cbn [rbind]. rewrite fromtimestamp_utc_eq.
  destruct (timestamp_us_whole z Hr) as (us & E & Hus & Hms & Hx & H0).
  rewrite E, Hus. cbn [rbind].
  destruct (iso_z_utc_of_us_shape us) as (body & Hb & Hl).
  exists body, (us / 1000). rewrite <- Hb.
  split; [reflexivity |]. split; [exact Hl |].
  split; [apply parse_iso_z_utc_of_us; exact Hus |].
  split; [exact Hms |].
  split; intros Hc; [rewrite (Hx Hc) | rewrite (H0 Hc)];
    rewrite Z.mul_comm; apply Z.div_mul; lia.
Qed.

(** C7, as stated, fails: a numeric input can make [to_iso_z] raise. *)
Lemma to_iso_z_can_raise :
  ~ (forall (lib : PyLib) (now : Z) (ts : pyval),
       exists s, to_iso_z lib now ts = Ok s).
Proof.
  intros H. destruct (H no_lib 0 (VInt (10 ^ 18))) as [s Hs].
  rewrite to_iso_z_out_of_range in Hs. discriminate Hs.
Qed.

Lemma numeric_instant_us_range (lib : PyLib) (t : pyval) (us : Z) :
  numeric_instant_us lib t = Some us -> in_datetime_range us = true.
Proof.
  unfold numeric_instant_us.
  destruct (py_float lib t) as [x | e]; [| discriminate].
  destruct (timestamp_us (x / 1000)) as [us' |]; [| discriminate].
  destruct (in_datetime_range us') eqn:E; [| discriminate].
  intros [= <-]. exact E.
Qed.

Lemma in_datetime_range_floor_ms (us : Z) :
  in_datetime_range us = true -> in_datetime_range (1000 * (us / 1000)) = true.
Proof.
  unfold in_datetime_range, MIN_US, MAX_US, EPOCH_ORD. intros H.
  apply andb_prop in H. destruct H as [Hlo Hhi].
  apply Z.leb_le in Hlo. apply Z.ltb_lt in Hhi.
  apply andb_true_intro. split; [apply Z.leb_le | apply Z.ltb_lt]; dlia.
Qed.

(** C7, amended: for every input that is not a number (null, a string, a
    list, an object) [to_iso_z] returns a string and never raises; when
    the clock reads a time [datetime] can hold, that string is 23
    characters and a "Z", reads back as a UTC instant in whole
    milliseconds, and, when the input is null or fails to parse, that
    instant is the clock's.  For a numeric input [to_iso_z] returns
    exactly when [float(ts) / 1000.0], rounded to the nearest
    microsecond, is an instant of the years 1..9999: it returns for every
    whole number of milliseconds from 0001-01-01T00:00:00.000Z to
    9999-12-31T23:59:59.999Z, and whatever it returns is a string of that
    form for an instant of those years. *)
Theorem to_iso_z_returns (lib : PyLib) (now : Z) (ts : pyval) :
  (numeric ts = false ->
   (exists s, to_iso_z lib now ts = Ok s) /\
   (in_datetime_range now = true ->
    exists body ms,
      to_iso_z lib now ts = Ok (body ++ "Z")%string /\
      String.length body = 23%nat /\
      parse_iso_ms_z (body ++ "Z") = Some ms /\
      (ts = VNone \/ (exists e, isoparse lib ts = Raise e) -> ms = now / 1000))) /\
  (numeric ts = true ->
   ((exists s, to_iso_z lib now ts = Ok s)
    <-> (exists us, numeric_instant_us lib ts = Some us)) /\
   (forall z, whole_ms ts z -> in_datetime_range (1000 * z) = true ->
      exists s, to_iso_z lib now ts = Ok s) /\
   (forall s, to_iso_z lib now ts = Ok s ->
      exists body ms,
        s = (body ++ "Z")%string /\ String.length body = 23%nat /\
        parse_iso_ms_z s = Some ms /\
        in_datetime_range (1000 * ms) = true)).
Proof.
  split; intros Hn.
  - apply to_iso_z_other_returns. exact Hn.
  - pose proof (to_iso_z_numeric_cases lib now ts Hn) as C.
    split; [| split].
    + destruct (numeric_instant_us lib ts) as [us |].
      * destruct C as (body & E & _). split; eauto.
      * destruct C as (e & E). split.
        -- intros [s Hs]. rewrite E in Hs. discriminate Hs.
        -- intros [us Hus]. discriminate Hus.
    + intros z Hw Hr.
      destruct (to_iso_z_whole lib now ts z Hw Hr) as (body & ms & E & _).
      eauto.
    + intros s Hs.
      destruct (numeric_instant_us lib ts) as [us |] eqn:Eus.
      * destruct C as (body & E & Hl & Hp). rewrite E in Hs.
        injection Hs as <-. exists body, (us / 1000).
        split; [reflexivity |]. split; [exact Hl |]. split; [exact Hp |].
        apply in_datetime_range_floor_ms.
        apply (numeric_instant_us_range lib ts). exact Eus.
      * destruct C as (e & E). rewrite E in Hs. discriminate Hs.
Qed.

Lemma to_iso_z_returns_witness :
  ((exists s, to_iso_z no_lib 1700000000123456 (VStr "not-a-date") = Ok s) /\
   (exists body ms,
      to_iso_z no_lib 1700000000123456 (VStr "not-a-date")
      = Ok (body ++ "Z")%string /\
      String.length body = 23%nat /\
      parse_iso_ms_z (body ++ "Z") = Some ms /\
      (VStr "not-a-date" = VNone
       \/ (exists e, isoparse no_lib (VStr "not-a-date") = Raise e) ->
       ms = 1700000000123456 / 1000))) /\
  (exists s, to_iso_z no_lib 0 (VInt 253402300799999) = Ok s) /\
  (exists s, to_iso_z no_lib 0 (VInt (-62135596800000)) = Ok s).
Proof.
  split; [| split].
  - destruct (proj1 (to_iso_z_returns no_lib 1700000000123456
                       (VStr "not-a-date")) eq_refl) as [H1 H2].
    split; [exact H1 | exact (H2 eq_refl)].
  - exact (proj1 (proj2 (proj2 (to_iso_z_returns no_lib 0
                                  (VInt 253402300799999)) eq_refl))
             253402300799999 eq_refl eq_refl).
  - exact (proj1 (proj2 (proj2 (to_iso_z_returns no_lib 0
                                  (VInt (-62135596800000))) eq_refl))
             (-62135596800000) eq_refl eq_refl).
Defined.

Example to_iso_z_not_a_date :
  to_iso_z no_lib 1700000000123456 (VStr "not-a-date")
  = Ok "2023-11-14T22:13:20.123Z".
Proof. vm_compute. reflexivity. Qed.

(** C8, as stated, fails: the last millisecond of year 9999 is an integer
    number of epoch milliseconds, and the string returned for it denotes
    the millisecond before. *)
Lemma to_iso_z_numeric_not_exact :
  ~ (forall (lib : PyLib) (now : Z) (t : pyval) (n : Z),
       numeric t = true ->
       floor_ms t = Some n ->
       exists s, to_iso_z lib now t = Ok s /\ parse_iso_ms_z s = Some n).
Proof.
  intros H.
  destruct (H no_lib 0 (VInt 253402300799999) 253402300799999 eq_refl eq_refl)
    as (s & Hs & Hp).
  rewrite to_iso_z_last_ms in Hs. injection Hs as <-.
  vm_compute in Hp. discriminate Hp.
Qed.

(** C8, amended: a numeric input [t] is read as epoch milliseconds.  When
    [t] is a whole number of milliseconds (an int, a bool, or a float
    with an integral value) below 2^33 seconds in magnitude (1697-10-24
    to 2242-03-16), [to_iso_z] returns 23 characters and a "Z" that read
    back as exactly the instant [t] milliseconds since the epoch.  For a
    whole number anywhere in the years 1..9999 the string reads back as
    [t] or as the millisecond before, and as [t] on every whole second.
    In general [t] is converted to a float and divided by 1000.0, that
    quotient is rounded to the nearest microsecond, ties to even, and the
    string reads back as that instant truncated to whole milliseconds
    when it lies within the years 1..9999; otherwise (NaN, infinite, out
    of range, or an int too large for a float) [to_iso_z] raises. *)
Theorem to_iso_z_numeric (lib : PyLib) (now : Z) (t : pyval) :
  numeric t = true ->
  (forall z, whole_ms t z -> Z.abs z < 8589934592000 ->
     exists body,
       to_iso_z lib now t = Ok (body ++ "Z")%string /\
       String.length body = 23%nat /\
       parse_iso_ms_z (body ++ "Z") = Some z) /\
  (forall z, whole_ms t z -> in_datetime_range (1000 * z) = true ->
     exists body ms,
       to_iso_z lib now t = Ok (body ++ "Z")%string /\
       String.length body = 23%nat /\
       parse_iso_ms_z (body ++ "Z") = Some ms /\
       z - 1 <= ms <= z /\ (z mod 1000 = 0 -> ms = z)) /\
  match numeric_instant_us lib t with
  | Some us =>
      exists body,
        to_iso_z lib now t = Ok (body ++ "Z")%string /\
        String.length body = 23%nat /\
        parse_iso_ms_z (body ++ "Z") = Some (us / 1000)
  | None => exists e, to_iso_z lib now t = Raise e
  end.
Proof.
  intros Hn. split; [| split].
  - intros z Hw Hz.
    assert (Hr : in_datetime_range (1000 * z) = true).
    { unfold in_datetime_range, MIN_US, MAX_US, EPOCH_ORD.
      apply andb_true_intro. split; [apply Z.leb_le | apply Z.ltb_lt]; lia. }
    destruct (to_iso_z_whole lib now t z Hw Hr)
      as (body & ms & E & Hl & Hp & _ & Hx & _).
    exists body. rewrite (Hx Hz) in Hp. auto.
  - intros z Hw Hr.
    destruct (to_iso_z_whole lib now t z Hw Hr)
      as (body & ms & E & Hl & Hp & Hb & _ & H0).
    exists body, ms. auto.
  - apply to_iso_z_numeric_cases. exact Hn.
Qed.

Lemma to_iso_z_numeric_witness :
  (exists body,
     to_iso_z no_lib 0 (VInt 1700000000123) = Ok (body ++ "Z")%string /\
     String.length body = 23%nat /\
     parse_iso_ms_z (body ++ "Z") = Some 1700000000123) /\
  (exists body,
     to_iso_z no_lib 0 (VFloat 1700000000123) = Ok (body ++ "Z")%string /\
     String.length body = 23%nat /\
     parse_iso_ms_z (body ++ "Z") = Some 1700000000123) /\
  (exists body,
     to_iso_z no_lib 0 (VInt (-1)) = Ok (body ++ "Z")%string /\
     String.length body = 23%nat /\
     parse_iso_ms_z (body ++ "Z") = Some (-1)).
Proof.
  split; [| split].
  - exact (proj1 (to_iso_z_numeric no_lib 0 (VInt 1700000000123) eq_refl)
             1700000000123 eq_refl eq_refl).
  - exact (proj1 (to_iso_z_numeric no_lib 0 (VFloat 1700000000123) eq_refl)
             1700000000123 eq_refl eq_refl).
  - exact (proj1 (to_iso_z_numeric no_lib 0 (VInt (-1)) eq_refl)
             (-1) eq_refl eq_refl).
Defined.

(** ** Fail-fast traces *)

Lemma clean_snoc (tr : trace) (x : request * result response) :
  clean tr -> failed_post x = false -> clean (tr ++ [x])%list.
Proof.
  unfold clean. intros H Hx. apply Forall_app. split; [exact H |].
  constructor; [exact Hx | constructor].
Qed.

Lemma safe_ret {A} (a : A) : safe (ret a).
Proof. intros tr H. exact H. Qed.

Lemma safe_lift {A} (r : result A) : safe (lift r).
Proof. intros tr H. unfold lift. destruct r; [exact H | left; exact H]. Qed.

Lemma safe_read_clock (w : World) : safe (read_clock w).
Proof. intros tr H. exact H. Qed.

Create HintDb safe.
#[local] Hint Resolve safe_ret safe_lift safe_read_clock : safe.

Lemma safe_bind {A B} (c : M A) (k : A -> M B) :
  safe c -> (forall a, safe (k a)) -> safe (bind c k).
Proof.
  intros Hc Hk tr H. unfold bind. specialize (Hc tr H).
  destruct (c tr) as [[a | e] tr']; [| exact Hc].
  apply Hk. exact Hc.
Qed.

(** A request followed by [raise_for_status]. *)
Lemma safe_http_checked {B} (w : World) (rq : request) (k : response -> M B) :
  (forall r, safe (k r)) ->
  safe (r <~ http w rq ;; _ <~ lift (raise_for_status r) ;; k r).
Proof.
  intros Hk tr H. unfold bind, http, lift.
  destruct (net w tr rq) as [r | e] eqn:E.
  - unfold raise_for_status. destruct (resp_ok r) eqn:Eok.
    + apply Hk. apply clean_snoc; [exact H |].
      simpl. destruct (meth rq); [reflexivity |]. rewrite Eok. reflexivity.
    + destruct (meth rq) eqn:Em.
      * left. apply clean_snoc; [exact H |]. simpl. rewrite Em. reflexivity.
      * right. exists tr, rq, r. repeat split; [exact H |].
        simpl. rewrite Em, Eok. reflexivity.
  - left. apply clean_snoc; [exact H | reflexivity].
Qed.

(** A GET whose status is not checked by raising. *)
Lemma safe_http_get {B} (w : World) (rq : request) (k : response -> M B) :
  meth rq = GET -> (forall r, safe (k r)) -> safe (r <~ http w rq ;; k r).
Proof.
  intros Hm Hk tr H. unfold bind, http.
  destruct (net w tr rq) as [r | e] eqn:E.
  - apply Hk. apply clean_snoc; [exact H |]. simpl. rewrite Hm. reflexivity.
  - left. apply clean_snoc; [exact H | reflexivity].
Qed.

Lemma safe_fetch_dataset_name (w : World) (self : FeastDQOnlyConnector)
    (ds_id : string) : safe (fetch_dataset_name w self ds_id).
Proof.
  unfold fetch_dataset_name. apply safe_http_get; [reflexivity |].
  intros r. destruct (resp_ok r && str_truthy (text r)); [| apply safe_ret].
  apply safe_bind; [apply safe_lift |]. intros j.
  apply safe_bind; [apply safe_lift |]. intros t.
  destruct (py_bool t); [apply safe_ret | apply safe_lift].
Qed.

Lemma safe_evaluate_quality (w : World) (self : FeastDQOnlyConnector)
    (ds_id crit : string) : safe (evaluate_quality w self ds_id crit).
Proof.
  unfold evaluate_quality. apply safe_bind; [apply safe_read_clock |].
  intros now. apply safe_http_checked. intros r. apply safe_lift.
Qed.

Lemma safe_send_event (w : World) (self : FeastDQOnlyConnector)
    (evt : MonitoringPlatformQualityCheck) : safe (send_event w self evt).
Proof.
  unfold send_event. apply safe_bind; [apply safe_lift |]. intros hdrs.
  intros tr H.
  pose proof (safe_http_checked w (event_request self (to_dict evt) hdrs)
                (fun _ => ret tt) (fun _ => safe_ret tt) tr H) as S.
  unfold bind, http, lift, ret in *.
  destruct (net w tr _) as [r | e]; [| exact S].
  destruct (raise_for_status r) as [[] | e]; exact S.
Qed.

Lemma safe_send_results (lib : PyLib) (w : World) (self : FeastDQOnlyConnector)
    (report : pyval) (ds_id : string) (ds_name : pyval) (iso_ts : string)
    (results : list pyval) (counters : Z * Z) :
  safe (send_results lib w self report ds_id ds_name iso_ts results counters).
Proof.
  revert counters. induction results as [| res rest IH]; intros counters.
  - apply safe_ret.
  - cbn [send_results]. apply safe_bind; [apply safe_lift |]. intros evt.
    apply safe_bind; [apply safe_send_event |]. intros _. apply IH.
Qed.

#[local] Hint Resolve safe_evaluate_quality safe_send_event safe_send_results
  : safe.

(** Peel the binds of a computation whose steps are all known safe. *)
Ltac safe_binds :=
  repeat (apply safe_bind; [solve [auto with safe] | intros ?]);
  auto with safe.

Lemma safe_run_pair (lib : PyLib) (w : World) (self : FeastDQOnlyConnector)
    (ds_id : string) (ds_name : pyval) (crit : string) (counters : Z * Z) :
  safe (run_pair lib w self ds_id ds_name crit counters).
Proof. unfold run_pair. safe_binds. Qed.

Lemma safe_run_criteria (lib : PyLib) (w : World) (self : FeastDQOnlyConnector)
    (ds_id : string) (ds_name : pyval) (crits : list string) (counters : Z * Z) :
  safe (run_criteria lib w self ds_id ds_name crits counters).
Proof.
  revert counters. induction crits as [| crit rest IH]; intros counters.
  - apply safe_ret.
  - cbn [run_criteria]. apply safe_bind; [apply safe_run_pair | exact IH].
Qed.

Lemma safe_run_datasets (lib : PyLib) (w : World) (self : FeastDQOnlyConnector)
    (dss : list string) (counters : Z * Z) :
  safe (run_datasets lib w self dss counters).
Proof.
  revert counters. induction dss as [| ds rest IH]; intros counters.
  - apply safe_ret.
  - cbn [run_datasets]. apply safe_bind; [| exact IH].
    unfold run_dataset. apply safe_bind; [apply safe_fetch_dataset_name |].
    intros ds_name. apply safe_run_criteria.
Qed.

Lemma clean_no_failed_post (pre post : trace) (rq : request) (rsp : response) :
  clean (pre ++ (rq, Ok rsp) :: post)%list ->
  meth rq = POST -> resp_ok rsp = false -> False.
Proof.
  unfold clean. intros H Hm Hok. apply Forall_app in H. destruct H as [_ H].
  inversion H as [| x l Hx _]; subst. simpl in Hx. rewrite Hm, Hok in Hx.
  discriminate Hx.
Qed.

Lemma fail_fast_last {A} (out : result A) (tr pre post : trace)
    (rq : request) (rsp : response) :
  fail_fast (out, tr) ->
  tr = (pre ++ (rq, Ok rsp) :: post)%list ->
  meth rq = POST -> resp_ok rsp = false ->
  post = [] /\ out = Raise (HTTPError (status_code rsp)).
Proof.
  intros H -> Hm Hok. destruct out as [a | e]; cbn [fail_fast] in H.
  - exfalso. eapply clean_no_failed_post; eauto.
  - destruct H as [H | (tr0 & rq0 & r0 & Htr & Hc & _ & ->)].
    + exfalso. eapply clean_no_failed_post; eauto.
    + destruct post as [| p post0].
      *
        apply app_inj_tail in Htr. destruct Htr as [_ [= _ <-]].
        split; reflexivity.
      * exfalso.
        destruct (exists_last (l := p :: post0) ltac:(discriminate))
          as (post' & x & Hp).
        rewrite Hp in Htr.
        change ((rq, Ok rsp) :: post' ++ [x])%list
          with (((rq, Ok rsp) :: post') ++ [x])%list in Htr.
        rewrite app_assoc in Htr. apply app_inj_tail in Htr.
        destruct Htr as [<- _]. eapply clean_no_failed_post; eauto.
Qed.

(** C5: in the trace of a run, an evaluation trigger or a forwarded event
    (the POST requests) that was answered with a 4xx or 5xx status is the
    last exchange of the run, and the run ends by raising that HTTP
    error: no later pair or result row is attempted. *)
Theorem run_once_fail_fast (lib : PyLib) (w : World)
    (self : FeastDQOnlyConnector) (out : result (Z * Z)) (tr pre post : trace)
    (rq : request) (rsp : response) :
  run_once lib w self [] = (out, tr) ->
  tr = (pre ++ (rq, Ok rsp) :: post)%list ->
  meth rq = POST -> resp_ok rsp = false ->
  post = [] /\ out = Raise (HTTPError (status_code rsp)).
Proof.
  intros Hrun. apply fail_fast_last. rewrite <- Hrun.
  apply safe_run_datasets. constructor.
Qed.

Example aborted_run :
  run_once no_lib (sample_world one_result_report 500)
    (sample_connector (Some "dG9r")) []
  = (Raise (HTTPError 500), aborted_trace) /\
  map (fun x => url (fst x)) aborted_trace
  = ["http://feast/Dataset/d1";
     "http://feast/Dataset/d1/DatasetQualityCriteria/c1/$quality";
     "http://logstash"].
Proof. split; vm_compute; reflexivity. Qed.

Lemma run_once_fail_fast_witness :
  exists pre rq,
    run_once no_lib (sample_world one_result_report 500)
      (sample_connector (Some "dG9r")) []
    = (Raise (HTTPError 500), (pre ++ [(rq, Ok (status_response 500))])%list)
    /\ meth rq = POST /\ resp_ok (status_response 500) = false
    /\ (@nil (request * result response) = []
        /\ @Raise (Z * Z) (HTTPError 500)
           = Raise (HTTPError (status_code (status_response 500)))).
Proof.
  exists (firstn 2 aborted_trace).
  exists (event_request (sample_connector (Some "dG9r"))
            (to_dict (new_quality_check (VStr "d1") (VStr "Set")
                        (VStr "completeness")
                        (Some [("context", VStr "c1"); ("category", VNone)])
                        (VFloat 0.5) (VFloat 0.75) true
                        "2023-11-14T22:13:20.123Z"))
            [("Content-Type", "application/json");
             ("Authorization", "Basic dG9r")]).
  split; [vm_compute; reflexivity |].
  split; [reflexivity |]. split; [reflexivity |].
  apply (run_once_fail_fast no_lib (sample_world one_result_report 500)
           (sample_connector (Some "dG9r")) (Raise (HTTPError 500))
           aborted_trace (firstn 2 aborted_trace)
           []
           (event_request (sample_connector (Some "dG9r"))
              (to_dict (new_quality_check (VStr "d1") (VStr "Set")
                          (VStr "completeness")
                          (Some [("context", VStr "c1"); ("category", VNone)])
                          (VFloat 0.5) (VFloat 0.75) true
                          "2023-11-14T22:13:20.123Z"))
              [("Content-Type", "application/json");
               ("Authorization", "Basic dG9r")])
           (status_response 500));
    vm_compute; reflexivity.
Defined.

(** The spec's end-to-end scenario: two datasets, one criteria, one result
    per report; two pairs and two events. *)
Example run_once_two_datasets :
  fst (run_once no_lib (sample_world one_result_report 200)
         (sample_connector (Some "dG9r")) []) = Ok (2, 2).
Proof. vm_compute. reflexivity. Qed.

(** ** A report without results *)

Lemma run_pair_eq (lib : PyLib) (w : World) (self : FeastDQOnlyConnector)
    (ds_id : string) (ds_name : pyval) (crit : string) (counters : Z * Z)
    (tr : trace) (rsp : response) (report : dict) :
  let rq := quality_request self ds_id crit (clock w tr) in
  let tr' := (tr ++ [(rq, Ok rsp)])%list in
  net w tr rq = Ok rsp ->
  resp_ok rsp = true ->
  json rsp = Ok (VDict report) ->
  py_bool (dict_get report "results") = false ->
  run_pair lib w self ds_id ds_name crit counters tr =
  (match to_iso_z lib (clock w tr') (dict_get report "issued") with
   | Ok _ => Ok (fst counters + 1, snd counters)
   | Raise e => Raise e
   end, tr').
Proof.
  cbv zeta. intros Hnet Hok Hjson Hres.
  unfold run_pair, evaluate_quality, bind, read_clock, http, lift, ret.
  rewrite Hnet. unfold raise_for_status. rewrite Hok, Hjson.
  cbn [py_get].
  destruct (to_iso_z lib _ (dict_get report "issued")) as [iso | e];
    [| reflexivity].
  unfold py_or. rewrite Hres. cbn [py_iter send_results]. reflexivity.
Qed.

(** C9, as stated, fails: with an empty result list the pair can still end
    in an error, when the report's "issued" is a number [datetime] cannot
    hold. *)
Lemma run_pair_no_results_can_raise :
  ~ (forall (lib : PyLib) (w : World) (self : FeastDQOnlyConnector)
            (ds_id : string) (ds_name : pyval) (crit : string)
            (counters : Z * Z) (tr : trace) (rsp : response) (report : dict),
       net w tr (quality_request self ds_id crit (clock w tr)) = Ok rsp ->
       resp_ok rsp = true ->
       json rsp = Ok (VDict report) ->
       py_bool (dict_get report "results") = false ->
       fst (run_pair lib w self ds_id ds_name crit counters tr)
       = Ok (fst counters + 1, snd counters)).
Proof.
  intros H.
  specialize (H no_lib
                (sample_world (empty_results_report (VInt (10 ^ 18))) 200)
                (sample_connector (Some "dG9r")) "d1" VNone "c1" (0, 0) []
                (json_response (empty_results_report (VInt (10 ^ 18))))
                [("issued", VInt (10 ^ 18)); ("results", VList [])]
                eq_refl eq_refl eq_refl eq_refl).
  vm_compute in H. discriminate H.
Qed.

(** C9, amended: when the evaluation of a pair succeeds with a report
    whose "results" is empty, null or missing, no event is built and no
    forwarding call is made (the evaluation request is the pair's only
    exchange); and if the report's "issued" value is one [to_iso_z]
    accepts, the pair ends without error with the pair counter
    incremented and the event counter unchanged.  When [to_iso_z] raises on
    "issued", that error ends the pair. *)
Theorem run_pair_no_results (lib : PyLib) (w : World)
    (self : FeastDQOnlyConnector) (ds_id : string) (ds_name : pyval)
    (crit : string) (counters : Z * Z) (tr : trace) (rsp : response)
    (report : dict) :
  let rq := quality_request self ds_id crit (clock w tr) in
  let tr' := (tr ++ [(rq, Ok rsp)])%list in
  net w tr rq = Ok rsp ->
  resp_ok rsp = true ->
  json rsp = Ok (VDict report) ->
  py_bool (dict_get report "results") = false ->
  snd (run_pair lib w self ds_id ds_name crit counters tr) = tr' /\
  (forall iso,
     to_iso_z lib (clock w tr') (dict_get report "issued") = Ok iso ->
     run_pair lib w self ds_id ds_name crit counters tr
     = (Ok (fst counters + 1, snd counters), tr')) /\
  (forall e,
     to_iso_z lib (clock w tr') (dict_get report "issued") = Raise e ->
     run_pair lib w self ds_id ds_name crit counters tr = (Raise e, tr')).
Proof.
  cbv zeta. intros Hnet Hok Hjson Hres.
  pose proof (run_pair_eq lib w self ds_id ds_name crit counters tr rsp report
                Hnet Hok Hjson Hres) as E.
  cbv zeta in E. rewrite E. split; [reflexivity |].
  split; [intros iso -> | intros e ->]; reflexivity.
Qed.

Lemma run_pair_no_results_witness :
  run_pair no_lib (sample_world (empty_results_report VNone) 200)
    (sample_connector (Some "dG9r")) "d1" VNone "c1" (3, 7) []
  = (Ok (4, 7),
     [(quality_request (sample_connector (Some "dG9r")) "d1" "c1"
         1700000000000000,
       Ok (json_response (empty_results_report VNone)))]).
Proof.
  exact (proj1 (proj2
           (run_pair_no_results no_lib
              (sample_world (empty_results_report VNone) 200)
              (sample_connector (Some "dG9r")) "d1" VNone "c1" (3, 7) []
              (json_response (empty_results_report VNone))
              [("issued", VNone); ("results", VList [])]
              eq_refl eq_refl eq_refl eq_refl))
           "2023-11-14T22:13:21.000Z" eq_refl).
Defined.

(** ** More on the serializer *)

Ltac split_not_None :=
  repeat match goal with
         | |- context [is_not_None ?v] => destruct (is_not_None v)
         end.

(** X1: the keys of a serialized event are the nine payload keys with
    some left out, in the payload's order and without repetition;
    "event_type", "passed" and "@timestamp" are never left out. *)
Theorem to_dict_keys_shape (e : MonitoringPlatformQualityCheck) :
  subseq (keys (to_dict e)) payload_keys = true /\
  NoDup (keys (to_dict e)) /\
  In "event_type" (keys (to_dict e)) /\
  In "passed" (keys (to_dict e)) /\
  In "@timestamp" (keys (to_dict e)).
Proof.
  unfold to_dict, drop_None, keys. cbv zeta. cbn [filter snd is_not_None].
  split_not_None; cbn [map fst];
    (split; [reflexivity |]);
    (split; [repeat constructor; cbn [In]; intuition discriminate |]);
    cbn [In]; intuition.
Qed.

(** X2: what a lookup in the serialized event finds: each of dataset_id,
    dataset_name, name, low and value under its own key exactly when it is
    not null, and then unchanged; the timestamp always; nothing under any
    key outside the nine. *)
Theorem to_dict_lookup (e : MonitoringPlatformQualityCheck) :
  let field v := if is_not_None v then Some v else None in
  assoc "dataset_id" (to_dict e) = field (dataset_id e) /\
  assoc "dataset_name" (to_dict e) = field (dataset_name e) /\
  assoc "name" (to_dict e) = field (name e) /\
  assoc "low" (to_dict e) = field (low e) /\
  assoc "value" (to_dict e) = field (value e) /\
  assoc "@timestamp" (to_dict e) = Some (VStr (at_timestamp e)) /\
  (forall k, ~ In k payload_keys -> assoc k (to_dict e) = None).
Proof.
  cbv zeta. repeat split.
  1-6: to_dict_keys; split_not_None; reflexivity.
  intros k Hk. unfold payload_keys in Hk. cbn [In] in Hk.
  unfold to_dict. cbv zeta.
  repeat (rewrite assoc_drop_None_cons;
          match goal with
          | |- context [String.eqb k ?s] =>
              destruct (String.eqb_spec k s) as [-> | _];
              [exfalso; apply Hk; tauto |]
          end; cbn [andb]).
  reflexivity.
Qed.

(** X3: the serialized "category", when present, is an object whose keys
    are among "context" and "category", in that order; each value is the
    stored category's value for that key and is not null.  Other keys of
    the stored category never reach the payload. *)
Theorem to_dict_category_object (e : MonitoringPlatformQualityCheck) (v : pyval) :
  assoc "category" (to_dict e) = Some v ->
  exists d,
    v = VDict d /\
    subseq (keys d) ["context"; "category"] = true /\
    (forall k x, In (k, x) d -> x = dict_get (category e) k /\ x <> VNone).
Proof.
  rewrite to_dict_category_key. unfold category_payload.
  destruct (category e) as [| kv c] eqn:Ec; [discriminate |].
  unfold dict_or_empty. cbn [dict_truthy is_not_None].
  intros [= <-]. eexists. split; [reflexivity |].
  unfold drop_None. cbn [filter snd].
  destruct (dict_get (kv :: c) "context") eqn:E1,
           (dict_get (kv :: c) "category") eqn:E2;
    cbn [is_not_None keys map fst];
    (split; [reflexivity |]);
    intros k x Hin; cbn [In] in Hin;
    repeat match goal with
           | H : _ \/ _ |- _ => destruct H
           | H : False |- _ => destruct H
           | H : (_, _) = (_, _) |- _ => injection H as <- <-
           end;
    rewrite ?E1, ?E2; split; (reflexivity || discriminate).
Qed.

Lemma to_dict_category_object_witness :
  exists d,
    VDict [("context", VStr "c1")] = VDict d /\
    subseq (keys d) ["context"; "category"] = true /\
    (forall k x, In (k, x) d ->
       x = dict_get [("context", VStr "c1"); ("extra", VInt 7)] k /\ x <> VNone).
Proof.
  exact (to_dict_category_object
           (new_quality_check (VStr "d1") VNone (VStr "rule")
              (Some [("context", VStr "c1"); ("extra", VInt 7)])
              VNone VNone true "2024-01-01T00:00:00.000Z")
           (VDict [("context", VStr "c1")]) eq_refl).
Defined.

(** ** More on the token and the forwarder *)

(** X4: [_opt] keeps a value exactly when it has a character that is not
    whitespace, and then returns it as given, not trimmed; otherwise it
    returns null. *)
Theorem _opt_spec (s : option string) :
  _opt s = if token_absent s then None else s.
Proof.
  destruct (token_absent s) eqn:E.
  - apply _opt_absent. exact E.
  - destruct s as [x |]; [| discriminate E]. apply _opt_present. exact E.
Qed.

Example _opt_not_trimmed : _opt (Some "  ab ") = Some "  ab ".
Proof. reflexivity. Qed.

(** X5: the ingestion headers are the JSON content type and "Basic "
    followed by the configured token exactly as given; without a usable
    token building them raises the configuration error. *)
Theorem _logstash_headers_spec (self : FeastDQOnlyConnector) :
  _logstash_headers self =
  match logstash_basic_auth self with
  | Some tok =>
      if all_space tok then Raise RuntimeError
      else Ok [("Content-Type", "application/json");
               ("Authorization", "Basic " ++ tok)]
  | None => Raise RuntimeError
  end.
Proof.
  unfold _logstash_headers, _resolve_logstash_basic.
  destruct (logstash_basic_auth self) as [tok |]; [| reflexivity].
  destruct (all_space tok) eqn:E.
  - rewrite (_opt_absent (Some tok) E). reflexivity.
  - rewrite (_opt_present tok E).
    assert (Ht : str_truthy tok = true) by (destruct tok; [discriminate E | reflexivity]).
    rewrite Ht. reflexivity.
Qed.

(** X6: with a usable token [send_event] makes exactly one exchange: a
    POST to the ingestion URL whose body is the serialized event and whose
    Authorization header carries the token.  It raises the transport's
    exception if there is one, an [HTTPError] on a 4xx or 5xx status, and
    returns otherwise; the response body is never read. *)
Theorem send_event_exchange (w : World) (self : FeastDQOnlyConnector)
    (evt : MonitoringPlatformQualityCheck) (tr : trace) (tok : string) :
  logstash_basic_auth self = Some tok ->
  all_space tok = false ->
  let rq := event_request self (to_dict evt)
              [("Content-Type", "application/json");
               ("Authorization", "Basic " ++ tok)] in
  send_event w self evt tr =
  (match net w tr rq with
   | Ok r => if resp_ok r then Ok tt else Raise (HTTPError (status_code r))
   | Raise e => Raise e
   end,
   (tr ++ [(rq, net w tr rq)])%list).
Proof.
  intros Htok Hs. cbv zeta.
  unfold send_event, bind, lift, _logstash_headers, _resolve_logstash_basic.
  rewrite Htok, (_opt_present tok Hs).
  assert (Ht : str_truthy tok = true) by (destruct tok; [discriminate Hs | reflexivity]).
  rewrite Ht. cbn [rbind]. unfold http.
  destruct (net w tr _) as [r | e]; [| reflexivity].
  unfold raise_for_status. destruct (resp_ok r); reflexivity.
Qed.

Lemma send_event_exchange_witness :
  fst (send_event (sample_world one_result_report 503)
         (sample_connector (Some "dG9r"))
         (new_quality_check (VStr "d1") VNone (VStr "rule") None VNone VNone
            true "2024-01-01T00:00:00.000Z") [])
  = Raise (HTTPError 503).
Proof.
  rewrite (send_event_exchange (sample_world one_result_report 503)
             (sample_connector (Some "dG9r")) _ [] "dG9r" eq_refl eq_refl).
  reflexivity.
Defined.

(** ** The base URL *)

Lemma rstrip_by_decompose (p : ascii -> bool) (s : string) :
  exists t,
    s = (rstrip_by p s ++ t)%string
    /\ forallb p (list_ascii_of_string t) = true.
Proof.
  induction s as [| c s (t & Ht & Hp)]; cbn [rstrip_by].
  - exists EmptyString. split; reflexivity.
  - destruct (rstrip_by p s) as [| c' r] eqn:E.
    + destruct (p c) eqn:Hc.
      * exists (String c t). cbn [String.append] in *. split.
        -- rewrite <- Ht. reflexivity.
        -- simpl. rewrite Hc, Hp. reflexivity.
      * exists t. cbn [String.append] in *. split; [now rewrite <- Ht | exact Hp].
    + exists t. cbn [String.append] in *. split; [now rewrite <- Ht | exact Hp].
Qed.

Lemma rstrip_by_last (p : ascii -> bool) (s : string) (c : ascii) :
  last_char (rstrip_by p s) = Some c -> p c = false.
Proof.
  induction s as [| a s IH]; cbn [rstrip_by]; [discriminate |].
  destruct (rstrip_by p s) as [| c' r] eqn:E.
  - destruct (p a) eqn:Ha; [discriminate |]. intros [= <-]. exact Ha.
  - intros H. apply IH. exact H.
Qed.

Lemma all_slashes (t : string) :
  forallb (fun c => Ascii.eqb c "/"%char) (list_ascii_of_string t) = true ->
  t = slashes (String.length t).
Proof.
  induction t as [| c t IH]; [reflexivity |]. simpl.
  intros H. apply andb_prop in H. destruct H as [Hc Ht].
  apply Ascii.eqb_eq in Hc. subst c. f_equal. apply IH. exact Ht.
Qed.

(** X7: the connector's base URL is the configured URL with its trailing
    slashes removed and nothing else: it does not end in a slash, and
    putting the slashes back gives the configured URL. *)
Theorem new_connector_base (feast_server_url : string)
    (criteria datasets : list string) (url : string) (tok : option string) :
  let self := new_connector feast_server_url criteria datasets url tok in
  last_char (base self) <> Some "/"%char /\
  exists n, feast_server_url = (base self ++ slashes n)%string.
Proof.
  cbv zeta. cbn [base new_connector]. unfold rstrip_slash. split.
  - intros H. apply rstrip_by_last in H. discriminate H.
  - destruct (rstrip_by_decompose (fun c => Ascii.eqb c "/"%char) feast_server_url)
      as (t & Ht & Hp).
    exists (String.length t). rewrite <- (all_slashes t Hp). exact Ht.
Qed.

(** ** More on building an event *)

(** X8: [build_event] returns an event exactly for the rows that are
    objects whose "category" is an object or falsy and whose "value" is
    null or converts to a float; a row that is not an object raises
    [AttributeError]. *)
Theorem build_event_ok_iff (lib : PyLib) (report res : dict) (ds_id : string)
    (ds_name : pyval) (iso_ts : string) :
  ((exists e,
      build_event lib (VDict report) ds_id ds_name iso_ts (VDict res) = Ok e)
   <-> row_ok lib res = true) /\
  (forall row, (forall d, row <> VDict d) ->
     build_event lib (VDict report) ds_id ds_name iso_ts row
     = Raise AttributeError).
Proof.
  split; [split |].
  - intros [e He]. unfold row_ok. unfold build_event in He.
    cbn [py_get rbind] in He.
    destruct (py_or (dict_get res "category") (VDict [])) as [| | | | | |cat];
      cbn [py_get rbind] in He; try discriminate He.
    cbn [andb].
    destruct (dict_get res "value") eqn:Ev; cbn [is_not_None rbind] in He;
      try reflexivity;
      destruct (py_float lib _); (reflexivity || discriminate He).
  - apply build_event_returns.
  - intros row Hrow. destruct row; try reflexivity. now elim (Hrow d).
Qed.

(** X9: the event's value is null exactly when the row's "value" is null
    or missing, and the payload then has no "value" key (it is not set to
    zero); any other value is replaced by its conversion to a float. *)
Theorem build_event_value (lib : PyLib) (report res : dict) (ds_id : string)
    (ds_name : pyval) (iso_ts : string) (e : MonitoringPlatformQualityCheck) :
  build_event lib (VDict report) ds_id ds_name iso_ts (VDict res) = Ok e ->
  (dict_get res "value" = VNone ->
     value e = VNone /\ assoc "value" (to_dict e) = None) /\
  (dict_get res "value" <> VNone ->
     exists f,
       py_float lib (dict_get res "value") = Ok f /\
       value e = VFloat f /\ assoc "value" (to_dict e) = Some (VFloat f)).
Proof.
  unfold build_event. cbn [py_get rbind].
  destruct (py_or (dict_get res "category") (VDict [])) as [| | | | | |cat];
    cbn [py_get rbind]; try discriminate.
  destruct (dict_get res "value") eqn:Ev; cbn [is_not_None rbind].
  1: { intros [= <-]. split; [| intros H; now elim H]. intros _.
       split; [reflexivity |]. to_dict_keys. split_not_None; reflexivity. }
  all: destruct (py_float lib _) as [x |] eqn:Ef; cbn [rbind]; [| discriminate];
    intros [= <-]; (split; [discriminate |]); intros _;
    exists x; (split; [reflexivity |]); (split; [reflexivity |]);
    to_dict_keys; split_not_None; reflexivity.
Qed.

Lemma build_event_value_witness :
  exists e,
    build_event no_lib (VDict sample_report) "d1" VNone
      "2024-01-01T00:00:00.000Z"
      (VDict [("name", VStr "rows"); ("value", VInt 1)]) = Ok e /\
    assoc "value" (to_dict e) = Some (VFloat 1).
Proof.
  eexists. split; [reflexivity |].
  destruct (proj2 (build_event_value no_lib sample_report
                     [("name", VStr "rows"); ("value", VInt 1)] "d1" VNone
                     "2024-01-01T00:00:00.000Z" _ eq_refl)
              ltac:(discriminate)) as (f & Hf & _ & Hv).
  injection Hf as <-. exact Hv.
Defined.

(** X10: every event [run_once] builds carries a "category" object in its
    payload, even when the row has no category: the object holds the
    row's non-null "context" and "category" and is empty when there is
    neither. *)
Theorem build_event_category (lib : PyLib) (report res : dict) (ds_id : string)
    (ds_name : pyval) (iso_ts : string) (e : MonitoringPlatformQualityCheck) :
  build_event lib (VDict report) ds_id ds_name iso_ts (VDict res) = Ok e ->
  exists cat,
    py_or (dict_get res "category") (VDict []) = VDict cat /\
    assoc "category" (to_dict e)
    = Some (VDict (drop_None [("context", dict_get cat "context");
                              ("category", dict_get cat "category")])) /\
    (py_bool (dict_get res "category") = false ->
     assoc "category" (to_dict e) = Some (VDict [])).
Proof.
  intros H. apply build_event_inv in H. destruct H as (cat & val & Hc & ->).
  exists cat. split; [exact Hc |].
  rewrite to_dict_category_key. unfold category_payload.
  cbn [category new_quality_check dict_or_empty dict_truthy is_not_None].
  unfold dict_get at 1 2. cbn [assoc String.eqb Ascii.eqb Bool.eqb].
  split; [reflexivity |].
  intros Hb. unfold py_or in Hc. rewrite Hb in Hc. injection Hc as <-.
  reflexivity.
Qed.

Lemma build_event_category_witness :
  exists e,
    build_event no_lib (VDict sample_report) "d1" VNone
      "2024-01-01T00:00:00.000Z" (VDict [("name", VStr "rows")]) = Ok e /\
    assoc "category" (to_dict e) = Some (VDict []).
Proof.
  eexists. split; [reflexivity |].
  destruct (build_event_category no_lib sample_report [("name", VStr "rows")]
              "d1" VNone "2024-01-01T00:00:00.000Z" _ eq_refl)
    as (cat & _ & _ & H).
  exact (H eq_refl).
Defined.

(** ** What a run sends, and to whom *)

Lemma appends_ret (Q : request -> Prop) {A} (a : A) : appends_only Q (ret a).
Proof. intros tr. exists []. split; [symmetry; apply app_nil_r | constructor]. Qed.

Lemma appends_lift (Q : request -> Prop) {A} (r : result A) :
  appends_only Q (lift r).
Proof. intros tr. exists []. split; [symmetry; apply app_nil_r | constructor]. Qed.

Lemma appends_read_clock (Q : request -> Prop) (w : World) :
  appends_only Q (read_clock w).
Proof. intros tr. exists []. split; [symmetry; apply app_nil_r | constructor]. Qed.

Lemma appends_http (Q : request -> Prop) (w : World) (rq : request) :
  Q rq -> appends_only Q (http w rq).
Proof.
  intros H tr. exists [(rq, net w tr rq)]. split; [reflexivity |].
  constructor; [exact H | constructor].
Qed.

Lemma appends_bind (Q : request -> Prop) {A B} (c : M A) (k : A -> M B) :
  appends_only Q c -> (forall a, appends_only Q (k a)) ->
  appends_only Q (bind c k).
Proof.
  intros Hc Hk tr. unfold bind. destruct (Hc tr) as (ext & E & F).
  destruct (c tr) as [[a | e] tr']; cbn [snd] in E; subst tr'.
  - destruct (Hk a (tr ++ ext)%list) as (ext' & E' & F').
    exists (ext ++ ext')%list. rewrite E', app_assoc. split; [reflexivity |].
    apply Forall_app. split; assumption.
  - exists ext. split; [reflexivity | exact F].
Qed.

Create HintDb appends.
#[local] Hint Resolve appends_ret appends_lift appends_read_clock : appends.

Ltac appends_binds :=
  repeat (apply appends_bind; [solve [auto with appends] | intros ?]);
  auto with appends.

Lemma appends_fetch_dataset_name (w : World) (self : FeastDQOnlyConnector)
    (ds_id : string) :
  appends_only (allowed_request self) (fetch_dataset_name w self ds_id).
Proof.
  unfold fetch_dataset_name. apply appends_bind.
  - apply appends_http. left. repeat split. exists ds_id. reflexivity.
  - intros r. destruct (resp_ok r && str_truthy (text r)); [| auto with appends].
    appends_binds. destruct (py_bool _); auto with appends.
Qed.

Lemma appends_evaluate_quality (w : World) (self : FeastDQOnlyConnector)
    (ds_id crit : string) :
  appends_only (allowed_request self) (evaluate_quality w self ds_id crit).
Proof.
  unfold evaluate_quality. appends_binds. apply appends_bind.
  - apply appends_http. right; left. repeat split. exists ds_id, crit.
    reflexivity.
  - intros r. appends_binds.
Qed.

Lemma _opt_some (s : option string) (t : string) : _opt s = Some t -> s = Some t.
Proof.
  destruct s as [x |]; [| discriminate]. simpl.
  destruct (str_truthy x && str_truthy (strip x)); [| discriminate].
  intros H. exact H.
Qed.

Lemma _logstash_headers_ok (self : FeastDQOnlyConnector)
    (hdrs : list (string * string)) :
  _logstash_headers self = Ok hdrs ->
  exists tok,
    logstash_basic_auth self = Some tok /\
    hdrs = [("Content-Type", "application/json");
            ("Authorization", "Basic " ++ tok)].
Proof.
  unfold _logstash_headers, _resolve_logstash_basic.
  destruct (_opt (logstash_basic_auth self)) as [tok |] eqn:E; [| discriminate].
  apply _opt_some in E.
  destruct (str_truthy tok); [| discriminate]. cbn [rbind].
  intros [= <-]. exists tok. split; [exact E | reflexivity].
Qed.

Lemma appends_send_event (w : World) (self : FeastDQOnlyConnector)
    (evt : MonitoringPlatformQualityCheck) :
  appends_only (allowed_request self) (send_event w self evt).
Proof.
  intros tr. unfold send_event, bind, lift, http.
  destruct (_logstash_headers self) as [hdrs | e] eqn:E.
  - destruct (_logstash_headers_ok _ _ E) as (tok & Ht & ->).
    exists [(event_request self (to_dict evt)
               [("Content-Type", "application/json");
                ("Authorization", "Basic " ++ tok)],
             net w tr (event_request self (to_dict evt)
                         [("Content-Type", "application/json");
                          ("Authorization", "Basic " ++ tok)]))].
    split.
    + destruct (net w tr _) as [r | e]; [| reflexivity].
      destruct (raise_for_status r); reflexivity.
    + constructor; [| constructor]. right; right. repeat split.
      exists tok, evt. repeat split. exact Ht.
  - exists []. split; [symmetry; apply app_nil_r | constructor].
Qed.

#[local] Hint Resolve appends_fetch_dataset_name appends_evaluate_quality
  appends_send_event : appends.

Lemma appends_send_results (lib : PyLib) (w : World)
    (self : FeastDQOnlyConnector) (report : pyval) (ds_id : string)
    (ds_name : pyval) (iso_ts : string) (results : list pyval)
    (counters : Z * Z) :
  appends_only (allowed_request self)
    (send_results lib w self report ds_id ds_name iso_ts results counters).
Proof.
  revert counters. induction results as [| res rest IH]; intros counters;
    cbn [send_results]; appends_binds.
Qed.

#[local] Hint Resolve appends_send_results : appends.

Lemma appends_run_criteria (lib : PyLib) (w : World)
    (self : FeastDQOnlyConnector) (ds_id : string) (ds_name : pyval)
    (crits : list string) (counters : Z * Z) :
  appends_only (allowed_request self)
    (run_criteria lib w self ds_id ds_name crits counters).
Proof.
  revert counters. induction crits as [| crit rest IH]; intros counters;
    cbn [run_criteria]; [auto with appends |].
  apply appends_bind; [| exact IH]. unfold run_pair. appends_binds.
Qed.

#[local] Hint Resolve appends_run_criteria : appends.

Lemma appends_run_datasets (lib : PyLib) (w : World)
    (self : FeastDQOnlyConnector) (dss : list string) (counters : Z * Z) :
  appends_only (allowed_request self) (run_datasets lib w self dss counters).
Proof.
  revert counters. induction dss as [| ds rest IH]; intros counters;
    cbn [run_datasets]; [auto with appends |].
  apply appends_bind; [| exact IH]. unfold run_dataset. appends_binds.
Qed.

(** X11: every request of a run is one of three: a GET of a dataset or a
    POST of a quality evaluation, both under the base URL with the plain
    JSON header and no body, or a POST of a serialized event to the
    ingestion URL with the configured token.  So a request that carries an
    Authorization header goes to the ingestion URL: the token is never
    sent to the quality service. *)
Theorem run_once_requests (lib : PyLib) (w : World) (self : FeastDQOnlyConnector) :
  let tr := snd (run_once lib w self []) in
  Forall (fun x => allowed_request self (fst x)) tr /\
  (forall x v,
     In x tr -> In ("Authorization", v) (headers (fst x)) ->
     url (fst x) = logstash_url self /\ meth (fst x) = POST).
Proof.
  cbv zeta.
  destruct (appends_run_datasets lib w self (dataset_ids self) (0, 0) [])
    as (ext & E & F).
  unfold run_once. rewrite E. cbn [app]. split; [exact F |].
  intros x v Hin Hh. rewrite Forall_forall in F. specialize (F x Hin).
  destruct F as [(_ & Hd & _) | [(_ & Hd & _) | (Hm & Hu & _)]].
  - rewrite Hd in Hh. cbn [In _feast_headers] in Hh.
    destruct Hh as [Hh | []]. discriminate Hh.
  - rewrite Hd in Hh. cbn [In _feast_headers] in Hh.
    destruct Hh as [Hh | []]. discriminate Hh.
  - split; assumption.
Qed.

(** ** Every failed exchange ends the run *)

Lemma all_fine_snoc (tr : trace) (x : request * result response) :
  all_fine tr -> fatal x = None -> all_fine (tr ++ [x])%list.
Proof.
  unfold all_fine. intros H Hx. apply Forall_app. split; [exact H |].
  constructor; [exact Hx | constructor].
Qed.

Lemma halting_ret {A} (a : A) : halting (ret a).
Proof. intros tr H. exact H. Qed.

Lemma halting_lift {A} (r : result A) : halting (lift r).
Proof. intros tr H. unfold lift. destruct r; [exact H | left; exact H]. Qed.

Lemma halting_read_clock (w : World) : halting (read_clock w).
Proof. intros tr H. exact H. Qed.

Lemma halting_bind {A B} (c : M A) (k : A -> M B) :
  halting c -> (forall a, halting (k a)) -> halting (bind c k).
Proof.
  intros Hc Hk tr H. unfold bind. specialize (Hc tr H).
  destruct (c tr) as [[a | e] tr']; [| exact Hc].
  apply Hk. exact Hc.
Qed.

(** A GET: only the transport can fail it. *)
Lemma halting_get {B} (w : World) (rq : request) (k : response -> M B) :
  meth rq = GET -> (forall r, halting (k r)) -> halting (r <~ http w rq ;; k r).
Proof.
  intros Hm Hk tr H. unfold bind, http.
  destruct (net w tr rq) as [r | e] eqn:E.
  - apply Hk. apply all_fine_snoc; [exact H |]. simpl. rewrite Hm. reflexivity.
  - right. exists tr, (rq, Raise e). repeat split. exact H.
Qed.

(** A POST followed by [raise_for_status]. *)
Lemma halting_post {B} (w : World) (rq : request) (k : response -> M B) :
  meth rq = POST -> (forall r, halting (k r)) ->
  halting (r <~ http w rq ;; _ <~ lift (raise_for_status r) ;; k r).
Proof.
  intros Hm Hk tr H. unfold bind, http, lift, raise_for_status.
  destruct (net w tr rq) as [r | e] eqn:E.
  - destruct (resp_ok r) eqn:Eok.
    + apply Hk. apply all_fine_snoc; [exact H |]. simpl. rewrite Hm, Eok.
      reflexivity.
    + right. exists tr, (rq, Ok r). repeat split; [exact H |].
      simpl. rewrite Hm, Eok. reflexivity.
  - right. exists tr, (rq, Raise e). repeat split. exact H.
Qed.

Create HintDb halting.
#[local] Hint Resolve halting_ret halting_lift halting_read_clock : halting.

Ltac halting_binds :=
  repeat (apply halting_bind; [solve [auto with halting] | intros ?]);
  auto with halting.

Lemma halting_fetch_dataset_name (w : World) (self : FeastDQOnlyConnector)
    (ds_id : string) : halting (fetch_dataset_name w self ds_id).
Proof.
  unfold fetch_dataset_name. apply halting_get; [reflexivity |].
  intros r. destruct (resp_ok r && str_truthy (text r)); [| auto with halting].
  halting_binds. destruct (py_bool _); auto with halting.
Qed.

Lemma halting_evaluate_quality (w : World) (self : FeastDQOnlyConnector)
    (ds_id crit : string) : halting (evaluate_quality w self ds_id crit).
Proof.
  unfold evaluate_quality. halting_binds.
  apply halting_post; [reflexivity |]. intros r. auto with halting.
Qed.

Lemma halting_send_event (w : World) (self : FeastDQOnlyConnector)
    (evt : MonitoringPlatformQualityCheck) : halting (send_event w self evt).
Proof.
  unfold send_event. apply halting_bind; [auto with halting |]. intros hdrs.
  intros tr H.
  pose proof (halting_post w (event_request self (to_dict evt) hdrs)
                (fun _ => ret tt) eq_refl (fun _ => halting_ret tt) tr H) as S.
  unfold bind, http, lift, ret in *.
  destruct (net w tr _) as [r | e]; [| exact S].
  destruct (raise_for_status r) as [[] | e]; exact S.
Qed.

#[local] Hint Resolve halting_fetch_dataset_name halting_evaluate_quality
  halting_send_event : halting.

Lemma halting_send_results (lib : PyLib) (w : World)
    (self : FeastDQOnlyConnector) (report : pyval) (ds_id : string)
    (ds_name : pyval) (iso_ts : string) (results : list pyval)
    (counters : Z * Z) :
  halting (send_results lib w self report ds_id ds_name iso_ts results counters).
Proof.
  revert counters. induction results as [| res rest IH]; intros counters;
    cbn [send_results]; halting_binds.
Qed.

#[local] Hint Resolve halting_send_results : halting.

Lemma halting_run_criteria (lib : PyLib) (w : World)
    (self : FeastDQOnlyConnector) (ds_id : string) (ds_name : pyval)
    (crits : list string) (counters : Z * Z) :
  halting (run_criteria lib w self ds_id ds_name crits counters).
Proof.
  revert counters. induction crits as [| crit rest IH]; intros counters;
    cbn [run_criteria]; [auto with halting |].
  apply halting_bind; [| exact IH]. unfold run_pair. halting_binds.
Qed.

#[local] Hint Resolve halting_run_criteria : halting.

Lemma halting_run_datasets (lib : PyLib) (w : World)
    (self : FeastDQOnlyConnector) (dss : list string) (counters : Z * Z) :
  halting (run_datasets lib w self dss counters).
Proof.
  revert counters. induction dss as [| ds rest IH]; intros counters;
    cbn [run_datasets]; [auto with halting |].
  apply halting_bind; [| exact IH]. unfold run_dataset. halting_binds.
Qed.

Lemma all_fine_no_fatal (pre post : trace) (x : request * result response)
    (e : exn) :
  all_fine (pre ++ x :: post)%list -> fatal x = Some e -> False.
Proof.
  unfold all_fine. intros H Hx. apply Forall_app in H. destruct H as [_ H].
  inversion H as [| y l Hy _]; subst. rewrite Hx in Hy. discriminate Hy.
Qed.

(** X12: an exchange that fails is the last of the run and its exception
    is the run's outcome.  That covers a transport exception on any
    request, the metadata read included, and a 4xx or 5xx answer to a
    POST; a 4xx or 5xx answer to the metadata read is not such a failure.
    A run that returns has had no failed exchange. *)
Theorem run_once_stops_at_failure (lib : PyLib) (w : World)
    (self : FeastDQOnlyConnector) (out : result (Z * Z)) (tr : trace) :
  run_once lib w self [] = (out, tr) ->
  (forall pre x post e,
     tr = (pre ++ x :: post)%list -> fatal x = Some e ->
     post = [] /\ out = Raise e) /\
  (forall c, out = Ok c -> all_fine tr).
Proof.
  intros Hrun.
  pose proof (halting_run_datasets lib w self (dataset_ids self) (0, 0) []
                (Forall_nil _)) as S.
  fold (run_once lib w self) in S. rewrite Hrun in S. split.
  - intros pre x post e -> Hx.
    destruct out as [c | e0]; cbn [stops_at_fatal] in S.
    + exfalso. eapply all_fine_no_fatal; eauto.
    + destruct S as [S | (tr0 & y & Htr & Hc & Hy)].
      * exfalso. eapply all_fine_no_fatal; eauto.
      * destruct post as [| p post0].
        -- apply app_inj_tail in Htr. destruct Htr as [_ <-].
           rewrite Hx in Hy. injection Hy as <-. split; reflexivity.
        -- exfalso.
           destruct (exists_last (l := p :: post0) ltac:(discriminate))
             as (post' & z & Hp).
           rewrite Hp in Htr.
           change (x :: post' ++ [z])%list with ((x :: post') ++ [z])%list in Htr.
           rewrite app_assoc in Htr. apply app_inj_tail in Htr.
           destruct Htr as [<- _]. eapply all_fine_no_fatal; eauto.
  - intros c ->. exact S.
Qed.

Lemma run_once_stops_at_failure_witness :
  run_once no_lib refusing_world (sample_connector (Some "dG9r")) []
  = (Raise RequestException,
     [(dataset_request (sample_connector (Some "dG9r")) "d1",
       Raise RequestException)]).
Proof.
  pose proof (run_once_stops_at_failure no_lib refusing_world
                (sample_connector (Some "dG9r")) _ _ eq_refl) as [H _].
  destruct (H [] (dataset_request (sample_connector (Some "dG9r")) "d1",
                  Raise RequestException) [] RequestException
              eq_refl eq_refl) as [_ Hout].
  reflexivity.
Defined.

(** ** Events in row order, and the counters *)

Lemma build_event_dicts (lib : PyLib) (report res : pyval) (ds_id : string)
    (ds_name : pyval) (iso_ts : string) (e : MonitoringPlatformQualityCheck) :
  build_event lib report ds_id ds_name iso_ts res = Ok e ->
  exists r d, report = VDict r /\ res = VDict d.
Proof.
  unfold build_event. destruct res; try discriminate. cbn [py_get rbind].
  destruct report; try discriminate. eauto.
Qed.

Lemma build_event_shared (lib : PyLib) (report res : pyval) (ds_id : string)
    (ds_name : pyval) (iso_ts : string) (e : MonitoringPlatformQualityCheck) :
  build_event lib report ds_id ds_name iso_ts res = Ok e ->
  assoc "@timestamp" (to_dict e) = Some (VStr iso_ts) /\
  assoc "dataset_name" (to_dict e)
  = (if is_not_None ds_name then Some ds_name else None).
Proof.
  intros H. destruct (build_event_dicts _ _ _ _ _ _ _ H) as (r & d & -> & ->).
  apply build_event_inv in H. destruct H as (cat & val & _ & ->).
  split; to_dict_keys; split_not_None; reflexivity.
Qed.

Lemma send_results_cons (lib : PyLib) (w : World)
    (self : FeastDQOnlyConnector) (report : pyval) (ds_id : string)
    (ds_name : pyval) (iso_ts : string) (row : pyval) (rest : list pyval)
    (counters : Z * Z) (tr : trace) :
  send_results lib w self report ds_id ds_name iso_ts (row :: rest) counters tr =
  match build_event lib report ds_id ds_name iso_ts row with
  | Ok evt =>
      match send_event w self evt tr with
      | (Ok _, tr1) =>
          send_results lib w self report ds_id ds_name iso_ts rest
            (fst counters + 1, snd counters + 1) tr1
      | (Raise e, tr1) => (Raise e, tr1)
      end
  | Raise e => (Raise e, tr)
  end.
Proof.
  cbn [send_results]. unfold bind at 1. unfold lift.
  destruct (build_event lib report ds_id ds_name iso_ts row); reflexivity.
Qed.

Lemma send_results_trace (lib : PyLib) (w : World)
    (self : FeastDQOnlyConnector) (report : pyval) (ds_id : string)
    (ds_name : pyval) (iso_ts : string) (rows : list pyval) :
  forall (counters : Z * Z) (tr : trace),
  exists ext,
    snd (send_results lib w self report ds_id ds_name iso_ts rows counters tr)
    = (tr ++ ext)%list /\
    Forall2 (forwards lib self report ds_id ds_name iso_ts)
      (firstn (List.length ext) rows) ext /\
    (forall c',
       fst (send_results lib w self report ds_id ds_name iso_ts rows counters tr)
       = Ok c' ->
       List.length ext = List.length rows /\
       c' = (fst counters + Z.of_nat (List.length rows),
             snd counters + Z.of_nat (List.length rows))).
Proof.
  induction rows as [| row rest IH]; intros counters tr.
  - exists []. cbn [send_results ret snd fst]. split; [symmetry; apply app_nil_r |].
    split; [constructor |]. intros c' [= <-]. split; [reflexivity |].
    destruct counters; cbn; f_equal; lia.
  - rewrite send_results_cons.
    destruct (build_event lib report ds_id ds_name iso_ts row) as [evt | e] eqn:Eb.
    2: { exists []. cbn [snd fst]. split; [symmetry; apply app_nil_r |].
         split; [constructor | discriminate]. }
    destruct (send_event w self evt tr) as [[[] | e] tr1] eqn:Es.
    + assert (Htr1 : exists x, tr1 = (tr ++ [x])%list /\
                               forwards lib self report ds_id ds_name iso_ts row x).
      { revert Es. unfold send_event, bind, lift, http.
        destruct (_logstash_headers self) as [hdrs | e]; [| discriminate].
        destruct (net w tr _) as [r | e] eqn:En.
        - destruct (raise_for_status r) as [[] | e1]; [| discriminate].
          intros [= <-].
          eexists; (split; [reflexivity |]); exists evt; repeat split;
            exact Eb.
        - discriminate. }
      destruct Htr1 as (x & -> & Hx).
      destruct (IH (fst counters + 1, snd counters + 1) (tr ++ [x])%list)
        as (ext & E & F & C).
      exists (x :: ext). rewrite E, <- app_assoc. split; [reflexivity |].
      cbn [List.length firstn]. split; [constructor; assumption |].
      intros c' Hc. destruct (C c' Hc) as [Hl ->]. split; [now rewrite Hl |].
      cbn [fst snd]. f_equal; lia.
    + assert (Htr1 : tr1 = tr \/
                     exists x, tr1 = (tr ++ [x])%list /\
                               forwards lib self report ds_id ds_name iso_ts row x).
      { revert Es. unfold send_event, bind, lift, http.
        destruct (_logstash_headers self) as [hdrs | e0];
          [| intros [= _ <-]; now left].
        destruct (net w tr _) as [r | e0] eqn:En.
        - destruct (raise_for_status r) as [[] | e1]; [discriminate |].
          intros [= _ <-]. right.
          eexists; (split; [reflexivity |]); exists evt; repeat split;
            exact Eb.
        - intros [= _ <-]. right.
          eexists; (split; [reflexivity |]); exists evt; repeat split; exact Eb. }
      cbn [snd fst]. destruct Htr1 as [-> | (x & -> & Hx)].
      * exists []. split; [symmetry; apply app_nil_r |].
        split; [constructor | discriminate].
      * exists [x]. split; [reflexivity |].
        split; [repeat constructor; exact Hx | discriminate].
Qed.

(** X13: the events of a pair are forwarded one per row, in the order of
    the rows, each before the next row is looked at: whatever the outcome,
    the exchanges made are the forwarding of the events of the first rows,
    in order, and when the loop returns they cover every row and both
    counters have grown by the number of rows.  Every forwarded payload
    carries the pair's one timestamp and the dataset's name. *)
Theorem send_results_in_order (lib : PyLib) (w : World)
    (self : FeastDQOnlyConnector) (report : pyval) (ds_id : string)
    (ds_name : pyval) (iso_ts : string) (rows : list pyval)
    (counters : Z * Z) (tr tr' : trace) (out : result (Z * Z)) :
  send_results lib w self report ds_id ds_name iso_ts rows counters tr
  = (out, tr') ->
  exists ext,
    tr' = (tr ++ ext)%list /\
    Forall2 (forwards lib self report ds_id ds_name iso_ts)
      (firstn (List.length ext) rows) ext /\
    Forall (fun x =>
              exists body,
                json_body (fst x) = Some body /\
                assoc "@timestamp" body = Some (VStr iso_ts) /\
                assoc "dataset_name" body
                = (if is_not_None ds_name then Some ds_name else None)) ext /\
    (forall c', out = Ok c' ->
       List.length ext = List.length rows /\
       c' = (fst counters + Z.of_nat (List.length rows),
             snd counters + Z.of_nat (List.length rows))).
Proof.
  intros H.
  destruct (send_results_trace lib w self report ds_id ds_name iso_ts rows
              counters tr) as (ext & E & F & C).
  rewrite H in E, C. cbn [fst snd] in E, C.
  exists ext. split; [exact E |]. split; [exact F |]. split; [| exact C].
  clear - F. induction F as [| row x rows' ext' Hx _ IH]; constructor; [| exact IH].
  destruct Hx as (evt & Hb & _ & _ & Hj).
  exists (to_dict evt). split; [exact Hj |].
  exact (build_event_shared _ _ _ _ _ _ _ Hb).
Qed.

Lemma send_results_in_order_witness :
  exists ext,
    snd (send_results no_lib (sample_world one_result_report 200)
           (sample_connector (Some "dG9r")) one_result_report "d1" (VStr "Set")
           "2023-11-14T22:13:20.123Z"
           [VDict (sample_row (VBool true)); VDict (sample_row (VBool false))]
           (0, 5) [])
    = ext /\ List.length ext = 2%nat.
Proof.
  destruct (send_results_in_order no_lib (sample_world one_result_report 200)
              (sample_connector (Some "dG9r")) one_result_report "d1"
              (VStr "Set") "2023-11-14T22:13:20.123Z"
              [VDict (sample_row (VBool true)); VDict (sample_row (VBool false))]
              (0, 5) [] _ _ eq_refl) as (ext & E & _ & _ & C).
  exists ext. split; [exact E |]. exact (proj1 (C _ eq_refl)).
Defined.

(** ** Counting the exchanges of a run *)

Lemma count_app (p : request * result response -> bool) (a b : trace) :
  count p (a ++ b)%list = count p a + count p b.
Proof. unfold count. rewrite filter_app, List.length_app. lia. Qed.

Lemma count_single (p : request * result response -> bool)
    (x : request * result response) :
  count p [x] = if p x then 1 else 0.
Proof. unfold count. cbn [filter]. destruct (p x); reflexivity. Qed.

Lemma count_kinds (tr : trace) :
  Z.of_nat (List.length tr) = count is_get tr + count is_quality tr + count is_event tr.
Proof.
  unfold count. induction tr as [| x tr IH]; [reflexivity |].
  cbn [filter List.length].
  assert (Hk : (is_get x = true /\ is_quality x = false /\ is_event x = false)
               \/ (is_get x = false /\ is_quality x = true /\ is_event x = false)
               \/ (is_get x = false /\ is_quality x = false /\ is_event x = true)).
  { unfold is_get, is_quality, is_event.
    destruct (meth (fst x)), (json_body (fst x)); tauto. }
  destruct Hk as [(-> & -> & ->) | [(-> & -> & ->) | (-> & -> & ->)]];
    cbn [List.length]; lia.
Qed.

Lemma forwards_counts (lib : PyLib) (self : FeastDQOnlyConnector)
    (report : pyval) (ds_id : string) (ds_name : pyval) (iso_ts : string)
    (rows : list pyval) (ext : trace) :
  Forall2 (forwards lib self report ds_id ds_name iso_ts) rows ext ->
  count is_get ext = 0 /\ count is_quality ext = 0
  /\ count is_event ext = Z.of_nat (List.length ext).
Proof.
  unfold count. induction 1 as [| row x rows ext (evt & _ & Hm & _ & Hj) _ IH];
    [repeat split |].
  assert (Hk : is_get x = false /\ is_quality x = false /\ is_event x = true).
  { unfold is_get, is_quality, is_event. rewrite Hm, Hj. tauto. }
  destruct Hk as (Hg & Hq & He). cbn [filter]. rewrite Hg, Hq, He.
  cbn [List.length]. lia.
Qed.

Lemma fetch_dataset_name_adds (w : World) (self : FeastDQOnlyConnector)
    (ds_id : string) (tr : trace) :
  adds tr (snd (fetch_dataset_name w self ds_id tr)) 1 0 0.
Proof.
  assert (E : snd (fetch_dataset_name w self ds_id tr)
              = (tr ++ [(dataset_request self ds_id,
                         net w tr (dataset_request self ds_id))])%list).
  { unfold fetch_dataset_name, bind, http, lift, ret.
    destruct (net w tr _) as [r | e]; [| reflexivity].
    destruct (resp_ok r && str_truthy (text r)); [| reflexivity].
    destruct (json r) as [j | e]; [| reflexivity].
    destruct (py_get j "title") as [t | e]; [| reflexivity].
    destruct (py_bool t); reflexivity. }
  rewrite E. unfold adds. rewrite !count_app, !count_single. repeat split.
Qed.

Lemma evaluate_quality_adds (w : World) (self : FeastDQOnlyConnector)
    (ds_id crit : string) (tr : trace) :
  adds tr (snd (evaluate_quality w self ds_id crit tr)) 0 1 0.
Proof.
  assert (E : exists x,
              snd (evaluate_quality w self ds_id crit tr) = (tr ++ [x])%list
              /\ is_quality x = true /\ is_get x = false /\ is_event x = false).
  { unfold evaluate_quality, bind, read_clock, http, lift.
    exists (quality_request self ds_id crit (clock w tr),
            net w tr (quality_request self ds_id crit (clock w tr))).
    split; [| repeat split].
    destruct (net w tr _) as [r | e]; [| reflexivity].
    destruct (raise_for_status r); reflexivity. }
  destruct E as (x & -> & Hq & Hg & He).
  unfold adds. rewrite !count_app, !count_single, Hq, Hg, He. repeat split.
Qed.

Lemma run_pair_adds (lib : PyLib) (w : World) (self : FeastDQOnlyConnector)
    (ds_id : string) (ds_name : pyval) (crit : string) (c c' : Z * Z)
    (tr tr' : trace) :
  run_pair lib w self ds_id ds_name crit c tr = (Ok c', tr') ->
  fst c' = fst c + 1 /\ adds tr tr' 0 1 (snd c' - snd c).
Proof.
  unfold run_pair. unfold bind at 1.
  pose proof (evaluate_quality_adds w self ds_id crit tr) as A.
  destruct (evaluate_quality w self ds_id crit tr) as [[report | e] tr1];
    [| discriminate]. cbn [snd] in A.
  unfold bind, lift, read_clock.
  destruct (py_get report "issued") as [issued | e]; [| discriminate].
  destruct (to_iso_z lib (clock w tr1) issued) as [iso_ts | e]; [| discriminate].
  destruct (py_get report "results") as [results | e]; [| discriminate].
  destruct (py_iter (py_or results (VList []))) as [rows | e]; [| discriminate].
  destruct (send_results_trace lib w self report ds_id ds_name iso_ts rows
              (0, snd c) tr1) as (ext & E & F & C).
  destruct (send_results lib w self report ds_id ds_name iso_ts rows (0, snd c) tr1)
    as [[sent | e] tr2]; [| discriminate].
  cbn [fst snd] in E, C. unfold ret. intros [= <- <-].
  destruct (C sent eq_refl) as [Hl ->]. cbn [fst snd].
  split; [reflexivity |].
  rewrite Hl, firstn_all in F.
  destruct (forwards_counts _ _ _ _ _ _ _ _ F) as (Hg & Hq & He).
  subst tr2. unfold adds in *. rewrite !count_app.
  destruct A as (Ag & Aq & Ae). rewrite Ag, Aq, Ae, Hg, Hq, He, Hl. lia.
Qed.

Lemma run_criteria_adds (lib : PyLib) (w : World) (self : FeastDQOnlyConnector)
    (ds_id : string) (ds_name : pyval) (crits : list string) :
  forall (c c' : Z * Z) (tr tr' : trace),
  run_criteria lib w self ds_id ds_name crits c tr = (Ok c', tr') ->
  fst c' = fst c + Z.of_nat (List.length crits)
  /\ adds tr tr' 0 (Z.of_nat (List.length crits)) (snd c' - snd c).
Proof.
  induction crits as [| crit rest IH]; intros c c' tr tr'.
  - cbn [run_criteria ret]. intros [= <- <-]. unfold adds. cbn. lia.
  - cbn [run_criteria]. unfold bind.
    destruct (run_pair lib w self ds_id ds_name crit c tr) as [[c1 | e] tr1] eqn:Ep;
      [| discriminate].
    intros Hr. apply run_pair_adds in Ep. apply IH in Hr.
    unfold adds in *. cbn [List.length]. lia.
Qed.

Lemma run_datasets_adds (lib : PyLib) (w : World) (self : FeastDQOnlyConnector)
    (dss : list string) :
  forall (c c' : Z * Z) (tr tr' : trace),
  run_datasets lib w self dss c tr = (Ok c', tr') ->
  fst c' = fst c + Z.of_nat (List.length dss)
                   * Z.of_nat (List.length (criteria_ids self))
  /\ adds tr tr' (Z.of_nat (List.length dss)) (fst c' - fst c) (snd c' - snd c).
Proof.
  induction dss as [| ds rest IH]; intros c c' tr tr'.
  - cbn [run_datasets ret]. intros [= <- <-]. unfold adds. cbn. lia.
  - cbn [run_datasets]. unfold bind at 1. unfold run_dataset at 1. unfold bind at 1.
    pose proof (fetch_dataset_name_adds w self ds tr) as A.
    destruct (fetch_dataset_name w self ds tr) as [[nm | e] tr0]; [| discriminate].
    cbn [snd] in A.
    destruct (run_criteria lib w self ds nm (criteria_ids self) c tr0)
      as [[c1 | e] tr1] eqn:Ec; [| discriminate].
    intros Hr. apply run_criteria_adds in Ec. apply IH in Hr.
    unfold adds in *. cbn [List.length]. lia.
Qed.

(** X14: when a run returns, its pair counter is the number of datasets
    times the number of criteria, its event counter is the number of
    events forwarded, and it has made one metadata read per dataset, one
    evaluation per pair and nothing else. *)
Theorem run_once_counts (lib : PyLib) (w : World) (self : FeastDQOnlyConnector)
    (c : Z * Z) (tr : trace) :
  run_once lib w self [] = (Ok c, tr) ->
  fst c = Z.of_nat (List.length (dataset_ids self))
          * Z.of_nat (List.length (criteria_ids self)) /\
  count is_get tr = Z.of_nat (List.length (dataset_ids self)) /\
  count is_quality tr = fst c /\
  count is_event tr = snd c /\
  Z.of_nat (List.length tr)
  = Z.of_nat (List.length (dataset_ids self)) + fst c + snd c.
Proof.
  intros H. unfold run_once in H. apply run_datasets_adds in H.
  pose proof (count_kinds tr) as K.
  unfold adds in H. cbn in H. lia.
Qed.

Lemma run_once_counts_witness :
  run_once no_lib (sample_world one_result_report 200)
    (sample_connector (Some "dG9r")) []
  = (Ok (2, 2),
     snd (run_once no_lib (sample_world one_result_report 200)
            (sample_connector (Some "dG9r")) [])) /\
  count is_event
    (snd (run_once no_lib (sample_world one_result_report 200)
            (sample_connector (Some "dG9r")) [])) = 2.
Proof.
  split; [vm_compute; reflexivity |].
  apply (run_once_counts no_lib (sample_world one_result_report 200)
           (sample_connector (Some "dG9r")) (2, 2)).
  vm_compute. reflexivity.
Defined.

(** ** The start-up block *)

Lemma lstrip_by_first (p : ascii -> bool) (s : string) (c : ascii) :
  first_char (lstrip_by p s) = Some c -> p c = false.
Proof.
  induction s as [| a s IH]; cbn [lstrip_by]; [discriminate |].
  destruct (p a) eqn:Ha; [exact IH |]. intros [= <-]. exact Ha.
Qed.

Lemma lstrip_by_last (p : ascii -> bool) (s : string) (c : ascii) :
  last_char (lstrip_by p s) = Some c -> last_char s = Some c.
Proof.
  induction s as [| a s IH]; cbn [lstrip_by]; [discriminate |].
  destruct (p a) eqn:Ha; [| exact (fun H => H)].
  intros H. specialize (IH H). cbn [last_char].
  destruct s; [discriminate IH | exact IH].
Qed.

Lemma rstrip_by_fix (p : ascii -> bool) (s : string) :
  (forall c, last_char s = Some c -> p c = false) -> rstrip_by p s = s.
Proof.
  induction s as [| a s IH]; intros H; [reflexivity |].
  cbn [rstrip_by]. destruct s as [| b s].
  - cbn [rstrip_by]. rewrite (H a eq_refl). reflexivity.
  - rewrite IH by (intros c Hc; apply H; exact Hc). reflexivity.
Qed.

Lemma lstrip_by_fix (p : ascii -> bool) (s : string) :
  (forall c, first_char s = Some c -> p c = false) -> lstrip_by p s = s.
Proof.
  destruct s as [| a s]; intros H; [reflexivity |].
  cbn [lstrip_by]. rewrite (H a eq_refl). reflexivity.
Qed.

Lemma strip_idempotent (s : string) : strip (strip s) = strip s.
Proof.
  unfold strip.
  rewrite (rstrip_by_fix is_space (lstrip_by is_space (rstrip_by is_space s))).
  - apply lstrip_by_fix. intros c. apply lstrip_by_first.
  - intros c Hc. apply lstrip_by_last in Hc. eapply rstrip_by_last; eauto.
Qed.

Lemma has_char_lstrip (c : ascii) (p : ascii -> bool) (s : string) :
  has_char c s = false -> has_char c (lstrip_by p s) = false.
Proof.
  unfold has_char. induction s as [| a s IH]; [reflexivity |].
  cbn [lstrip_by]. destruct (p a); [| exact (fun H => H)].
  simpl. intros H. apply orb_false_elim in H. apply IH, H.
Qed.

Lemma has_char_rstrip (c : ascii) (p : ascii -> bool) (s : string) :
  has_char c s = false -> has_char c (rstrip_by p s) = false.
Proof.
  unfold has_char. induction s as [| a s IH]; [reflexivity |].
  simpl. intros H. apply orb_false_elim in H. destruct H as [Ha Hs].
  specialize (IH Hs). destruct (rstrip_by p s) as [| b r].
  - destruct (p a); simpl; [reflexivity |]. rewrite Ha. reflexivity.
  - simpl in *. rewrite Ha. exact IH.
Qed.

Lemma split_comma_no_comma (s : string) :
  Forall (fun x => has_char ","%char x = false) (split_comma s).
Proof.
  induction s as [| a s IH]; cbn [split_comma]; [repeat constructor |].
  destruct (Ascii.eqb a ","%char) eqn:Ea.
  - constructor; [reflexivity | exact IH].
  - destruct (split_comma s) as [| x xs]; [repeat constructor |].
    + unfold has_char. cbn [list_ascii_of_string existsb].
      rewrite Ascii.eqb_sym, Ea. reflexivity.
    + inversion IH as [| y ys Hx Hxs]; subst. constructor; [| exact Hxs].
      unfold has_char in *. cbn [list_ascii_of_string existsb].
      rewrite Ascii.eqb_sym, Ea. exact Hx.
Qed.

Lemma parse_id_list_clean_aux (s : string) : Forall clean_id (parse_id_list s).
Proof.
  unfold parse_id_list. apply Forall_map.
  pose proof (split_comma_no_comma s) as H.
  induction H as [| x xs Hx _ IH]; cbn [filter]; [constructor |].
  destruct (str_truthy (strip x)) eqn:E; [| exact IH].
  constructor; [| exact IH]. split; [| split].
  - intros Hn. rewrite Hn in E. discriminate E.
  - apply strip_idempotent.
  - unfold strip. apply has_char_lstrip, has_char_rstrip, Hx.
Qed.

Lemma split_comma_nonempty (s : string) : split_comma s <> [].
Proof.
  destruct s as [| a s]; cbn [split_comma]; [discriminate |].
  destruct (Ascii.eqb a ","%char); [discriminate |].
  destruct (split_comma s); discriminate.
Qed.

Lemma split_comma_join (s : string) : String.concat "," (split_comma s) = s.
Proof.
  induction s as [| a s IH]; [reflexivity |]. cbn [split_comma].
  pose proof (split_comma_nonempty s) as Hne.
  destruct (split_comma s) as [| x xs] eqn:E; [now elim Hne |].
  destruct (Ascii.eqb_spec a ","%char) as [-> | _].
  - change (String ","%char (String.concat "," (x :: xs)) = String ","%char s).
    rewrite IH. reflexivity.
  - destruct xs as [| y ys].
    + change (String a (String.concat "," [x]) = String a s).
      rewrite IH. reflexivity.
    + change (String a (String.concat "," (x :: y :: ys)) = String a s).
      rewrite IH. reflexivity.
Qed.

(** X15: the identifiers read from a comma-separated setting are never
    empty, have no whitespace at either end and contain no comma; they are
    the trimmed non-blank pieces of the setting, in its order. *)
Theorem parse_id_list_clean (s : string) :
  Forall clean_id (parse_id_list s) /\
  exists pieces,
    String.concat "," pieces = s /\
    parse_id_list s = map strip (filter (fun c => str_truthy (strip c)) pieces).
Proof.
  split; [apply parse_id_list_clean_aux |].
  exists (split_comma s). split; [apply split_comma_join | reflexivity].
Qed.

Example parse_id_list_sample :
  parse_id_list " c1 ,, c2" = ["c1"; "c2"] /\ parse_id_list "" = []
  /\ parse_id_list " , " = [].
Proof. repeat split. Qed.

Lemma startup_eq (env : Env) :
  startup env =
  if config_missing env then Raise RuntimeError else Ok (configured env).
Proof.
  unfold startup, config_missing, configured. cbv zeta.
  assert (Htok : _opt (Some (getenv_default (LOGSTASH_BASIC_AUTH env) ""))
                 = if token_absent (LOGSTASH_BASIC_AUTH env) then None
                   else LOGSTASH_BASIC_AUTH env).
  { destruct (LOGSTASH_BASIC_AUTH env) as [a |]; [| reflexivity].
    cbn [getenv_default token_absent]. destruct (all_space a) eqn:Ea.
    - apply (_opt_absent (Some a) Ea).
    - apply (_opt_present a Ea). }
  rewrite Htok. clear Htok.
  destruct (FEAST_SERVER_URL env) as [f |], (LOGSTASH_URL env) as [l |],
    (LOGSTASH_BASIC_AUTH env) as [a |];
    cbn [getenv_default token_absent str_truthy String.eqb negb orb andb];
    rewrite ?orb_true_r; try reflexivity.
  destruct (all_space a) eqn:Ea; [rewrite ?orb_true_r; reflexivity |].
  assert (Ht : str_truthy a = true) by (destruct a; [discriminate Ea | reflexivity]).
  unfold str_truthy in *. rewrite Ht, !andb_true_r, !orb_false_r.
  destruct (negb (f =? "")%string),
    (list_truthy (parse_id_list (getenv_default (FEAST_CRITERIA_IDS env) ""))),
    (list_truthy (parse_id_list (getenv_default (FEAST_DATASET_IDS env) ""))),
    (negb (l =? "")%string); reflexivity.
Qed.

(** X16: the start-up block raises the configuration error, before any
    request is made, exactly when one of the five settings is unset or
    blank (a URL empty or unset, a list with no identifier, a token that
    is empty or whitespace); otherwise it runs the connector built from
    the settings once. *)
Theorem main_spec (lib : PyLib) (w : World) (env : Env) (tr : trace) :
  main lib w env tr =
  if config_missing env then (Raise RuntimeError, tr)
  else run_once lib w (configured env) tr.
Proof.
  unfold main, bind, lift. rewrite startup_eq.
  destruct (config_missing env); reflexivity.
Qed.

(** X17: a connector that the start-up block builds is well formed: its
    base URL has no trailing slash, its lists are non-empty lists of
    clean identifiers, and its token resolves, so that forwarding an event
    cannot fail for lack of credentials. *)
Theorem startup_connector (env : Env) (self : FeastDQOnlyConnector) :
  startup env = Ok self ->
  last_char (base self) <> Some "/"%char /\
  criteria_ids self <> [] /\ Forall clean_id (criteria_ids self) /\
  dataset_ids self <> [] /\ Forall clean_id (dataset_ids self) /\
  logstash_url self <> EmptyString /\
  exists tok,
    logstash_basic_auth self = Some tok /\
    _resolve_logstash_basic self = Ok tok.
Proof.
  rewrite startup_eq. unfold config_missing.
  destruct (str_truthy (getenv_default (FEAST_SERVER_URL env) "")); [| discriminate].
  destruct (list_truthy (parse_id_list (getenv_default (FEAST_CRITERIA_IDS env) "")))
    eqn:Ec; [| discriminate].
  destruct (list_truthy (parse_id_list (getenv_default (FEAST_DATASET_IDS env) "")))
    eqn:Ed; [| discriminate].
  destruct (str_truthy (getenv_default (LOGSTASH_URL env) "")) eqn:El;
    [| discriminate].
  destruct (token_absent (LOGSTASH_BASIC_AUTH env)) eqn:Et; [discriminate |].
  cbn [negb orb]. intros [= <-]. unfold configured.
  cbn [base criteria_ids dataset_ids logstash_url logstash_basic_auth new_connector].
  split.
  { unfold rstrip_slash. intros H. apply rstrip_by_last in H. discriminate H. }
  split; [intros H; rewrite H in Ec; discriminate Ec |].
  split; [apply parse_id_list_clean_aux |].
  split; [intros H; rewrite H in Ed; discriminate Ed |].
  split; [apply parse_id_list_clean_aux |].
  split; [intros H; rewrite H in El; discriminate El |].
  destruct (LOGSTASH_BASIC_AUTH env) as [tok |]; [| discriminate Et].
  exists tok. split; [reflexivity |].
  unfold _resolve_logstash_basic.
  cbn [logstash_basic_auth new_connector]. rewrite (_opt_present tok Et).
  assert (Ht : str_truthy tok = true) by (destruct tok; [discriminate Et | reflexivity]).
  rewrite Ht. reflexivity.
Qed.

Lemma startup_connector_witness :
  exists self,
    startup sample_env = Ok self /\
    base self = "http://feast" /\
    criteria_ids self = ["c1"; "c2"] /\ dataset_ids self = ["d1"] /\
    exists tok,
      logstash_basic_auth self = Some tok /\
      _resolve_logstash_basic self = Ok tok.
Proof.
  eexists. split; [reflexivity |]. repeat (split; [reflexivity |]).
  exact (proj2 (proj2 (proj2 (proj2 (proj2 (proj2
           (startup_connector sample_env _ eq_refl))))))).
Defined.

(** ** Timestamps given as strings *)

Lemma days_before_year_succ (y : Z) :
  days_before_year (y + 1)
  = days_before_year y + 365 + (if is_leap y then 1 else 0).
Proof.
  unfold days_before_year. cbv zeta.
  destruct (is_leap y) eqn:E;
    [apply is_leap_true in E | apply is_leap_false in E]; dlia.
Qed.

Lemma days_before_year_mono (y y' : Z) :
  y <= y' -> days_before_year y <= days_before_year y'.
Proof. unfold days_before_year. cbv zeta. intros H. dlia. Qed.

Lemma ymd_to_ord_inj (y m d y' m' d' : Z) :
  1 <= m <= 12 -> 1 <= d <= days_in_month y m ->
  1 <= m' <= 12 -> 1 <= d' <= days_in_month y' m' ->
  ymd_to_ord y m d = ymd_to_ord y' m' d' ->
  y = y' /\ m = m' /\ d = d'.
Proof.
  intros Hm Hd Hm' Hd' E.
  pose proof (days_before_month_bound y m d Hm Hd) as B.
  pose proof (days_before_month_bound y' m' d' Hm' Hd') as B'.
  pose proof (days_before_year_succ y) as S.
  pose proof (days_before_year_succ y') as S'.
  unfold ymd_to_ord in E.
  assert (Hy : y = y').
  { destruct (Z.lt_trichotomy y y') as [Hlt | [Heq | Hgt]]; [| exact Heq |].
    - pose proof (days_before_year_mono (y + 1) y' ltac:(lia)). lia.
    - pose proof (days_before_year_mono (y' + 1) y ltac:(lia)). lia. }
  subst y'. split; [reflexivity |].
  assert (E2 : days_before_month y m + d = days_before_month y m' + d') by lia.
  clear E B B' S S'.
  unfold days_before_month, days_in_month in *.
  destruct (is_leap y);
    each_month Hm; each_month Hm'; eval_literals;
    revert Hd Hd' E2; eval_literals;
    cbv beta iota delta [days_before_month_table]; lia.
Qed.

Lemma ord_to_ymd_ymd_to_ord (y m d : Z) :
  1 <= m <= 12 -> 1 <= d <= days_in_month y m ->
  ord_to_ymd (ymd_to_ord y m d) = (y, m, d).
Proof.
  intros Hm Hd. pose proof (ord_to_ymd_spec (ymd_to_ord y m d)) as S.
  destruct (ord_to_ymd (ymd_to_ord y m d)) as [[y' m'] d'].
  destruct S as (Hm' & Hd' & E).
  destruct (ymd_to_ord_inj _ _ _ _ _ _ Hm' Hd' Hm Hd E) as (-> & -> & ->).
  reflexivity.
Qed.

Lemma us_of_datetime_replace (dt : datetime) :
  tzinfo dt = None \/ tzinfo dt = Some 0 ->
  us_of_datetime (match tzinfo dt with
                  | None => replace_tzinfo_utc dt
                  | Some _ => dt
                  end) = us_of_datetime dt.
Proof.
  intros [H | H]; rewrite H; [| reflexivity].
  unfold us_of_datetime, replace_tzinfo_utc. cbn. rewrite H. reflexivity.
Qed.

Lemma valid_datetime_bounds (dt : datetime) :
  valid_datetime dt = true ->
  (MINYEAR <= year dt <= MAXYEAR) /\ (1 <= month dt <= 12)
  /\ (1 <= day dt <= days_in_month (year dt) (month dt))
  /\ (0 <= hour dt < 24) /\ (0 <= minute dt < 60) /\ (0 <= second dt < 60)
  /\ (0 <= microsecond dt < 1000000).
Proof.
  unfold valid_datetime. intros H.
  repeat (apply andb_prop in H; destruct H as [H ?]).
  repeat match goal with
         | H : (_ <=? _) = true |- _ => apply Z.leb_le in H
         | H : (_ <? _) = true |- _ => apply Z.ltb_lt in H
         end.
  lia.
Qed.

Lemma utc_of_us_of_datetime (dt : datetime) :
  valid_datetime dt = true ->
  tzinfo dt = None \/ tzinfo dt = Some 0 ->
  in_datetime_range (us_of_datetime dt) = true /\
  utc_of_us (us_of_datetime dt) = replace_tzinfo_utc dt.
Proof.
  intros Hv Htz.
  destruct (valid_datetime_bounds dt Hv) as (Hy & Hm & Hd & Hh & Hmi & Hs & Hus).
  pose proof (days_before_month_bound _ _ _ Hm Hd) as B.
  pose proof (days_before_year_mono MINYEAR (year dt) ltac:(lia)) as Mlo.
  pose proof (days_before_year_mono (year dt + 1) (MAXYEAR + 1) ltac:(lia)) as Mhi.
  pose proof (days_before_year_succ (year dt)) as S.
  change (days_before_year MINYEAR) with 0 in Mlo.
  change (days_before_year (MAXYEAR + 1)) with 3652059 in Mhi.
  assert (Hord : 1 <= ymd_to_ord (year dt) (month dt) (day dt) <= 3652059)
    by (unfold ymd_to_ord; lia).
  assert (Hoff : match tzinfo dt with Some off => off | None => 0 end = 0)
    by (destruct Htz as [-> | ->]; reflexivity).
  pose proof (ord_to_ymd_ymd_to_ord _ _ _ Hm Hd) as R.
  unfold us_of_datetime. rewrite Hoff.
  set (o := ymd_to_ord (year dt) (month dt) (day dt)) in *.
  split.
  - unfold in_datetime_range, MIN_US, MAX_US, EPOCH_ORD.
    apply andb_true_intro. split; [apply Z.leb_le | apply Z.ltb_lt]; lia.
  - unfold utc_of_us, EPOCH_ORD.
    set (us := ((o - 719163) * 86400 + hour dt * 3600 + minute dt * 60
                + second dt - 0) * 1000000 + microsecond dt).
    assert (Hsecs : us / 1000000
                    = (o - 719163) * 86400 + hour dt * 3600 + minute dt * 60
                      + second dt) by (unfold us; dlia).
    assert (Hmicro : us mod 1000000 = microsecond dt) by (unfold us; dlia).
    rewrite Hsecs, Hmicro.
    set (secs := (o - 719163) * 86400 + hour dt * 3600 + minute dt * 60
                 + second dt).
    assert (Hdays : secs / 86400 + 719163 = o) by (unfold secs; dlia).
    assert (Hh' : secs mod 86400 / 3600 = hour dt) by (unfold secs; dlia).
    assert (Hmi' : secs mod 86400 mod 3600 / 60 = minute dt) by (unfold secs; dlia).
    assert (Hs' : secs mod 86400 mod 60 = second dt) by (unfold secs; dlia).
    rewrite Hdays, R, Hh', Hmi', Hs'. reflexivity.
Qed.

(** X18: a timestamp that parses is rendered as the same instant in UTC:
    its offset, if it has one, is taken off, and one without offset is
    read as UTC.  The string returned reads back as that instant in whole
    milliseconds.  If the instant in UTC is outside the years [datetime]
    can hold, the current time is returned instead. *)
Theorem to_iso_z_parsed (lib : PyLib) (now : Z) (ts : pyval) (dt : datetime) :
  numeric ts = false -> ts <> VNone -> isoparse lib ts = Ok dt ->
  (in_datetime_range (us_of_datetime dt) = true ->
   exists body,
     to_iso_z lib now ts = Ok (body ++ "Z")%string /\
     String.length body = 23%nat /\
     parse_iso_ms_z (body ++ "Z") = Some (us_of_datetime dt / 1000)) /\
  (in_datetime_range (us_of_datetime dt) = false ->
   to_iso_z lib now ts = Ok (iso_z (datetime_now_utc now))).
Proof.
  intros Hn Hnone Hp. rewrite (to_iso_z_other_eq _ _ _ Hn).
  assert (E : us_of_datetime (match tzinfo dt with
                              | None => replace_tzinfo_utc dt
                              | Some _ => dt
                              end) = us_of_datetime dt).
  { destruct (tzinfo dt) eqn:Et; [reflexivity |].
    unfold us_of_datetime, replace_tzinfo_utc. cbn. rewrite Et. reflexivity. }
  destruct ts; try discriminate Hn; try (now elim Hnone);
    rewrite Hp; cbn [rbind]; unfold astimezone_utc; rewrite E;
    (split; intros Hr; rewrite Hr; [| reflexivity]);
    destruct (iso_z_utc_of_us_shape (us_of_datetime dt)) as (body & Hb & Hl);
    exists body; rewrite <- Hb; auto using parse_iso_z_utc_of_us.
Qed.

(** X19: a timestamp that parses to a valid date and time without offset
    (or with offset zero) comes back with the very same calendar fields,
    the fraction cut to milliseconds, and a "Z": it is treated as UTC and
    not shifted by any local zone. *)
Theorem to_iso_z_naive_is_utc (lib : PyLib) (now : Z) (ts : pyval)
    (dt : datetime) :
  numeric ts = false -> ts <> VNone -> isoparse lib ts = Ok dt ->
  valid_datetime dt = true ->
  tzinfo dt = None \/ tzinfo dt = Some 0 ->
  to_iso_z lib now ts =
  Ok (zfill 4 (year dt) ++ "-" ++ zfill 2 (month dt) ++ "-" ++ zfill 2 (day dt)
      ++ "T" ++ zfill 2 (hour dt) ++ ":" ++ zfill 2 (minute dt)
      ++ ":" ++ zfill 2 (second dt) ++ "." ++ zfill 3 (microsecond dt / 1000)
      ++ "Z")%string.
Proof.
  intros Hn Hnone Hp Hv Htz. rewrite (to_iso_z_other_eq _ _ _ Hn).
  destruct (utc_of_us_of_datetime dt Hv Htz) as [Hr Hu].
  pose proof (us_of_datetime_replace dt Htz) as E.
  assert (Hiso : iso_z (replace_tzinfo_utc dt)
                 = (iso_body (replace_tzinfo_utc dt) ++ "Z")%string)
    by (apply iso_z_utc; reflexivity).
  destruct ts; try discriminate Hn; try (now elim Hnone);
    rewrite Hp; cbn [rbind]; unfold astimezone_utc; rewrite E, Hr, Hu, Hiso;
    unfold iso_body;
    cbn [replace_tzinfo_utc year month day hour minute second microsecond];
    rewrite !string_app_assoc; reflexivity.
Qed.

Lemma to_iso_z_naive_is_utc_witness :
  to_iso_z
    (lib_parsing "2024-01-01T00:00:00"
       {| year := 2024; month := 1; day := 1; hour := 0; minute := 0;
          second := 0; microsecond := 0; tzinfo := None |})
    1700000000000000 (VStr "2024-01-01T00:00:00")
  = Ok "2024-01-01T00:00:00.000Z".
Proof.
  exact (to_iso_z_naive_is_utc
           (lib_parsing "2024-01-01T00:00:00"
              {| year := 2024; month := 1; day := 1; hour := 0; minute := 0;
                 second := 0; microsecond := 0; tzinfo := None |})
           1700000000000000 (VStr "2024-01-01T00:00:00") _
           eq_refl ltac:(discriminate) eq_refl eq_refl (or_introl eq_refl)).
Defined.

Lemma to_iso_z_parsed_witness :
  exists body,
    to_iso_z
      (lib_parsing "2024-01-01T02:00:00+02:00"
         {| year := 2024; month := 1; day := 1; hour := 2; minute := 0;
            second := 0; microsecond := 0; tzinfo := Some 7200 |})
      1700000000000000 (VStr "2024-01-01T02:00:00+02:00")
    = Ok (body ++ "Z")%string /\
    String.length body = 23%nat /\
    parse_iso_ms_z (body ++ "Z") = Some 1704067200000.
Proof.
  exact (proj1 (to_iso_z_parsed
                  (lib_parsing "2024-01-01T02:00:00+02:00"
                     {| year := 2024; month := 1; day := 1; hour := 2;
                        minute := 0; second := 0; microsecond := 0;
                        tzinfo := Some 7200 |})
                  1700000000000000 (VStr "2024-01-01T02:00:00+02:00") _
                  eq_refl ltac:(discriminate) eq_refl) eq_refl).
Defined.

Example to_iso_z_offset_sample :
  to_iso_z
    (lib_parsing "2024-01-01T02:00:00+02:00"
       {| year := 2024; month := 1; day := 1; hour := 2; minute := 0;
          second := 0; microsecond := 0; tzinfo := Some 7200 |})
    1700000000000000 (VStr "2024-01-01T02:00:00+02:00")
  = Ok "2024-01-01T00:00:00.000Z".
Proof. vm_compute. reflexivity. Qed.
